(** * dify-api-helper: the client wrapper (dify_client.py) and the HTTP
    front end (api_server.py), embedded as state-passing functions.

    The remote platform, the file system, the process environment and the
    interpreter's [str] builtin are the program's surroundings; they are
    gathered in a record [env] that every operation receives.  Every request
    handed to the transport is appended to a log, so that "which requests
    went out, in which order, with which headers and body" is a value the
    theorems can talk about. *)

From Stdlib Require Import ZArith Ascii String QArith.QArith_base.
From stdpp Require Import base option list strings gmap fin_maps.

Local Open Scope string_scope.
Local Open Scope Z_scope.
Local Open Scope list_scope.

(** ** JSON documents, as Python decodes them *)

#[warnings="-register-all"]
Inductive json : Type :=
| JNull
| JBool (b : bool)
| JInt (n : Z)
| JFloat (q : Q)          (* carried as the rational its literal denotes; never computed with *)
| JStr (s : string)
| JList (l : list json)
| JObj (d : gmap string json).

(** Python truthiness: [bool(x)] for a decoded JSON value. *)
Definition truthy (j : json) : bool :=
  match j with
  | JNull => false
  | JBool b => b
  | JInt n => negb (Z.eqb n 0)
  | JFloat q => negb (Qeq_bool q (Qmake 0 1))
  | JStr s => negb (String.eqb s "")
  | JList l => match l with [] => false | _ => true end
  | JObj d => negb (bool_decide (d = ∅))
  end.

(** [a or b]. *)
Definition py_or (a b : json) : json := if truthy a then a else b.

(** [x == "lit"] for a string literal on the right. *)
Definition eq_str (j : json) (lit : string) : bool :=
  match j with
  | JStr s => String.eqb s lit
  | _ => false
  end.

(** [data.get(k)] and [data.get(k, default)] on a dict. *)
Definition dict_get (k : string) (d : gmap string json) : json :=
  default JNull (d !! k).
Definition dict_get_default (k : string) (dflt : json) (d : gmap string json) : json :=
  default dflt (d !! k).

(** ** Exceptions and HTTP traffic *)

Inductive http_method := GET | POST | PUT | DELETE.

(** What a request carries besides its headers: nothing, a [json=] body, a
    [files=] upload (field name and file contents) or [params=] for the
    query string. *)
Inductive payload :=
| NoPayload
| JsonPayload (j : json)
| FilesPayload (field : string) (content : string)
| QueryParams (p : json).

Record request := {
  req_method : http_method;
  req_url : string;
  req_headers : gmap string string;
  req_body : payload }.

(** A response as the client reads it: the status line and the body as
    [response.json()] decodes it ([None] when the body is not JSON). *)
Record response := {
  status_code : Z;
  json_body : option json }.

(** What the transport gives back for one request. *)
Inductive outcome :=
| Unreachable (why : string)
| Answer (r : response).

Inductive exn :=
| HTTPError (r : response)
| ConnectionError (why : string)
| JSONDecodeError
| TypeError (operation : string) (operand : json)
| KeyError (key : string)
| AttributeError (attr : string) (operand : json)
| FileNotFoundError (path : string).

Inductive result (A : Type) :=
| Raise (e : exn)
| Return (a : A).
Arguments Raise {A} e.
Arguments Return {A} a.

(** The surroundings of the program.  [remote] answers a request given the
    requests that went out before it, so the remote platform may keep any
    state it likes.  [py_str] is [str(x)] on a value that is not already a
    string, [exn_str] is [str(e)]. *)
Record env := {
  remote : list request -> request -> outcome;
  open_rb : string -> option string;
  getenv : string -> option string;
  py_str : json -> string;
  exn_str : exn -> string }.

(** ** Python operators on decoded JSON *)

(** [needle in j]. *)
Definition contains (needle : string) (j : json) : result bool :=
  match j with
  | JObj d => Return (bool_decide (is_Some (d !! needle)))
  | JList l => Return (existsb (fun x => eq_str x needle) l)
  | JStr s => Return (match String.index 0 needle s with Some _ => true | None => false end)
  | _ => Raise (TypeError "in" j)
  end.

(** [j[k]] for a string key. *)
Definition getitem (j : json) (k : string) : result json :=
  match j with
  | JObj d => match d !! k with
              | Some v => Return v
              | None => Raise (KeyError k)
              end
  | _ => Raise (TypeError "getitem" j)
  end.

(** [j[k] = v] for a string key. *)
Definition setitem (j : json) (k : string) (v : json) : result json :=
  match j with
  | JObj d => Return (JObj (<[k := v]> d))
  | _ => Raise (TypeError "setitem" j)
  end.

(** [j.append(x)]. *)
Definition append (j : json) (x : json) : result json :=
  match j with
  | JList l => Return (JList (l ++ [x]))
  | _ => Raise (AttributeError "append" j)
  end.

(** [s.rstrip('/')]. *)
Fixpoint rstrip_slash (s : string) : string :=
  match s with
  | EmptyString => EmptyString
  | String c rest =>
      match rstrip_slash rest with
      | EmptyString => if Ascii.eqb c "/"%char then EmptyString else String c EmptyString
      | r => String c r
      end
  end.

(** Modelled from the spec: [Response.raise_for_status] belongs to the
    transport library, which is not part of the repository; the specification
    describes it as raising on every non-2xx status.  [is_2xx] is the test it
    is taken to make. *)
Definition is_2xx (status : Z) : bool := (200 <=? status) && (status <? 300).

(** ** The client object and its state monad *)

(** [requests.Session], as far as the program uses it: its headers.  Only
    the entries the program puts there are tracked. *)
Record Session := { headers : gmap string string }.

Record DifyClient := {
  base_url : string;
  console_api : string;
  public_api : string;
  api_key : option string;
  session : Session }.

(** A running client: the object and the log of requests sent so far. *)
Record cstate := { self : DifyClient; sent : list request }.

Definition M (A : Type) : Type := cstate -> result A * cstate.

Definition ret {A} (a : A) : M A := fun s => (Return a, s).
Definition raise {A} (e : exn) : M A := fun s => (Raise e, s).
Definition lift {A} (r : result A) : M A := fun s => (r, s).
Definition bind {A B} (m : M A) (k : A -> M B) : M B := fun s =>
  match m s with
  | (Return a, s') => k a s'
  | (Raise e, s') => (Raise e, s')
  end.
Definition get_self : M DifyClient := fun s => (Return (self s), s).
Definition put_self (c : DifyClient) : M unit := fun s =>
  (Return tt, {| self := c; sent := sent s |}).

Declare Scope py_scope.
Delimit Scope py_scope with py.
Notation "x <- m ;; k" := (bind m (fun x => k))
  (at level 100, m at next level, right associativity) : py_scope.
Notation "m ;;; k" := (bind m (fun _ => k))
  (at level 100, right associativity) : py_scope.
Local Open Scope py_scope.

(** ** dify_client.py: class DifyClient *)

Module Client.
Section WithEnv.
Context (E : env).

(** [f"{x}"]: a string is inserted as it is, any other value through [str]. *)
Definition fmt (j : json) : string :=
  match j with
  | JStr s => s
  | _ => py_str E j
  end.

(** Hand one request to the transport; it is logged whether or not the
    remote answers. *)
Definition send (r : request) : M response := fun s =>
  let s' := {| self := self s; sent := sent s ++ [r] |} in
  match remote E (sent s) r with
  | Unreachable why => (Raise (ConnectionError why), s')
  | Answer resp => (Return resp, s')
  end.

(** [self.session.request(method, url, ...)]: the session's headers go out
    with the request. *)
Definition session_request (m : http_method) (url : string) (p : payload) : M response :=
  fun s => send {| req_method := m; req_url := url;
                   req_headers := headers (session (self s)); req_body := p |} s.

(** [requests.request(method, url, headers=h, ...)]: no session involved. *)
Definition requests_request (m : http_method) (url : string)
    (h : gmap string string) (p : payload) : M response :=
  send {| req_method := m; req_url := url; req_headers := h; req_body := p |}.

Definition raise_for_status (r : response) : M unit :=
  if is_2xx (status_code r) then ret tt else raise (HTTPError r).

Definition response_json (r : response) : M json :=
  match json_body r with
  | Some j => ret j
  | None => raise JSONDecodeError
  end.

(** [self.session.headers.update({k: v})]. *)
Definition session_headers_update (k v : string) : M unit := fun s =>
  let c := self s in
  (Return tt,
   {| self := {| base_url := base_url c; console_api := console_api c;
                 public_api := public_api c; api_key := api_key c;
                 session := {| headers := <[k := v]> (headers (session c)) |} |};
      sent := sent s |}).

(** [DifyClient(base_url, api_key)]; [rstrip] exists on strings only. *)
Definition init (url : json) (key : option string) : result DifyClient :=
  match url with
  | JStr u =>
      let b := rstrip_slash u in
      Return {| base_url := b;
                console_api := b +:+ "/console/api";
                public_api := b +:+ "/api";
                api_key := key;
                session := {| headers := ∅ |} |}
  | _ => Raise (AttributeError "rstrip" url)
  end.

Definition set_api_key (key : string) : M unit :=
  c <- get_self ;;
  put_self {| base_url := base_url c; console_api := console_api c;
              public_api := public_api c; api_key := Some key;
              session := session c |}.

Definition login (email password : json) : M json :=
  c <- get_self ;;
  let url := console_api c +:+ "/login" in
  let payload := JObj (<["email" := email]> (<["password" := password]> ∅)) in
  response <- session_request POST url (JsonPayload payload) ;;
  raise_for_status response ;;;
  data <- response_json response ;;
  has_data <- lift (contains "data" data) ;;
  has_token <- (if has_data : bool
                then inner <- lift (getitem data "data") ;;
                     lift (contains "access_token" inner)
                else ret false) ;;
  (if has_token : bool
   then inner <- lift (getitem data "data") ;;
        token <- lift (getitem inner "access_token") ;;
        session_headers_update "Authorization" ("Bearer " +:+ fmt token)
   else ret tt) ;;;
  ret data.

Definition get_apps : M json :=
  c <- get_self ;;
  let url := console_api c +:+ "/apps" in
  response <- session_request GET url NoPayload ;;
  raise_for_status response ;;;
  response_json response.

Definition get_app_detail (app_id : string) : M json :=
  c <- get_self ;;
  let url := console_api c +:+ "/apps/" +:+ app_id in
  response <- session_request GET url NoPayload ;;
  raise_for_status response ;;;
  response_json response.

Definition create_app (name mode icon description : json) : M json :=
  c <- get_self ;;
  let url := console_api c +:+ "/apps" in
  let payload := JObj (<["name" := name]> (<["mode" := mode]>
                      (<["icon" := icon]> (<["description" := description]> ∅)))) in
  response <- session_request POST url (JsonPayload payload) ;;
  raise_for_status response ;;;
  response_json response.

Definition update_app_config (app_id : string) (config : json) : M json :=
  c <- get_self ;;
  let url := console_api c +:+ "/apps/" +:+ app_id +:+ "/model-config" in
  response <- session_request POST url (JsonPayload config) ;;
  raise_for_status response ;;;
  response_json response.

Definition get_app_parameters (app_id : string) : M json :=
  c <- get_self ;;
  let url := console_api c +:+ "/apps/" +:+ app_id +:+ "/parameters" in
  response <- session_request GET url NoPayload ;;
  raise_for_status response ;;;
  response_json response.

Definition update_app_parameters (app_id : string) (parameters : json) : M json :=
  c <- get_self ;;
  let url := console_api c +:+ "/apps/" +:+ app_id +:+ "/parameters" in
  response <- session_request POST url (JsonPayload parameters) ;;
  raise_for_status response ;;;
  response_json response.

Definition get_prompt_config (app_id : string) : M json :=
  c <- get_self ;;
  let url := console_api c +:+ "/apps/" +:+ app_id +:+ "/model-config" in
  response <- session_request GET url NoPayload ;;
  raise_for_status response ;;;
  response_json response.

(** The nested assignment [cfg['completion_params']['prompt'] = prompt]
    changes the inner dict in place; the outer dict keeps pointing to it,
    which the write-back of [inner'] under the same key expresses. *)
Definition update_prompt (app_id : string) (prompt mode : json) : M json :=
  current_config <- get_prompt_config app_id ;;
  current_config <- (if eq_str mode "chat"
                     then lift (setitem current_config "prompt_template" prompt)
                     else inner <- lift (getitem current_config "completion_params") ;;
                          inner' <- lift (setitem inner "prompt" prompt) ;;
                          lift (setitem current_config "completion_params" inner')) ;;
  update_app_config app_id current_config.

Definition update_model_settings (app_id : string)
    (model_name temperature max_tokens top_p : json) : M json :=
  let config :=
    JObj (<["model" :=
             JObj (<["name" := model_name]>
                  (<["completion_params" :=
                      JObj (<["temperature" := temperature]>
                           (<["max_tokens" := max_tokens]>
                           (<["top_p" := top_p]> ∅)))]> ∅))]> ∅) in
  update_app_config app_id config.

Definition new_variable (variable_name variable_type label required max_length : json) : json :=
  JObj (<["variable" := variable_name]>
       (<["type" := variable_type]>
       (<["label" := py_or label variable_name]>
       (<["required" := required]>
       (<["max_length" := max_length]> ∅))))).

(** [params['user_input_form'].append(v)] changes the list held by the dict
    in place, hence the write-back under the same key. *)
Definition add_variable (app_id : string)
    (variable_name variable_type label required max_length : json) : M json :=
  params <- get_app_parameters app_id ;;
  let v := new_variable variable_name variable_type label required max_length in
  present <- lift (contains "user_input_form" params) ;;
  params <- (if present : bool then ret params
             else lift (setitem params "user_input_form" (JList []))) ;;
  form <- lift (getitem params "user_input_form") ;;
  form' <- lift (append form v) ;;
  params <- lift (setitem params "user_input_form" form') ;;
  update_app_parameters app_id params.

Definition update_opening_statement (app_id : string)
    (opening_statement suggested_questions : json) : M json :=
  params <- get_app_parameters app_id ;;
  params <- lift (setitem params "opening_statement" opening_statement) ;;
  params <- (if truthy suggested_questions
             then lift (setitem params "suggested_questions" suggested_questions)
             else ret params) ;;
  update_app_parameters app_id params.

Definition get_workflow (app_id : string) : M json :=
  c <- get_self ;;
  let url := console_api c +:+ "/apps/" +:+ app_id +:+ "/workflows/draft" in
  response <- session_request GET url NoPayload ;;
  raise_for_status response ;;;
  response_json response.

Definition update_workflow (app_id : string) (workflow_data : json) : M json :=
  c <- get_self ;;
  let url := console_api c +:+ "/apps/" +:+ app_id +:+ "/workflows/draft" in
  response <- session_request POST url (JsonPayload workflow_data) ;;
  raise_for_status response ;;;
  response_json response.

Definition publish_workflow (app_id : string) : M json :=
  c <- get_self ;;
  let url := console_api c +:+ "/apps/" +:+ app_id +:+ "/workflows/publish" in
  response <- session_request POST url (JsonPayload (JObj ∅)) ;;
  raise_for_status response ;;;
  response_json response.

(** As in [add_variable], the list under [agent_mode.tools] is changed in
    place. *)
Definition add_tool_to_app (app_id : string) (tool_name tool_config : json) : M json :=
  config <- get_prompt_config app_id ;;
  present <- lift (contains "agent_mode" config) ;;
  config <- (if present : bool then ret config
             else lift (setitem config "agent_mode"
                          (JObj (<["enabled" := JBool true]> (<["tools" := JList []]> ∅))))) ;;
  agent <- lift (getitem config "agent_mode") ;;
  tools <- lift (getitem agent "tools") ;;
  tools' <- lift (append tools
                    (JObj (<["tool_name" := tool_name]> (<["tool_config" := tool_config]> ∅)))) ;;
  agent' <- lift (setitem agent "tools" tools') ;;
  config <- lift (setitem config "agent_mode" agent') ;;
  update_app_config app_id config.

Definition link_knowledge_base (app_id : string) (dataset_id retrieval_model : json) : M json :=
  c <- get_self ;;
  let url := console_api c +:+ "/apps/" +:+ app_id +:+ "/datasets" in
  let payload :=
    JObj (<["datasets" :=
             JList [JObj (<["dataset_id" := dataset_id]>
                         (<["retrieval_model" := retrieval_model]> ∅))]]> ∅) in
  response <- session_request POST url (JsonPayload payload) ;;
  raise_for_status response ;;;
  response_json response.

Definition delete_app (app_id : string) : M json :=
  c <- get_self ;;
  let url := console_api c +:+ "/apps/" +:+ app_id in
  response <- session_request DELETE url NoPayload ;;
  raise_for_status response ;;;
  response_json response.

Definition rename_app (app_id : string) (new_name icon description : json) : M json :=
  c <- get_self ;;
  let url := console_api c +:+ "/apps/" +:+ app_id in
  let payload : gmap string json := <["name" := new_name]> ∅ in
  let payload := if truthy icon then <["icon" := icon]> payload else payload in
  let payload := if truthy description then <["description" := description]> payload
                 else payload in
  response <- session_request PUT url (JsonPayload (JObj payload)) ;;
  raise_for_status response ;;;
  response_json response.

Definition get_datasets : M json :=
  c <- get_self ;;
  let url := console_api c +:+ "/datasets" in
  response <- session_request GET url NoPayload ;;
  raise_for_status response ;;;
  response_json response.

Definition create_dataset (name description : json) : M json :=
  c <- get_self ;;
  let url := console_api c +:+ "/datasets" in
  let payload := JObj (<["name" := name]> (<["description" := description]> ∅)) in
  response <- session_request POST url (JsonPayload payload) ;;
  raise_for_status response ;;;
  response_json response.

Definition upload_document (dataset_id file_path : string) : M json :=
  c <- get_self ;;
  let url := console_api c +:+ "/datasets/" +:+ dataset_id +:+ "/documents" in
  response <- match open_rb E file_path with
              | Some f => session_request POST url (FilesPayload "file" f)
              | None => raise (FileNotFoundError file_path)
              end ;;
  raise_for_status response ;;;
  response_json response.

(** The two public-API operations go through the module-level [requests]
    functions with headers of their own. *)
Definition chat_completion (app_key : string) (query user conversation_id : json) : M json :=
  c <- get_self ;;
  let url := public_api c +:+ "/chat-messages" in
  let hdrs : gmap string string :=
    <["Authorization" := "Bearer " +:+ app_key]>
      (<["Content-Type" := "application/json"]> ∅) in
  let payload : gmap string json :=
    <["query" := query]> (<["user" := user]>
      (<["response_mode" := JStr "blocking"]> ∅)) in
  let payload := if truthy conversation_id
                 then <["conversation_id" := conversation_id]> payload else payload in
  response <- requests_request POST url hdrs (JsonPayload (JObj payload)) ;;
  raise_for_status response ;;;
  response_json response.

Definition get_conversations (app_key : string) (user : json) : M json :=
  c <- get_self ;;
  let url := public_api c +:+ "/conversations" in
  let hdrs : gmap string string := <["Authorization" := "Bearer " +:+ app_key]> ∅ in
  let params := JObj (<["user" := user]> ∅) in
  response <- requests_request GET url hdrs (QueryParams params) ;;
  raise_for_status response ;;;
  response_json response.

End WithEnv.

(** *** The operations of the client, as values *)

Inductive op :=
| SetApiKey (api_key : string)
| Login (email password : json)
| GetApps
| GetAppDetail (app_id : string)
| CreateApp (name mode icon description : json)
| UpdateAppConfig (app_id : string) (config : json)
| GetAppParameters (app_id : string)
| UpdateAppParameters (app_id : string) (parameters : json)
| GetPromptConfig (app_id : string)
| UpdatePrompt (app_id : string) (prompt mode : json)
| UpdateModelSettings (app_id : string) (model_name temperature max_tokens top_p : json)
| AddVariable (app_id : string) (variable_name variable_type label required max_length : json)
| UpdateOpeningStatement (app_id : string) (opening_statement suggested_questions : json)
| GetWorkflow (app_id : string)
| UpdateWorkflow (app_id : string) (workflow_data : json)
| PublishWorkflow (app_id : string)
| AddToolToApp (app_id : string) (tool_name tool_config : json)
| LinkKnowledgeBase (app_id : string) (dataset_id retrieval_model : json)
| DeleteApp (app_id : string)
| RenameApp (app_id : string) (new_name icon description : json)
| GetDatasets
| CreateDataset (name description : json)
| UploadDocument (dataset_id file_path : string)
| ChatCompletion (app_key : string) (query user conversation_id : json)
| GetConversations (app_key : string) (user : json).

(** What a call of each method returns or raises; [set_api_key] has no
    [return] and so gives [None]. *)
Definition run (E : env) (o : op) : M json :=
  match o with
  | SetApiKey k => set_api_key k ;;; ret JNull
  | Login e p => login E e p
  | GetApps => get_apps E
  | GetAppDetail a => get_app_detail E a
  | CreateApp n m i d => create_app E n m i d
  | UpdateAppConfig a c => update_app_config E a c
  | GetAppParameters a => get_app_parameters E a
  | UpdateAppParameters a p => update_app_parameters E a p
  | GetPromptConfig a => get_prompt_config E a
  | UpdatePrompt a p m => update_prompt E a p m
  | UpdateModelSettings a n t mt tp => update_model_settings E a n t mt tp
  | AddVariable a n t l r ml => add_variable E a n t l r ml
  | UpdateOpeningStatement a o q => update_opening_statement E a o q
  | GetWorkflow a => get_workflow E a
  | UpdateWorkflow a w => update_workflow E a w
  | PublishWorkflow a => publish_workflow E a
  | AddToolToApp a n c => add_tool_to_app E a n c
  | LinkKnowledgeBase a d r => link_knowledge_base E a d r
  | DeleteApp a => delete_app E a
  | RenameApp a n i d => rename_app E a n i d
  | GetDatasets => get_datasets E
  | CreateDataset n d => create_dataset E n d
  | UploadDocument d f => upload_document E d f
  | ChatCompletion k q u c => chat_completion E k q u c
  | GetConversations k u => get_conversations E k u
  end.

(** The operations that go through [self.session]. *)
Definition uses_session (o : op) : bool :=
  match o with
  | SetApiKey _ | ChatCompletion _ _ _ _ | GetConversations _ _ => false
  | _ => true
  end.

(** [set_api_key], the one method that talks to nobody. *)
Definition is_set_api_key (o : op) : bool :=
  match o with
  | SetApiKey _ => true
  | _ => false
  end.

(** The operations that fetch a document, change it and write it back. *)
Definition read_modify_write (o : op) : bool :=
  match o with
  | UpdatePrompt _ _ _ | AddVariable _ _ _ _ _ _
  | UpdateOpeningStatement _ _ _ | AddToolToApp _ _ _ => true
  | _ => false
  end.

Definition is_login (o : op) : bool :=
  match o with
  | Login _ _ => true
  | _ => false
  end.

(** A caller running operations one after the other on the same client,
    going on whatever each of them returns or raises. *)
Fixpoint run_all (E : env) (ops : list op) (s : cstate) : cstate :=
  match ops with
  | [] => s
  | o :: rest => run_all E rest (snd (run E o s))
  end.

(** The request [login] sends, and a request made through the session of
    client [c]. *)
Definition session_req (c : DifyClient) (m : http_method) (url : string) (p : payload)
    : request :=
  {| req_method := m; req_url := url; req_headers := headers (session c); req_body := p |}.

Definition login_req (c : DifyClient) (email password : json) : request :=
  session_req c POST (console_api c +:+ "/login")
    (JsonPayload (JObj (<["email" := email]> (<["password" := password]> ∅)))).

End Client.

(** ** api_server.py: the HTTP front end *)

Module Server.

(** The module-level global [client] and, as for the client, the log of
    requests that reached the transport. *)
Record sstate := { client : option DifyClient; wire : list request }.

(** What a call of a view function ends with: [return jsonify(body), status],
    or an exception that the view does not catch.  What the framework then
    answers is the framework's business, not this program's. *)
Inductive reply :=
| Replied (code : Z) (content : json)
| Escaped (e : exn).

Definition status (r : reply) : option Z :=
  match r with
  | Replied code _ => Some code
  | Escaped _ => None
  end.

Definition body (r : reply) : option json :=
  match r with
  | Replied _ content => Some content
  | Escaped _ => None
  end.

Definition view : Type := sstate -> reply * sstate.

Definition jsonify (j : json) (code : Z) : reply := Replied code j.
Definition error_object (message : string) : json := JObj (<["error" := JStr message]> ∅).

Definition not_authenticated : reply :=
  jsonify (error_object "Not authenticated. Call /login first") 401.

(** [data.get(k)] and [data.get(k, default)] on the value of
    [request.json]: a dict answers, any other value has no [get]. *)
Definition data_get (data : json) (k : string) : result json :=
  match data with
  | JObj d => Return (dict_get k d)
  | _ => Raise (AttributeError "get" data)
  end.

Definition data_get_default (data : json) (k : string) (dflt : json) : result json :=
  match data with
  | JObj d => Return (dict_get_default k dflt d)
  | _ => Raise (AttributeError "get" data)
  end.

(** The decorator. *)
Definition require_auth (f : view) : view := fun st =>
  match client st with
  | None => (not_authenticated, st)
  | Some _ => f st
  end.

(** [client.<name>(...)]: the method runs on the object the global points
    to, so what it does to the object is seen through the global afterwards.
    The arguments are computed as part of [m], before the method's own
    code. *)
Definition call (name : string) (m : M json) : sstate -> result json * sstate := fun st =>
  match client st with
  | Some c =>
      let '(r, s) := m {| self := c; sent := wire st |} in
      (r, {| client := Some (self s); wire := sent s |})
  | None => (Raise (AttributeError name JNull), st)
  end.

Section WithEnv.
Context (E : env).

(** [try: result = <call>; return jsonify(result), code
     except Exception as e: return jsonify({"error": str(e)}), 500] *)
Definition relay (code : Z) (c : sstate -> result json * sstate) : view := fun st =>
  match c st with
  | (Return result, st') => (jsonify result code, st')
  | (Raise e, st') => (jsonify (error_object (exn_str E e)) 500, st')
  end.

Definition health : view := fun st =>
  (jsonify (JObj (<["status" := JStr "healthy"]>
                 (<["service" := JStr "dify-api-helper"]> ∅))) 200, st).

Definition login_success : json :=
  JObj (<["success" := JBool true]> (<["message" := JStr "Logged in successfully"]> ∅)).

Definition default_base_url : string :=
  default "https://api-production-50f6.up.railway.app" (getenv E "DIFY_API_URL").

(** The three [data.get] come before the [try]: what they raise escapes. *)
Definition login (data : json) : view := fun st =>
  match data_get data "email" with
  | Raise e => (Escaped e, st)
  | Return email =>
  match data_get data "password" with
  | Raise e => (Escaped e, st)
  | Return password =>
  match data_get_default data "base_url" (JStr default_base_url) with
  | Raise e => (Escaped e, st)
  | Return base_url =>
  if negb (truthy email) || negb (truthy password)
  then (jsonify (error_object "Email and password required") 400, st)
  else
    match Client.init base_url None with
    | Raise e => (jsonify (error_object (exn_str E e)) 401, st)
    | Return c =>
        (* client = DifyClient(base_url): the global is bound here *)
        let st1 := {| client := Some c; wire := wire st |} in
        match call "login" (Client.login E email password) st1 with
        | (Return _, st2) => (jsonify login_success 200, st2)
        | (Raise e, st2) => (jsonify (error_object (exn_str E e)) 401, st2)
        end
    end
  end end end.

Definition get_apps : view :=
  require_auth (relay 200 (call "get_apps" (Client.get_apps E))).

Definition get_app_detail (app_id : string) : view :=
  require_auth (relay 200 (call "get_app_detail" (Client.get_app_detail E app_id))).

(** In the views below [data = request.json] stands before the [try] and
    the [data.get] that build the arguments stand inside it. *)
Definition create_app (data : json) : view :=
  require_auth (relay 201 (call "create_app"
    (name <- lift (data_get data "name") ;;
     mode <- lift (data_get_default data "mode" (JStr "chat")) ;;
     icon <- lift (data_get_default data "icon" (JStr "🤖")) ;;
     description <- lift (data_get_default data "description" (JStr "")) ;;
     Client.create_app E name mode icon description))).

Definition rename_app (app_id : string) (data : json) : view :=
  require_auth (relay 200 (call "rename_app"
    (new_name <- lift (data_get data "name") ;;
     icon <- lift (data_get data "icon") ;;
     description <- lift (data_get data "description") ;;
     Client.rename_app E app_id new_name icon description))).

Definition delete_app (app_id : string) : view :=
  require_auth (relay 200 (call "delete_app" (Client.delete_app E app_id))).

Definition update_prompt (app_id : string) (data : json) : view :=
  require_auth (relay 200 (call "update_prompt"
    (prompt <- lift (data_get data "prompt") ;;
     mode <- lift (data_get_default data "mode" (JStr "chat")) ;;
     Client.update_prompt E app_id prompt mode))).

Definition update_model_settings (app_id : string) (data : json) : view :=
  require_auth (relay 200 (call "update_model_settings"
    (model_name <- lift (data_get data "model_name") ;;
     temperature <- lift (data_get_default data "temperature" (JFloat (Qmake 7 10))) ;;
     max_tokens <- lift (data_get_default data "max_tokens" (JInt 2048)) ;;
     top_p <- lift (data_get_default data "top_p" (JFloat (Qmake 1 1))) ;;
     Client.update_model_settings E app_id model_name temperature max_tokens top_p))).

Definition add_variable (app_id : string) (data : json) : view :=
  require_auth (relay 200 (call "add_variable"
    (variable_name <- lift (data_get data "variable_name") ;;
     variable_type <- lift (data_get_default data "variable_type" (JStr "text-input")) ;;
     label <- lift (data_get_default data "label" (JStr "")) ;;
     required <- lift (data_get_default data "required" (JBool false)) ;;
     max_length <- lift (data_get_default data "max_length" (JInt 48)) ;;
     Client.add_variable E app_id variable_name variable_type label required max_length))).

Definition update_opening_statement (app_id : string) (data : json) : view :=
  require_auth (relay 200 (call "update_opening_statement"
    (opening_statement <- lift (data_get data "opening_statement") ;;
     suggested_questions <- lift (data_get data "suggested_questions") ;;
     Client.update_opening_statement E app_id opening_statement suggested_questions))).

Definition link_knowledge_base (app_id : string) (data : json) : view :=
  require_auth (relay 200 (call "link_knowledge_base"
    (dataset_id <- lift (data_get data "dataset_id") ;;
     retrieval_model <- lift (data_get_default data "retrieval_model" (JStr "multiple")) ;;
     Client.link_knowledge_base E app_id dataset_id retrieval_model))).

Definition get_datasets : view :=
  require_auth (relay 200 (call "get_datasets" (Client.get_datasets E))).

Definition create_dataset (data : json) : view :=
  require_auth (relay 201 (call "create_dataset"
    (name <- lift (data_get data "name") ;;
     description <- lift (data_get_default data "description" (JStr "")) ;;
     Client.create_dataset E name description))).

End WithEnv.

(** *** The routes, with what the framework hands to each view

    [data] is the value [request.json] evaluates to: any JSON value, an
    object or not, [null] included.  A request for which the framework
    answers by itself (an unknown route, a body for which evaluating
    [request.json] raises inside the framework) is not modelled. *)

Inductive endpoint :=
| Health
| PostLogin (data : json)
| GetApps
| GetAppDetail (app_id : string)
| PostApps (data : json)
| PutApp (app_id : string) (data : json)
| DeleteApp (app_id : string)
| PutPrompt (app_id : string) (data : json)
| PutModel (app_id : string) (data : json)
| PostVariables (app_id : string) (data : json)
| PutOpening (app_id : string) (data : json)
| PostKnowledge (app_id : string) (data : json)
| GetDatasets
| PostDatasets (data : json).

Definition handle (E : env) (ep : endpoint) : view :=
  match ep with
  | Health => health
  | PostLogin d => login E d
  | GetApps => get_apps E
  | GetAppDetail a => get_app_detail E a
  | PostApps d => create_app E d
  | PutApp a d => rename_app E a d
  | DeleteApp a => delete_app E a
  | PutPrompt a d => update_prompt E a d
  | PutModel a d => update_model_settings E a d
  | PostVariables a d => add_variable E a d
  | PutOpening a d => update_opening_statement E a d
  | PostKnowledge a d => link_knowledge_base E a d
  | GetDatasets => get_datasets E
  | PostDatasets d => create_dataset E d
  end.

(** The routes decorated with [@require_auth]. *)
Definition protected (ep : endpoint) : bool :=
  match ep with
  | Health | PostLogin _ => false
  | _ => true
  end.

(** The body a view reads with [data.get], for the views that read one. *)
Definition request_body (ep : endpoint) : option json :=
  match ep with
  | Health | GetApps | GetAppDetail _ | DeleteApp _ | GetDatasets => None
  | PostLogin d | PostApps d | PutApp _ d | PutPrompt _ d | PutModel _ d
  | PostVariables _ d | PutOpening _ d | PostKnowledge _ d | PostDatasets d => Some d
  end.

Definition is_object (j : json) : bool :=
  match j with
  | JObj _ => true
  | _ => false
  end.

(** The view can read what it needs: it reads no body, or the body is an
    object. *)
Definition body_readable (ep : endpoint) : bool :=
  match request_body ep with
  | Some data => is_object data
  | None => true
  end.

(** The client operation a protected view calls, with the arguments it
    builds from the route and the request body, when it gets as far as the
    call: a body that is not an object stops it before. *)
Definition delegate (ep : endpoint) : option Client.op :=
  match ep with
  | GetApps => Some Client.GetApps
  | GetAppDetail a => Some (Client.GetAppDetail a)
  | PostApps (JObj d) =>
      Some (Client.CreateApp (dict_get "name" d)
              (dict_get_default "mode" (JStr "chat") d)
              (dict_get_default "icon" (JStr "🤖") d)
              (dict_get_default "description" (JStr "") d))
  | PutApp a (JObj d) =>
      Some (Client.RenameApp a (dict_get "name" d) (dict_get "icon" d)
              (dict_get "description" d))
  | DeleteApp a => Some (Client.DeleteApp a)
  | PutPrompt a (JObj d) =>
      Some (Client.UpdatePrompt a (dict_get "prompt" d)
              (dict_get_default "mode" (JStr "chat") d))
  | PutModel a (JObj d) =>
      Some (Client.UpdateModelSettings a (dict_get "model_name" d)
              (dict_get_default "temperature" (JFloat (Qmake 7 10)) d)
              (dict_get_default "max_tokens" (JInt 2048) d)
              (dict_get_default "top_p" (JFloat (Qmake 1 1)) d))
  | PostVariables a (JObj d) =>
      Some (Client.AddVariable a (dict_get "variable_name" d)
              (dict_get_default "variable_type" (JStr "text-input") d)
              (dict_get_default "label" (JStr "") d)
              (dict_get_default "required" (JBool false) d)
              (dict_get_default "max_length" (JInt 48) d))
  | PutOpening a (JObj d) =>
      Some (Client.UpdateOpeningStatement a (dict_get "opening_statement" d)
              (dict_get "suggested_questions" d))
  | PostKnowledge a (JObj d) =>
      Some (Client.LinkKnowledgeBase a (dict_get "dataset_id" d)
              (dict_get_default "retrieval_model" (JStr "multiple") d))
  | GetDatasets => Some Client.GetDatasets
  | PostDatasets (JObj d) =>
      Some (Client.CreateDataset (dict_get "name" d)
              (dict_get_default "description" (JStr "") d))
  | _ => None
  end.

(** The status a view answers with when its client call returns. *)
Definition success_status (ep : endpoint) : Z :=
  match ep with
  | PostApps _ | PostDatasets _ => 201
  | _ => 200
  end.

End Server.

(** ** Concrete surroundings, for running the model *)

(** A remote that answers the n-th request it sees with the n-th entry of
    [answers] and is unreachable afterwards. *)
Definition scripted (answers : list outcome) : list request -> request -> outcome :=
  fun past _ => nth (length past) answers (Unreachable "no more answers").

Definition class_name (e : exn) : string :=
  match e with
  | HTTPError _ => "HTTPError"
  | ConnectionError _ => "ConnectionError"
  | JSONDecodeError => "JSONDecodeError"
  | TypeError _ _ => "TypeError"
  | KeyError _ => "KeyError"
  | AttributeError _ _ => "AttributeError"
  | FileNotFoundError _ => "FileNotFoundError"
  end.

Definition scenario (answers : list outcome) : env :=
  {| remote := scripted answers;
     open_rb := fun _ => None;
     getenv := fun _ => None;
     py_str := fun _ => "<value>";
     exn_str := class_name |}.

Definition answer (code : Z) (j : json) : outcome :=
  Answer {| status_code := code; json_body := Some j |}.

Definition fresh_client : DifyClient :=
  {| base_url := "http://dify";
     console_api := "http://dify/console/api";
     public_api := "http://dify/api";
     api_key := None;
     session := {| headers := ∅ |} |}.

Definition credentials : gmap string json :=
  <["email" := JStr "me@example.com"]> (<["password" := JStr "secret"]>
    (<["base_url" := JStr "http://dify/"]> ∅)).

Definition token_body (t : string) : json :=
  JObj (<["data" := JObj (<["access_token" := JStr t]> ∅)]> ∅).

Definition no_client : Server.sstate := {| Server.client := None; Server.wire := [] |}.
Definition idle (c : DifyClient) : cstate := {| self := c; sent := [] |}.
Definition demo_email : json := JStr "me@example.com".
Definition demo_password : json := JStr "secret".

Definition some_config : gmap string json :=
  <["prompt_template" := JStr "old"]> (<["model" := JStr "gpt-4"]> ∅).

Definition some_parameters : gmap string json :=
  <["opening_statement" := JStr "Hello"]>
    (<["user_input_form" := JList [JStr "first"]]> ∅).

(** ** Properties of client computations *)

(** [m] hands nothing to the transport. *)
Definition silent {A} (m : M A) : Prop := forall s, sent (snd (m s)) = sent s.

(** [m] changes nothing at all. *)
Definition stateless {A} (m : M A) : Prop := forall s, snd (m s) = s.

(** [m] sends at most [n] requests and stops at the first one that is
    answered with a non-2xx status, raising the [HTTPError] of that answer. *)
Definition fails_fast (E : env) {A} (n : nat) (m : M A) : Prop :=
  forall s, exists reqs,
    sent (snd (m s)) = sent s ++ reqs /\ (length reqs <= n)%nat /\
    forall pre r post resp,
      reqs = pre ++ r :: post ->
      remote E (sent s ++ pre) r = Answer resp ->
      is_2xx (status_code resp) = false ->
      post = [] /\ fst (m s) = Raise (HTTPError resp).

(** [m] leaves the client object alone and every request it sends carries
    the headers of the client's session. *)
Definition keeps_session {A} (m : M A) : Prop :=
  forall s, self (snd (m s)) = self s /\
    exists reqs, sent (snd (m s)) = sent s ++ reqs /\
      Forall (fun r => req_headers r = headers (session (self s))) reqs.

(** When [m] returns, what it returns is the decoded body of the answer to
    the last request it sent. *)
Definition returns_answer (E : env) (m : M json) : Prop :=
  forall s j, fst (m s) = Return j ->
    exists pre r resp,
      sent (snd (m s)) = sent s ++ pre ++ [r] /\
      remote E (sent s ++ pre) r = Answer resp /\
      json_body resp = Some j.

(** ** One exchange with the remote *)

(** What the three lines every method ends with make of an outcome:
    [response = ...request(...)], [response.raise_for_status()],
    [return response.json()]. *)
Definition exchange_result (o : outcome) : result json :=
  match o with
  | Unreachable why => Raise (ConnectionError why)
  | Answer resp =>
      if is_2xx (status_code resp)
      then match json_body resp with
           | Some j => Return j
           | None => Raise JSONDecodeError
           end
      else Raise (HTTPError resp)
  end.

(** The exceptions raised by the interpreter on the client's own data, as
    opposed to those that come out of an exchange. *)
Definition local_exn (e : exn) : bool :=
  match e with
  | TypeError _ _ | KeyError _ | AttributeError _ _ => true
  | _ => false
  end.

(** The URL a read-modify-write operation reads from and writes to. *)
Definition rmw_url (o : Client.op) (c : DifyClient) : string :=
  match o with
  | Client.UpdatePrompt a _ _ | Client.AddToolToApp a _ _ =>
      console_api c +:+ "/apps/" +:+ a +:+ "/model-config"
  | Client.AddVariable a _ _ _ _ _ | Client.UpdateOpeningStatement a _ _ =>
      console_api c +:+ "/apps/" +:+ a +:+ "/parameters"
  | _ => ""
  end.

(** The file an operation opens before it sends anything. *)
Definition file_needed (o : Client.op) : option string :=
  match o with
  | Client.UploadDocument _ f => Some f
  | _ => None
  end.

(** [m] stops at the first exchange that fails, whatever the failure
    (unreachable remote, non-2xx status, body that is not JSON), raising what
    the exchange raises. *)
Definition stops_at_failure (E : env) {A} (m : M A) : Prop :=
  forall s, exists reqs,
    sent (snd (m s)) = sent s ++ reqs /\
    forall pre r post e,
      reqs = pre ++ r :: post ->
      exchange_result (remote E (sent s ++ pre) r) = Raise e ->
      post = [] /\ fst (m s) = Raise e.

(** The three ways a read-modify-write operation can go: the read fails;
    the read returns and the change made to the document raises; the changed
    document is written, and the operation ends as that exchange ends. *)
Definition rmw_outcome (E : env) (o : Client.op) (s : cstate) (out : result json * cstate) : Prop :=
  let read := Client.session_req (self s) GET (rmw_url o (self s)) NoPayload in
  let s1 := {| self := self s; sent := sent s ++ [read] |} in
  (exists e, exchange_result (remote E (sent s) read) = Raise e /\ out = (Raise e, s1)) \/
  (exists j e, exchange_result (remote E (sent s) read) = Return j /\
     local_exn e = true /\ out = (Raise e, s1)) \/
  (exists j doc, exchange_result (remote E (sent s) read) = Return j /\
     let write := Client.session_req (self s) POST (rmw_url o (self s)) (JsonPayload doc) in
     out = (exchange_result (remote E (sent s ++ [read]) write),
            {| self := self s; sent := sent s ++ [read; write] |})).

(** The code after the status check sends nothing and starts by decoding
    the body. *)
Definition decodes_first {B} (resp : response) (k : M B) : Prop :=
  silent k /\ (json_body resp = None -> forall s, fst (k s) = Raise JSONDecodeError).

(** The client [c] after [self.api_key = k]. *)
Definition with_api_key (c : DifyClient) (k : option string) : DifyClient :=
  {| base_url := base_url c; console_api := console_api c;
     public_api := public_api c; api_key := k; session := session c |}.

(** The key a client holds after the operations [ops] when it held [k]
    before them: the one given to the last [set_api_key]. *)
Fixpoint key_after (ops : list Client.op) (k : option string) : option string :=
  match ops with
  | [] => k
  | Client.SetApiKey k' :: rest => key_after rest (Some k')
  | _ :: rest => key_after rest k
  end.

(** The client [c] after [session.headers.update({'Authorization': v})]. *)
Definition with_authorization (c : DifyClient) (v : string) : DifyClient :=
  {| base_url := base_url c; console_api := console_api c;
     public_api := public_api c; api_key := api_key c;
     session := {| headers := <["Authorization" := v]> (headers (session c)) |} |}.


(** [n] slashes in a row. *)
Fixpoint slashes (n : nat) : string :=
  match n with
  | O => ""
  | S n => String "/" (slashes n)
  end.

(** Whether the last character of [s] is a slash. *)
Fixpoint ends_with_slash (s : string) : bool :=
  match s with
  | EmptyString => false
  | String c EmptyString => Ascii.eqb c "/"
  | String _ rest => ends_with_slash rest
  end.

(** The key an operation of the public API is called with. *)
Definition app_key_of (o : Client.op) : option string :=
  match o with
  | Client.ChatCompletion k _ _ _ | Client.GetConversations k _ => Some k
  | _ => None
  end.

(** The front end answering requests one after the other. *)
Fixpoint serve (E : env) (eps : list Server.endpoint) (st : Server.sstate) : Server.sstate :=
  match eps with
  | [] => st
  | ep :: rest => serve E rest (snd (Server.handle E ep st))
  end.

(** ** modify_app_examples.py: scripts that drive the client *)

Module Examples.

(** A running script: the client it drives (with the requests sent) and
    what it printed, one entry per call of [print]. *)
Record pstate := { proc : cstate; stdout : list string }.

Definition Script (A : Type) : Type := pstate -> result A * pstate.

Definition sret {A} (a : A) : Script A := fun p => (Return a, p).
Definition sbind {A B} (m : Script A) (k : A -> Script B) : Script B := fun p =>
  match m p with
  | (Return a, p') => k a p'
  | (Raise e, p') => (Raise e, p')
  end.
Definition slift {A} (r : result A) : Script A := fun p => (r, p).

(** [print(text)]. *)
Definition print (text : string) : Script unit := fun p =>
  (Return tt, {| proc := proc p; stdout := stdout p ++ [text] |}).

(** [client.<method>(...)]. *)
Definition on_client {A} (m : M A) : Script A := fun p =>
  let '(r, s) := m (proc p) in (r, {| proc := s; stdout := stdout p |}).

Notation "x <~ m ;; k" := (sbind m (fun x => k))
  (at level 100, m at next level, right associativity) : py_scope.
Notation "m ;;~ k" := (sbind m (fun _ => k))
  (at level 100, right associativity) : py_scope.

(** ["\n"], and [s * n]. *)
Definition nl : string := String (ascii_of_nat 10) EmptyString.
Fixpoint times (s : string) (n : nat) : string :=
  match n with
  | O => ""
  | S n => s +:+ times s n
  end.

Section WithEnv.
Context (E : env).

(** [os.getenv(name)]: the variable's value, [None] when it is not set.
    The environment is the one left by [load_dotenv()]. *)
Definition os_getenv (name : string) : json :=
  match getenv E name with
  | Some v => JStr v
  | None => JNull
  end.

(** [setup_client()], started with the requests sent so far: the client it
    returns, or what was raised, and the requests sent afterwards. *)
Definition setup_client (past : list request) : result DifyClient * list request :=
  match Client.init
          (JStr (default "https://api-production-50f6.up.railway.app"
                   (getenv E "DIFY_API_URL"))) None with
  | Raise e => (Raise e, past)
  | Return client =>
      match Client.login E (os_getenv "DIFY_EMAIL") (os_getenv "DIFY_PASSWORD")
              {| self := client; sent := past |} with
      | (Return _, s) => (Return (self s), sent s)
      | (Raise e, s) => (Raise e, sent s)
      end
  end.

Definition add_variables_example (app_id : string) : Script unit :=
  print "Adding user input variables..." ;;~
  on_client (Client.add_variable E app_id (JStr "user_name") (JStr "text-input")
               (JStr "Your Name") (JBool true) (JInt 50)) ;;~
  on_client (Client.add_variable E app_id (JStr "question_details") (JStr "paragraph")
               (JStr "Describe your question in detail") (JBool false) (JInt 500)) ;;~
  print "✓ Variables added!".

Definition recommendation_prompt : string :=
  "You are a product recommendation expert. Help users find products that match their needs."
  +:+ nl +:+ nl +:+ "Ask clarifying questions about:"
  +:+ nl +:+ "- Budget"
  +:+ nl +:+ "- Use case"
  +:+ nl +:+ "- Preferences"
  +:+ nl +:+ "- Must-have features"
  +:+ nl +:+ nl +:+ "Then provide 3-5 personalized recommendations with explanations.".

(** The identifier read from the created app is only ever put into URLs
    with an f-string, hence [fmt] where the methods receive it. *)
Definition create_and_configure_app_example : Script json :=
  print (nl +:+ times "=" 60) ;;~
  print "Creating and configuring a complete app..." ;;~
  print (times "=" 60 +:+ nl) ;;~
  print "1. Creating app..." ;;~
  app <~ on_client (Client.create_app E (JStr "Product Recommendation Assistant")
                      (JStr "chat") (JStr "🛍️")
                      (JStr "Helps users find the perfect product")) ;;
  app_id <~ slift (getitem app "id") ;;
  print ("   ✓ App created with ID: " +:+ Client.fmt E app_id) ;;~
  print (nl +:+ "2. Setting system prompt...") ;;~
  on_client (Client.update_prompt E (Client.fmt E app_id) (JStr recommendation_prompt)
               (JStr "chat")) ;;~
  print "   ✓ Prompt configured" ;;~
  print (nl +:+ "3. Configuring AI model...") ;;~
  on_client (Client.update_model_settings E (Client.fmt E app_id) (JStr "gpt-4")
               (JFloat (Qmake 8 10)) (JInt 1500) (JFloat (Qmake 1 1))) ;;~
  print "   ✓ Model configured" ;;~
  print (nl +:+ "4. Adding input variables...") ;;~
  on_client (Client.add_variable E (Client.fmt E app_id) (JStr "budget") (JStr "text-input")
               (JStr "Budget Range") (JBool false) (JInt 48)) ;;~
  on_client (Client.add_variable E (Client.fmt E app_id) (JStr "category")
               (JStr "text-input") (JStr "Product Category") (JBool true) (JInt 48)) ;;~
  print "   ✓ Variables added" ;;~
  print (nl +:+ "5. Setting welcome message...") ;;~
  on_client (Client.update_opening_statement E (Client.fmt E app_id)
               (JStr "🛍️ Hi! I'm here to help you find the perfect product. What are you looking for?")
               (JList [JStr "I need a laptop for programming";
                       JStr "Looking for running shoes under $150";
                       JStr "Best headphones for music production"])) ;;~
  print "   ✓ Opening statement set" ;;~
  print (nl +:+ times "=" 60) ;;~
  print ("✅ App fully configured! App ID: " +:+ Client.fmt E app_id) ;;~
  print (times "=" 60 +:+ nl) ;;~
  sret app_id.

End WithEnv.
End Examples.

(** A script that keeps driving client [c]: every request it sends
    satisfies [P], and what it returns, when it returns, satisfies [Q]. *)
Definition script_sends (P : request -> Prop) {A} (Q : A -> Prop)
    (m : Examples.Script A) (c : DifyClient) : Prop :=
  forall p, self (Examples.proc p) = c ->
    self (Examples.proc (snd (m p))) = c /\
    (forall a, fst (m p) = Return a -> Q a) /\
    exists reqs,
      sent (Examples.proc (snd (m p))) = sent (Examples.proc p) ++ reqs /\
      Forall P reqs.

(** A request about the app [a] of client [c]. *)
Definition about_app (c : DifyClient) (a : string) (r : request) : Prop :=
  String.prefix (console_api c +:+ "/apps/" +:+ a +:+ "/") (req_url r) = true.

(** The four configuration calls of the scripts, on the app [a]. *)
Definition configures (a : string) (o : Client.op) : Prop :=
  match o with
  | Client.UpdatePrompt a' _ _ | Client.UpdateModelSettings a' _ _ _ _
  | Client.AddVariable a' _ _ _ _ _ | Client.UpdateOpeningStatement a' _ _ => a' = a
  | _ => False
  end.


(** * Proofs *)

(** ** The Python helpers on small inputs *)

Example rstrip_slash_trailing : rstrip_slash "http://dify//" = "http://dify".
Proof. reflexivity. Qed.

Example rstrip_slash_inner : rstrip_slash "http://dify/a" = "http://dify/a".
Proof. reflexivity. Qed.

Example contains_substring : contains "ta" (JStr "data") = Return true.
Proof. reflexivity. Qed.

Example contains_list_element :
  contains "data" (JList [JInt 1; JStr "data"]) = Return true.
Proof. reflexivity. Qed.

Example contains_number : contains "data" (JInt 5) = Raise (TypeError "in" (JInt 5)).
Proof. reflexivity. Qed.

Example truthy_empty_object : truthy (JObj ∅) = false.
Proof. reflexivity. Qed.

Example truthy_zero_float : truthy (JFloat (Qmake 0 5)) = false.
Proof. reflexivity. Qed.

Example is_2xx_edges :
  (is_2xx 199, is_2xx 200, is_2xx 299, is_2xx 300) = (false, true, true, false).
Proof. reflexivity. Qed.

Example init_rejects_non_string :
  Client.init (JInt 5) None = Raise (AttributeError "rstrip" (JInt 5)).
Proof. reflexivity. Qed.

(** ** The views, case by case *)

Section ServerFacts.
Context (E : env).
Import Server.

Lemma handle_no_client ep st :
  protected ep = true -> client st = None ->
  handle E ep st = (not_authenticated, st).
Proof.
  intros Hp Hc. destruct ep; try discriminate Hp; cbn;
    unfold get_apps, get_app_detail, create_app, rename_app, delete_app, update_prompt,
      update_model_settings, add_variable, update_opening_statement, link_knowledge_base,
      get_datasets, create_dataset, require_auth; now rewrite Hc.
Qed.

Lemma bind_lift_return {A B} (a : A) (k : A -> M B) : bind (lift (Return a)) k = k a.
Proof. reflexivity. Qed.

Lemma handle_with_client ep o c st :
  delegate ep = Some o -> client st = Some c ->
  handle E ep st =
    match Client.run E o {| self := c; sent := wire st |} with
    | (Return j, s) =>
        (jsonify j (success_status ep), {| client := Some (self s); wire := sent s |})
    | (Raise e, s) =>
        (jsonify (error_object (exn_str E e)) 500,
         {| client := Some (self s); wire := sent s |})
    end.
Proof.
  intros Hd Hc.
  destruct ep; try destruct data; cbn [delegate] in Hd; try discriminate Hd;
    injection Hd as <-;
    cbn [handle Client.run success_status];
    unfold get_apps, get_app_detail, create_app, rename_app, delete_app, update_prompt,
      update_model_settings, add_variable, update_opening_statement, link_knowledge_base,
      get_datasets, create_dataset, require_auth, relay, call; rewrite Hc;
    cbn [data_get data_get_default]; rewrite ?bind_lift_return;
    match goal with
    | |- _ = match ?x with _ => _ end => destruct x as [[e|j] s']
    end; reflexivity.
Qed.

(** A protected view that is handed a body without [get] catches the
    [AttributeError] like any other exception; the client is not called. *)
Lemma handle_bad_body ep data c st :
  protected ep = true -> request_body ep = Some data -> is_object data = false ->
  client st = Some c ->
  handle E ep st = (jsonify (error_object (exn_str E (AttributeError "get" data))) 500, st).
Proof.
  intros Hp Hb Hd Hc. destruct st as [cl w]. cbn [client] in Hc. subst cl.
  destruct ep; try discriminate Hp; cbn [request_body] in Hb; try discriminate Hb;
    injection Hb as ->;
    destruct data; try discriminate Hd; reflexivity.
Qed.

(** /login reads the body before its [try]. *)
Lemma login_bad_body data st :
  is_object data = false ->
  handle E (PostLogin data) st = (Escaped (AttributeError "get" data), st).
Proof. intros Hd. destruct data; try discriminate Hd; reflexivity. Qed.

Lemma login_missing_credentials d st :
  truthy (dict_get "email" d) = false \/ truthy (dict_get "password" d) = false ->
  handle E (PostLogin (JObj d)) st =
    (jsonify (error_object "Email and password required") 400, st).
Proof.
  intros H. cbn [handle]. unfold login. cbn [data_get data_get_default].
  destruct H as [->| ->]; cbn [negb orb]; [reflexivity|].
  now rewrite orb_true_r.
Qed.

(** What /login does with an object that holds both credentials. *)
Lemma login_with_credentials d st :
  truthy (dict_get "email" d) = true ->
  truthy (dict_get "password" d) = true ->
  handle E (PostLogin (JObj d)) st =
    match Client.init (dict_get_default "base_url" (JStr (default_base_url E)) d) None with
    | Raise e => (jsonify (error_object (exn_str E e)) 401, st)
    | Return c =>
        match Client.login E (dict_get "email" d) (dict_get "password" d)
                {| self := c; sent := wire st |} with
        | (Return _, s) =>
            (jsonify login_success 200, {| client := Some (self s); wire := sent s |})
        | (Raise e, s) =>
            (jsonify (error_object (exn_str E e)) 401,
             {| client := Some (self s); wire := sent s |})
        end
    end.
Proof.
  intros Hemail Hpw. cbn [handle]. unfold login. cbn [data_get data_get_default].
  rewrite Hemail, Hpw. cbn [negb orb].
  destruct (Client.init _ None) as [e|c]; [reflexivity|].
  unfold call. cbn [client wire].
  destruct (Client.login E _ _ _) as [[e|j] s']; reflexivity.
Qed.

(** A /login that gets as far as the client's login call leaves the global
    bound, whether or not that call raises. *)
Lemma login_attempt_binds_client d st c :
  truthy (dict_get "email" d) = true ->
  truthy (dict_get "password" d) = true ->
  Client.init (dict_get_default "base_url" (JStr (default_base_url E)) d) None = Return c ->
  exists c', client (snd (handle E (PostLogin (JObj d)) st)) = Some c'.
Proof.
  intros Hemail Hpw Hinit. rewrite (login_with_credentials d st Hemail Hpw), Hinit.
  destruct (Client.login E _ _ _) as [[e|j] s']; cbn; eauto.
Qed.

(** A protected view either gets as far as its client call or was handed
    a body that is not an object. *)
Lemma delegate_protected ep :
  protected ep = true ->
  (exists o, delegate ep = Some o) \/
  (exists data, request_body ep = Some data /\ is_object data = false).
Proof.
  destruct ep; try discriminate; intros _; try (left; cbn; eauto; fail);
    destruct data; cbn; eauto.
Qed.

Lemma delegate_sends ep o :
  delegate ep = Some o -> Client.is_set_api_key o = false.
Proof.
  destruct ep; try destruct data; cbn; intros H; try discriminate H;
    injection H as <-; reflexivity.
Qed.

End ServerFacts.

Lemma split_app {A} (l1 l2 pre post : list A) (r : A) :
  l1 ++ l2 = pre ++ r :: post ->
  (exists post1, l1 = pre ++ r :: post1 /\ post = post1 ++ l2) \/
  (exists pre2, pre = l1 ++ pre2 /\ l2 = pre2 ++ r :: post).
Proof.
  revert pre. induction l1 as [|x l1 IH]; intros pre H.
  - right. exists pre. auto.
  - destruct pre as [|y pre]; simpl in H; injection H as -> H.
    + left. exists l1. auto.
    + destruct (IH _ H) as [[post1 [-> ->]]|[pre2 [-> ->]]].
      * left. exists post1. auto.
      * right. exists pre2. auto.
Qed.

(** ** Computations that send nothing *)

Lemma silent_ret {A} (a : A) : silent (ret a).
Proof. intros s; reflexivity. Qed.

Lemma silent_raise {A} e : silent (@raise A e).
Proof. intros s; reflexivity. Qed.

Lemma silent_lift {A} (r : result A) : silent (lift r).
Proof. intros s; reflexivity. Qed.

Lemma silent_get_self : silent get_self.
Proof. intros s; reflexivity. Qed.

Lemma silent_headers_update k v : silent (Client.session_headers_update k v).
Proof. intros s; reflexivity. Qed.

Lemma silent_set_api_key k : silent (Client.set_api_key k).
Proof. intros s; reflexivity. Qed.

Lemma silent_run_set_api_key E k : silent (Client.run E (Client.SetApiKey k)).
Proof. intros s; reflexivity. Qed.

Lemma silent_raise_for_status r : silent (Client.raise_for_status r).
Proof. intros s; unfold Client.raise_for_status; destruct (is_2xx _); reflexivity. Qed.

Lemma silent_response_json r : silent (Client.response_json r).
Proof. intros s; unfold Client.response_json; destruct (json_body _); reflexivity. Qed.

Lemma silent_bind {A B} (m : M A) (k : A -> M B) :
  silent m -> (forall a, silent (k a)) -> silent (bind m k).
Proof.
  intros Hm Hk s. unfold bind. specialize (Hm s).
  destruct (m s) as [[e|a] s1]; simpl in *; [assumption|].
  rewrite Hk. assumption.
Qed.

Ltac silence :=
  repeat first
    [ apply silent_ret | apply silent_raise | apply silent_lift | apply silent_get_self
    | apply silent_headers_update | apply silent_raise_for_status
    | apply silent_response_json
    | apply silent_bind; [|intros]
    | match goal with
      | |- silent (if ?b then _ else _) => destruct b
      | |- silent (match ?x with _ => _ end) => destruct x
      end ].

(** ** Stopping at the first non-2xx answer *)

Section ClientLogic.
Context (E : env).
Import Client.

Lemma fails_fast_silent {A} (m : M A) n : silent m -> fails_fast E n m.
Proof.
  intros Hm s. exists []. rewrite Hm, app_nil_r.
  split; [reflexivity|]. split; [simpl; lia|].
  intros [|] ? ? ? H; discriminate H.
Qed.

Lemma fails_fast_silent_bind {A B} n (m : M A) (k : A -> M B) :
  silent m -> (forall a, fails_fast E n (k a)) -> fails_fast E n (bind m k).
Proof.
  intros Hm Hk s. unfold bind. specialize (Hm s).
  destruct (m s) as [[e|a] s1]; simpl in *.
  - exists []. rewrite Hm, app_nil_r.
    split; [reflexivity|]. split; [simpl; lia|].
    intros [|] ? ? ? H; discriminate H.
  - destruct (Hk a s1) as [reqs H]. exists reqs. now rewrite <- Hm.
Qed.

Lemma fails_fast_bind {A B} n1 n2 (m : M A) (k : A -> M B) :
  fails_fast E n1 m -> (forall a, fails_fast E n2 (k a)) -> fails_fast E (n1 + n2) (bind m k).
Proof.
  intros Hm Hk s. unfold bind.
  destruct (Hm s) as [reqs1 [Hs1 [Hn1 Hstop1]]].
  destruct (m s) as [[e|a] s1]; simpl in *.
  - exists reqs1. split; [assumption|]. split; [lia|].
    intros pre r post resp Hsplit Hans Hbad.
    destruct (Hstop1 _ _ _ _ Hsplit Hans Hbad) as [-> Heq].
    injection Heq as ->. split; reflexivity.
  - destruct (Hk a s1) as [reqs2 [Hs2 [Hn2 Hstop2]]].
    exists (reqs1 ++ reqs2). rewrite Hs2, Hs1, <- app_assoc.
    split; [reflexivity|]. split; [rewrite length_app; lia|].
    intros pre r post resp Hsplit Hans Hbad.
    destruct (split_app _ _ _ _ _ Hsplit) as [[post1 [-> ->]]|[pre2 [-> ->]]].
    + destruct (Hstop1 _ _ _ _ eq_refl Hans Hbad) as [_ Habs]; discriminate Habs.
    + rewrite app_assoc, <- Hs1 in Hans. eapply Hstop2; eauto.
Qed.

(** One request, then the status check, then code that sends nothing. *)
Lemma fails_fast_send {B} (r : cstate -> request) (k : response -> M B) :
  (forall resp, silent (k resp)) ->
  fails_fast E 1 (bind (fun s => send E (r s) s)
                  (fun response => bind (raise_for_status response) (fun _ => k response))).
Proof.
  intros Hk s. exists [r s]. unfold bind, send.
  assert (Hsent : forall o (s' := {| self := self s; sent := sent s ++ [r s] |}),
    sent (snd (match (match o with
                      | Unreachable why => (Raise (ConnectionError why), s')
                      | Answer resp => (Return resp, s')
                      end) with
               | (Return a, s'') =>
                   match raise_for_status a s'' with
                   | (Return a0, s3) => k a s3
                   | (Raise e, s3) => (Raise e, s3)
                   end
               | (Raise e, s'') => (Raise e, s'')
               end)) = sent s ++ [r s]).
  { intros [why|resp] s'; [reflexivity|].
    pose proof (silent_raise_for_status resp s') as H1.
    destruct (raise_for_status resp s') as [[e|[]] s3]; simpl in *; [assumption|].
    rewrite Hk. assumption. }
  split; [apply Hsent|]. split; [simpl; lia|].
  intros pre r0 post resp Hsplit Hans Hbad.
  destruct pre as [|? pre]; simpl in Hsplit.
  2:{ destruct pre; discriminate Hsplit. }
  injection Hsplit as <- <-. rewrite app_nil_r in Hans. rewrite Hans.
  split; [reflexivity|]. unfold raise_for_status. rewrite Hbad. reflexivity.
Qed.

Lemma fails_fast_session {B} m url p (k : response -> M B) :
  (forall resp, silent (k resp)) ->
  fails_fast E 1 (bind (session_request E m url p)
                  (fun response => bind (raise_for_status response) (fun _ => k response))).
Proof. intros Hk. unfold session_request. apply (fails_fast_send (fun s => _)), Hk. Qed.

Lemma fails_fast_requests {B} m url h p (k : response -> M B) :
  (forall resp, silent (k resp)) ->
  fails_fast E 1 (bind (requests_request E m url h p)
                  (fun response => bind (raise_for_status response) (fun _ => k response))).
Proof. intros Hk. unfold requests_request. apply (fails_fast_send (fun _ => _)), Hk. Qed.

Ltac one_request :=
  apply fails_fast_silent_bind; [apply silent_get_self|intros ?]; cbv zeta;
  first [ apply fails_fast_session | apply fails_fast_requests ]; intros ?; silence.

Ltac two_requests first_lemma second_lemma :=
  apply (fails_fast_bind 1 1); [apply first_lemma|intros ?];
  repeat (lazymatch goal with
          | |- fails_fast E _ (bind _ _) =>
              apply fails_fast_silent_bind; [solve [silence]|intros ?]
          end);
  apply second_lemma.

Lemma fails_fast_get_prompt_config a : fails_fast E 1 (get_prompt_config E a).
Proof. unfold get_prompt_config. one_request. Qed.
Lemma fails_fast_get_app_parameters a : fails_fast E 1 (get_app_parameters E a).
Proof. unfold get_app_parameters. one_request. Qed.
Lemma fails_fast_update_app_config a c : fails_fast E 1 (update_app_config E a c).
Proof. unfold update_app_config. one_request. Qed.
Lemma fails_fast_update_app_parameters a p : fails_fast E 1 (update_app_parameters E a p).
Proof. unfold update_app_parameters. one_request. Qed.

Lemma fails_fast_run o :
  fails_fast E (if read_modify_write o then 2 else 1) (run E o).
Proof.
  destruct o; cbn [read_modify_write run].
  - apply fails_fast_silent. apply (silent_run_set_api_key E).
  - unfold login. one_request.
  - unfold get_apps. one_request.
  - unfold get_app_detail. one_request.
  - unfold create_app. one_request.
  - apply fails_fast_update_app_config.
  - apply fails_fast_get_app_parameters.
  - apply fails_fast_update_app_parameters.
  - apply fails_fast_get_prompt_config.
  - unfold update_prompt.
    two_requests fails_fast_get_prompt_config fails_fast_update_app_config.
  - unfold update_model_settings. apply fails_fast_update_app_config.
  - unfold add_variable.
    two_requests fails_fast_get_app_parameters fails_fast_update_app_parameters.
  - unfold update_opening_statement.
    two_requests fails_fast_get_app_parameters fails_fast_update_app_parameters.
  - unfold get_workflow. one_request.
  - unfold update_workflow. one_request.
  - unfold publish_workflow. one_request.
  - unfold add_tool_to_app.
    two_requests fails_fast_get_prompt_config fails_fast_update_app_config.
  - unfold link_knowledge_base. one_request.
  - unfold delete_app. one_request.
  - unfold rename_app. one_request.
  - unfold get_datasets. one_request.
  - unfold create_dataset. one_request.
  - unfold upload_document.
    apply fails_fast_silent_bind; [apply silent_get_self|intros c]; cbv zeta.
    destruct (open_rb E file_path).
    + apply fails_fast_session. intros ?. silence.
    + apply fails_fast_silent. silence.
  - unfold chat_completion. one_request.
  - unfold get_conversations. one_request.
Qed.

End ClientLogic.

(** ** Requests that carry the session's headers *)

Section SessionHeaders.
Context (E : env).
Import Client.

Lemma stateless_ret {A} (a : A) : stateless (ret a).
Proof. intros s; reflexivity. Qed.
Lemma stateless_raise {A} e : stateless (@raise A e).
Proof. intros s; reflexivity. Qed.
Lemma stateless_lift {A} (r : result A) : stateless (lift r).
Proof. intros s; reflexivity. Qed.
Lemma stateless_get_self : stateless get_self.
Proof. intros s; reflexivity. Qed.
Lemma stateless_raise_for_status r : stateless (raise_for_status r).
Proof. intros s; unfold raise_for_status; destruct (is_2xx _); reflexivity. Qed.
Lemma stateless_response_json r : stateless (response_json r).
Proof. intros s; unfold response_json; destruct (json_body _); reflexivity. Qed.

Lemma keeps_session_stateless {A} (m : M A) : stateless m -> keeps_session m.
Proof.
  intros Hm s. specialize (Hm s). rewrite !Hm. split; [reflexivity|].
  exists []. rewrite app_nil_r. split; [reflexivity|constructor].
Qed.

Lemma keeps_session_bind {A B} (m : M A) (k : A -> M B) :
  keeps_session m -> (forall a, keeps_session (k a)) -> keeps_session (bind m k).
Proof.
  intros Hm Hk s. unfold bind.
  destruct (Hm s) as [Hself [reqs1 [Hsent Hall]]].
  destruct (m s) as [[e|a] s1]; simpl in *.
  - split; [assumption|]. exists reqs1. split; assumption.
  - destruct (Hk a s1) as [Hself2 [reqs2 [Hsent2 Hall2]]].
    split; [congruence|]. exists (reqs1 ++ reqs2).
    rewrite Hsent2, Hsent, <- app_assoc. split; [reflexivity|].
    apply Forall_app. split; [assumption|]. now rewrite Hself in Hall2.
Qed.

Lemma keeps_session_request m url p : keeps_session (session_request E m url p).
Proof.
  intros s. unfold session_request, send.
  destruct (remote E _ _); simpl; (split; [reflexivity|]);
    eexists; (split; [reflexivity|]); repeat constructor.
Qed.

Ltac session_only :=
  repeat first
    [ apply keeps_session_request
    | apply keeps_session_stateless;
      first [ apply stateless_ret | apply stateless_raise | apply stateless_lift
            | apply stateless_get_self | apply stateless_raise_for_status
            | apply stateless_response_json ]
    | apply keeps_session_bind; [|intros ?]
    | match goal with
      | |- keeps_session (if ?b then _ else _) => destruct b
      | |- keeps_session (match ?x with _ => _ end) => destruct x
      end ].

Lemma keeps_session_run o :
  uses_session o = true -> is_login o = false -> keeps_session (run E o).
Proof.
  destruct o; cbn [uses_session is_login run]; intros Hs Hl; try discriminate;
    unfold get_apps, get_app_detail, create_app, update_prompt, update_model_settings,
      add_variable, update_opening_statement, get_workflow, update_workflow,
      publish_workflow, add_tool_to_app, link_knowledge_base, delete_app, rename_app,
      get_datasets, create_dataset, upload_document,
      update_app_config, get_app_parameters, update_app_parameters, get_prompt_config;
    session_only.
Qed.


End SessionHeaders.

(** ** What an operation returns *)

Section ReturnedBody.
Context (E : env).
Import Client.

(** The code after the status check sends nothing and, when it returns,
    returns the decoded body of [resp]. *)
Definition hands_back_body (resp : response) (k : M json) : Prop :=
  silent k /\ forall s j, fst (k s) = Return j -> json_body resp = Some j.

Lemma hands_back_response_json resp : hands_back_body resp (response_json resp).
Proof.
  split; [apply silent_response_json|].
  intros s j. unfold response_json. destruct (json_body resp); cbn; congruence.
Qed.

Lemma returns_answer_send (r : cstate -> request) (k : response -> M json) :
  (forall resp, hands_back_body resp (k resp)) ->
  returns_answer E (bind (fun s => send E (r s) s)
                      (fun response => bind (raise_for_status response)
                                         (fun _ => k response))).
Proof.
  intros Hk s j. unfold bind, send.
  destruct (remote E (sent s) (r s)) as [why|resp] eqn:Hans; [discriminate|].
  unfold raise_for_status. destruct (is_2xx (status_code resp)); [|discriminate].
  unfold ret. destruct (Hk resp) as [Hsilent Hbody].
  set (s1 := {| self := self s; sent := sent s ++ [r s] |}).
  intros Hret. exists [], (r s), resp.
  rewrite Hsilent, app_nil_r. cbn [sent s1 app].
  split; [reflexivity|]. split; [exact Hans|]. exact (Hbody s1 j Hret).
Qed.

Lemma returns_answer_session m url p (k : response -> M json) :
  (forall resp, hands_back_body resp (k resp)) ->
  returns_answer E (bind (session_request E m url p)
                      (fun response => bind (raise_for_status response)
                                         (fun _ => k response))).
Proof. intros Hk. unfold session_request. apply (returns_answer_send (fun s => _)), Hk. Qed.

Lemma returns_answer_requests m url h p (k : response -> M json) :
  (forall resp, hands_back_body resp (k resp)) ->
  returns_answer E (bind (requests_request E m url h p)
                      (fun response => bind (raise_for_status response)
                                         (fun _ => k response))).
Proof. intros Hk. unfold requests_request. apply (returns_answer_send (fun _ => _)), Hk. Qed.

Lemma returns_answer_raise e : returns_answer E (raise e).
Proof. intros s j H. discriminate H. Qed.

Lemma returns_answer_silent_bind {A} (m : M A) (k : A -> M json) :
  silent m -> (forall a, returns_answer E (k a)) -> returns_answer E (bind m k).
Proof.
  intros Hm Hk s j. unfold bind. specialize (Hm s).
  destruct (m s) as [[e|a] s1]; cbn [fst snd] in *; [discriminate|].
  intros Hret. destruct (Hk a s1 j Hret) as [pre [r [resp H]]].
  exists pre, r, resp. now rewrite <- Hm.
Qed.

Lemma returns_answer_bind {A} n (m : M A) (k : A -> M json) :
  fails_fast E n m -> (forall a, returns_answer E (k a)) -> returns_answer E (bind m k).
Proof.
  intros Hm Hk s j. unfold bind. destruct (Hm s) as [reqs [Hsent _]].
  destruct (m s) as [[e|a] s1]; cbn [fst snd] in *; [discriminate|].
  intros Hret. destruct (Hk a s1 j Hret) as [pre [r [resp [Hs [Hans Hbody]]]]].
  exists (reqs ++ pre), r, resp. rewrite Hs, Hsent, !app_assoc in *. auto.
Qed.

Ltac body_of_one_request :=
  apply returns_answer_silent_bind; [apply silent_get_self|intros ?]; cbv zeta;
  first [ apply returns_answer_session | apply returns_answer_requests ];
  intros ?; apply hands_back_response_json.

Ltac body_of_second_request first_lemma second_lemma :=
  apply (returns_answer_bind 1); [apply first_lemma|intros ?];
  repeat (lazymatch goal with
          | |- returns_answer _ (bind _ _) =>
              apply returns_answer_silent_bind; [solve [silence]|intros ?]
          end);
  apply second_lemma.

Lemma returns_answer_update_app_config a c : returns_answer E (update_app_config E a c).
Proof. unfold update_app_config. body_of_one_request. Qed.

Lemma returns_answer_update_app_parameters a p :
  returns_answer E (update_app_parameters E a p).
Proof. unfold update_app_parameters. body_of_one_request. Qed.

(** After the status check, [login] decodes the body, may store the token,
    and returns the decoded body. *)
Lemma login_hands_back_body resp :
  hands_back_body resp
    (data <- response_json resp ;;
     has_data <- lift (contains "data" data) ;;
     has_token <- (if has_data : bool
                   then inner <- lift (getitem data "data") ;;
                        lift (contains "access_token" inner)
                   else ret false) ;;
     (if has_token : bool
      then inner <- lift (getitem data "data") ;;
           token <- lift (getitem inner "access_token") ;;
           session_headers_update "Authorization" ("Bearer " +:+ fmt E token)
      else ret tt) ;;;
     ret data).
Proof.
  split; [silence|].
  intros s j. unfold response_json.
  destruct (json_body resp) as [data|]; [|discriminate].
  unfold bind, ret, lift. cbv beta iota.
  destruct (contains "data" data) as [e|[|]]; [discriminate| |].
  - destruct (getitem data "data") as [e|inner]; [discriminate|].
    destruct (contains "access_token" inner) as [e|[|]]; [discriminate| |].
    + destruct (getitem inner "access_token") as [e|token]; [discriminate|].
      cbn. congruence.
    + cbn. congruence.
  - cbn. congruence.
Qed.

Lemma returns_answer_run o : is_set_api_key o = false -> returns_answer E (run E o).
Proof.
  destruct o; cbn [run is_set_api_key]; intros Hset; try discriminate Hset.
  - unfold login.
    apply returns_answer_silent_bind; [apply silent_get_self|intros ?]; cbv zeta.
    apply returns_answer_session. intros resp. apply login_hands_back_body.
  - unfold get_apps. body_of_one_request.
  - unfold get_app_detail. body_of_one_request.
  - unfold create_app. body_of_one_request.
  - apply returns_answer_update_app_config.
  - unfold get_app_parameters. body_of_one_request.
  - apply returns_answer_update_app_parameters.
  - unfold get_prompt_config. body_of_one_request.
  - unfold update_prompt.
    body_of_second_request fails_fast_get_prompt_config returns_answer_update_app_config.
  - unfold update_model_settings. apply returns_answer_update_app_config.
  - unfold add_variable.
    body_of_second_request fails_fast_get_app_parameters
      returns_answer_update_app_parameters.
  - unfold update_opening_statement.
    body_of_second_request fails_fast_get_app_parameters
      returns_answer_update_app_parameters.
  - unfold get_workflow. body_of_one_request.
  - unfold update_workflow. body_of_one_request.
  - unfold publish_workflow. body_of_one_request.
  - unfold add_tool_to_app.
    body_of_second_request fails_fast_get_prompt_config returns_answer_update_app_config.
  - unfold link_knowledge_base. body_of_one_request.
  - unfold delete_app. body_of_one_request.
  - unfold rename_app. body_of_one_request.
  - unfold get_datasets. body_of_one_request.
  - unfold create_dataset. body_of_one_request.
  - unfold upload_document.
    apply returns_answer_silent_bind; [apply silent_get_self|intros c]; cbv zeta.
    destruct (open_rb E file_path).
    + apply returns_answer_session. intros ?. apply hands_back_response_json.
    + intros s j H. discriminate H.
  - unfold chat_completion. body_of_one_request.
  - unfold get_conversations. body_of_one_request.
Qed.

End ReturnedBody.

(** ** Running [login] and the read-modify-write operations *)

Section ClientTheorems.
Context (E : env).
Import Client.

Lemma contains_present k v (d : gmap string json) :
  d !! k = Some v -> contains k (JObj d) = Return true.
Proof. intros H. unfold contains. rewrite H. reflexivity. Qed.

Lemma contains_absent k (d : gmap string json) :
  d !! k = None -> contains k (JObj d) = Return false.
Proof. intros H. unfold contains. rewrite H. reflexivity. Qed.

Lemma getitem_present k v (d : gmap string json) :
  d !! k = Some v -> getitem (JObj d) k = Return v.
Proof. intros H. unfold getitem. rewrite H. reflexivity. Qed.

(** A request through the session that is answered 2xx with a JSON body. *)
Lemma session_fetch_ok m url p s resp j :
  remote E (sent s) (session_req (self s) m url p) = Answer resp ->
  is_2xx (status_code resp) = true ->
  json_body resp = Some j ->
  bind (session_request E m url p)
    (fun response => bind (raise_for_status response) (fun _ => response_json response)) s
  = (Return j, {| self := self s; sent := sent s ++ [session_req (self s) m url p] |}).
Proof.
  intros Hans Hok Hbody.
  unfold bind, session_request, send. fold (session_req (self s) m url p).
  rewrite Hans. unfold raise_for_status. rewrite Hok. unfold ret, response_json.
  rewrite Hbody. reflexivity.
Qed.

Lemma login_stores_token email password s resp d inner token :
  remote E (sent s) (login_req (self s) email password) = Answer resp ->
  is_2xx (status_code resp) = true ->
  json_body resp = Some (JObj d) ->
  d !! "data" = Some (JObj inner) ->
  inner !! "access_token" = Some token ->
  login E email password s =
    (Return (JObj d),
     {| self := {| base_url := base_url (self s); console_api := console_api (self s);
                   public_api := public_api (self s); api_key := api_key (self s);
                   session := {| headers := <["Authorization" := "Bearer " +:+ fmt E token]>
                                              (headers (session (self s))) |} |};
        sent := sent s ++ [login_req (self s) email password] |}).
Proof.
  intros Hans Hok Hbody Hdata Htok.
  unfold login, bind at 1, get_self. cbv zeta.
  unfold bind, session_request, send.
  fold (session_req (self s) POST (console_api (self s) +:+ "/login")
          (JsonPayload (JObj (<["email" := email]> (<["password" := password]> ∅))))).
  fold (login_req (self s) email password).
  rewrite Hans. unfold raise_for_status. rewrite Hok. unfold ret, response_json.
  rewrite Hbody. unfold lift, ret. cbv beta iota.
  rewrite (contains_present _ _ _ Hdata). cbv beta iota.
  rewrite (getitem_present _ _ _ Hdata). cbv beta iota.
  rewrite (contains_present _ _ _ Htok). cbv beta iota.
  rewrite (getitem_present _ _ _ Htok). reflexivity.
Qed.



Lemma get_prompt_config_ok app_id s resp j :
  remote E (sent s)
    (session_req (self s) GET
       (console_api (self s) +:+ "/apps/" +:+ app_id +:+ "/model-config") NoPayload)
    = Answer resp ->
  is_2xx (status_code resp) = true ->
  json_body resp = Some j ->
  get_prompt_config E app_id s =
    (Return j,
     {| self := self s;
        sent := sent s ++
          [session_req (self s) GET
             (console_api (self s) +:+ "/apps/" +:+ app_id +:+ "/model-config") NoPayload] |}).
Proof.
  intros Hans Hok Hbody. unfold get_prompt_config, bind at 1, get_self. cbv zeta beta iota.
  apply session_fetch_ok with resp; assumption.
Qed.

Lemma get_app_parameters_ok app_id s resp j :
  remote E (sent s)
    (session_req (self s) GET
       (console_api (self s) +:+ "/apps/" +:+ app_id +:+ "/parameters") NoPayload)
    = Answer resp ->
  is_2xx (status_code resp) = true ->
  json_body resp = Some j ->
  get_app_parameters E app_id s =
    (Return j,
     {| self := self s;
        sent := sent s ++
          [session_req (self s) GET
             (console_api (self s) +:+ "/apps/" +:+ app_id +:+ "/parameters") NoPayload] |}).
Proof.
  intros Hans Hok Hbody. unfold get_app_parameters, bind at 1, get_self. cbv zeta beta iota.
  apply session_fetch_ok with resp; assumption.
Qed.

Lemma update_app_config_sent app_id config s :
  sent (snd (update_app_config E app_id config s)) =
    sent s ++ [session_req (self s) POST
                 (console_api (self s) +:+ "/apps/" +:+ app_id +:+ "/model-config")
                 (JsonPayload config)].
Proof.
  unfold update_app_config, bind, get_self, session_request, send, session_req.
  cbv zeta beta iota. destruct (remote E _ _) as [why|resp]; [reflexivity|].
  unfold raise_for_status. destruct (is_2xx _); [|reflexivity].
  unfold ret, response_json. destruct (json_body resp); reflexivity.
Qed.

Lemma update_app_parameters_sent app_id parameters s :
  sent (snd (update_app_parameters E app_id parameters s)) =
    sent s ++ [session_req (self s) POST
                 (console_api (self s) +:+ "/apps/" +:+ app_id +:+ "/parameters")
                 (JsonPayload parameters)].
Proof.
  unfold update_app_parameters, bind, get_self, session_request, send, session_req.
  cbv zeta beta iota. destruct (remote E _ _) as [why|resp]; [reflexivity|].
  unfold raise_for_status. destruct (is_2xx _); [|reflexivity].
  unfold ret, response_json. destruct (json_body resp); reflexivity.
Qed.

(** What [update_prompt] does once the configuration has been fetched. *)
Lemma update_prompt_after_fetch app_id prompt mode s resp j :
  remote E (sent s)
    (session_req (self s) GET
       (console_api (self s) +:+ "/apps/" +:+ app_id +:+ "/model-config") NoPayload)
    = Answer resp ->
  is_2xx (status_code resp) = true ->
  json_body resp = Some j ->
  let s1 := {| self := self s;
               sent := sent s ++
                 [session_req (self s) GET
                    (console_api (self s) +:+ "/apps/" +:+ app_id +:+ "/model-config")
                    NoPayload] |} in
  update_prompt E app_id prompt mode s =
    match (if eq_str mode "chat"
           then setitem j "prompt_template" prompt
           else match getitem j "completion_params" with
                | Return inner =>
                    match setitem inner "prompt" prompt with
                    | Return inner' => setitem j "completion_params" inner'
                    | Raise e => Raise e
                    end
                | Raise e => Raise e
                end) with
    | Return config => update_app_config E app_id config s1
    | Raise e => (Raise e, s1)
    end.
Proof.
  intros Hans Hok Hbody s1. unfold update_prompt, bind at 1.
  rewrite (get_prompt_config_ok _ _ _ _ Hans Hok Hbody). fold s1.
  unfold bind, lift. destruct (eq_str mode "chat").
  - destruct (setitem j "prompt_template" prompt); reflexivity.
  - destruct (getitem j "completion_params") as [e|inner]; [reflexivity|].
    destruct (setitem inner "prompt" prompt) as [e|inner']; [reflexivity|].
    destruct (setitem j "completion_params" inner'); reflexivity.
Qed.

End ClientTheorems.

(** ** The claims about the client *)

Section ClientClaims.
Context (E : env).
Import Client.



(** C5 (amended).  Whatever the operation, the request that is answered
    with a non-2xx status is the last one the operation sends, and the operation
    raises the [HTTPError] of that answer.  Operations other than the four
    read-modify-write ones have sent nothing before it (exactly one request);
    a read-modify-write operation has sent at most its read before it. *)
Theorem non_2xx_ends_operation o s pre r post resp :
  sent (snd (run E o s)) = sent s ++ pre ++ r :: post ->
  remote E (sent s ++ pre) r = Answer resp ->
  is_2xx (status_code resp) = false ->
  fst (run E o s) = Raise (HTTPError resp) /\
  post = [] /\
  (if read_modify_write o then (length pre <= 1)%nat else pre = []).
Proof.
  intros Hsent Hans Hbad.
  destruct (fails_fast_run E o s) as [reqs [Hreqs [Hlen Hstop]]].
  rewrite Hreqs in Hsent. apply app_inv_head in Hsent. subst reqs.
  destruct (Hstop _ _ _ _ eq_refl Hans Hbad) as [-> Hres].
  split; [exact Hres|]. split; [reflexivity|].
  rewrite length_app in Hlen. simpl in Hlen.
  destruct (read_modify_write o).
  - lia.
  - destruct pre; [reflexivity|simpl in Hlen; lia].
Qed.

(** C6.  Once the model configuration has been fetched (a 2xx answer whose
    body is a JSON object, holding an object under [completion_params] when the
    mode is not "chat"), [update_prompt] sends exactly the read and then one
    write, and the written document is the fetched one with one key changed:
    [prompt_template] in chat mode, [completion_params.prompt] otherwise; every
    other field, at both levels, is the fetched one. *)
Theorem update_prompt_changes_one_key app_id prompt mode s resp cfg cp :
  let url := console_api (self s) +:+ "/apps/" +:+ app_id +:+ "/model-config" in
  let fetch := session_req (self s) GET url NoPayload in
  remote E (sent s) fetch = Answer resp ->
  is_2xx (status_code resp) = true ->
  json_body resp = Some (JObj cfg) ->
  (eq_str mode "chat" = false -> cfg !! "completion_params" = Some (JObj cp)) ->
  exists written : gmap string json,
    sent (snd (update_prompt E app_id prompt mode s)) =
      sent s ++ [fetch; session_req (self s) POST url (JsonPayload (JObj written))] /\
    if eq_str mode "chat"
    then written !! "prompt_template" = Some prompt /\
         forall k, k <> "prompt_template" -> written !! k = cfg !! k
    else exists cp' : gmap string json,
         written !! "completion_params" = Some (JObj cp') /\
         cp' !! "prompt" = Some prompt /\
         (forall k, k <> "prompt" -> cp' !! k = cp !! k) /\
         (forall k, k <> "completion_params" -> written !! k = cfg !! k).
Proof.
  intros url fetch Hans Hok Hbody Hcp.
  rewrite (update_prompt_after_fetch E app_id prompt mode s resp _ Hans Hok Hbody).
  destruct (eq_str mode "chat").
  - exists (<["prompt_template" := prompt]> cfg). cbn [setitem].
    rewrite update_app_config_sent. cbn [self sent]. rewrite <- app_assoc.
    split; [reflexivity|]. split; [apply lookup_insert_eq|].
    intros k Hk. now apply lookup_insert_ne.
  - specialize (Hcp eq_refl).
    exists (<["completion_params" := JObj (<["prompt" := prompt]> cp)]> cfg).
    rewrite (getitem_present _ _ _ Hcp). cbn [setitem].
    rewrite update_app_config_sent. cbn [self sent]. rewrite <- app_assoc.
    split; [reflexivity|]. exists (<["prompt" := prompt]> cp).
    split; [apply lookup_insert_eq|]. split; [apply lookup_insert_eq|].
    split; intros k Hk; now apply lookup_insert_ne.
Qed.

(** C10.  In any mode other than "chat", when the fetched configuration is
    an object in which [completion_params] is absent, or is not itself an
    object, [update_prompt] raises ([KeyError] when absent, [TypeError]
    otherwise) after the read and sends no write: the read is the only request
    that goes out. *)
Theorem update_prompt_needs_completion_params app_id prompt mode s resp cfg :
  let url := console_api (self s) +:+ "/apps/" +:+ app_id +:+ "/model-config" in
  let fetch := session_req (self s) GET url NoPayload in
  eq_str mode "chat" = false ->
  remote E (sent s) fetch = Answer resp ->
  is_2xx (status_code resp) = true ->
  json_body resp = Some (JObj cfg) ->
  (forall cp, cfg !! "completion_params" <> Some (JObj cp)) ->
  update_prompt E app_id prompt mode s =
    (Raise (match cfg !! "completion_params" with
            | None => KeyError "completion_params"
            | Some v => TypeError "setitem" v
            end),
     {| self := self s; sent := sent s ++ [fetch] |}).
Proof.
  intros url fetch Hmode Hans Hok Hbody Hcp.
  rewrite (update_prompt_after_fetch E app_id prompt mode s resp _ Hans Hok Hbody).
  rewrite Hmode. unfold getitem.
  destruct (cfg !! "completion_params") as [v|] eqn:Hv; [|reflexivity].
  destruct v; try reflexivity. now destruct (Hcp d).
Qed.

(** C7.  Once the parameters have been fetched (a 2xx answer whose body is
    a JSON object in which [user_input_form] is absent or a list),
    [add_variable] sends exactly the read and then one write; in the written
    document [user_input_form] is the fetched list (the empty list when the key
    was absent) followed by the new entry, and every other field is the fetched
    one.  The new entry holds the five fields of the variable as they were
    passed, [label] falling back to the variable's name when it is empty. *)
Theorem add_variable_appends app_id variable_name variable_type label required max_length
    s resp params old :
  let url := console_api (self s) +:+ "/apps/" +:+ app_id +:+ "/parameters" in
  let fetch := session_req (self s) GET url NoPayload in
  let entry :=
    JObj (<["variable" := variable_name]>
         (<["type" := variable_type]>
         (<["label" := if truthy label then label else variable_name]>
         (<["required" := required]>
         (<["max_length" := max_length]> ∅))))) in
  remote E (sent s) fetch = Answer resp ->
  is_2xx (status_code resp) = true ->
  json_body resp = Some (JObj params) ->
  (params !! "user_input_form" = None /\ old = [] \/
   params !! "user_input_form" = Some (JList old)) ->
  exists written : gmap string json,
    sent (snd (add_variable E app_id variable_name variable_type label required
                 max_length s)) =
      sent s ++ [fetch; session_req (self s) POST url (JsonPayload (JObj written))] /\
    written !! "user_input_form" = Some (JList (old ++ [entry])) /\
    forall k, k <> "user_input_form" -> written !! k = params !! k.
Proof.
  intros url fetch entry Hans Hok Hbody Hform.
  unfold add_variable, bind at 1.
  rewrite (get_app_parameters_ok E app_id s resp _ Hans Hok Hbody). cbv zeta.
  set (v := new_variable _ _ _ _ _).
  unfold bind, lift, ret. cbv beta iota.
  destruct Hform as [[Hnone ->]|Hsome].
  - rewrite (contains_absent _ _ Hnone). cbv beta iota. cbn [setitem].
    rewrite (getitem_present _ (JList []) _ (lookup_insert_eq _ _ _)). cbn [append setitem].
    exists (<["user_input_form" := JList ([] ++ [v])]> (<["user_input_form" := JList []]> params)).
    rewrite update_app_parameters_sent. cbn [self sent]. rewrite <- app_assoc.
    split; [reflexivity|]. split; [apply lookup_insert_eq|].
    intros k Hk. rewrite !lookup_insert_ne by congruence. reflexivity.
  - rewrite (contains_present _ _ _ Hsome). cbv beta iota.
    rewrite (getitem_present _ _ _ Hsome). cbn [append setitem].
    exists (<["user_input_form" := JList (old ++ [v])]> params).
    rewrite update_app_parameters_sent. cbn [self sent]. rewrite <- app_assoc.
    split; [reflexivity|]. split; [apply lookup_insert_eq|].
    intros k Hk. now apply lookup_insert_ne.
Qed.

End ClientClaims.

(** ** The claims about the front end *)

Section ServerClaims.
Context (E : env).
Import Server.

Lemma success_status_below_400 ep : success_status ep < 400.
Proof. destruct ep; cbn; lia. Qed.

(** C4.  On a body that is a JSON object, a /login whose [email] or
    [password] is missing or falsy (the empty string, [null], [0], [false], an
    empty list or object) is answered 400 and changes nothing: the global
    client is the one it was (none is constructed) and no request reaches the
    transport.  On a body that is not an object, in which both fields are
    missing just as well, the view never gets to that check: [data.get] raises
    [AttributeError] before the [try], nothing is returned by the view and the
    state is left as it was. *)
Theorem login_requires_email_and_password data st :
  (forall d, data = JObj d ->
     truthy (dict_get "email" d) = false \/ truthy (dict_get "password" d) = false ->
     handle E (PostLogin data) st =
       (jsonify (error_object "Email and password required") 400, st)) /\
  (is_object data = false ->
     handle E (PostLogin data) st = (Escaped (AttributeError "get" data), st)).
Proof.
  split.
  - intros d -> H. now apply login_missing_credentials.
  - apply login_bad_body.
Qed.

(** C3 (amended).  Every failure that a view catches is answered with an
    error object [{"error": message}] whose status says where it was caught,
    not what kind it is: 400 for a /login without email or password; 401 for a
    protected route called while the global client is unset, and for every
    exception raised while /login builds the client or logs in; 500 for every
    exception raised in the [try] of a protected route, by the client call or
    by the [data.get] that build its arguments.  Conversely a reply with
    status 400 or above is such an error object and has one of these
    causes. *)
Theorem failing_reply_statuses ep st :
  (forall d, ep = PostLogin (JObj d) ->
     truthy (dict_get "email" d) = false \/ truthy (dict_get "password" d) = false ->
     fst (handle E ep st) = jsonify (error_object "Email and password required") 400) /\
  (protected ep = true -> client st = None ->
     fst (handle E ep st) =
       jsonify (error_object "Not authenticated. Call /login first") 401) /\
  (forall d e, ep = PostLogin (JObj d) ->
     truthy (dict_get "email" d) = true -> truthy (dict_get "password" d) = true ->
     let url := dict_get_default "base_url" (JStr (default_base_url E)) d in
     (Client.init url None = Raise e \/
      exists c, Client.init url None = Return c /\
        fst (Client.login E (dict_get "email" d) (dict_get "password" d)
               {| self := c; sent := wire st |}) = Raise e) ->
     fst (handle E ep st) = jsonify (error_object (exn_str E e)) 401) /\
  (forall c e, protected ep = true -> client st = Some c ->
     ((exists data, request_body ep = Some data /\ is_object data = false /\
         e = AttributeError "get" data) \/
      (exists o, delegate ep = Some o /\
         fst (Client.run E o {| self := c; sent := wire st |}) = Raise e)) ->
     fst (handle E ep st) = jsonify (error_object (exn_str E e)) 500) /\
  (forall code content,
     fst (handle E ep st) = Replied code content -> 400 <= code ->
     exists message,
       content = error_object message /\
       ((code = 400 /\
         exists d, ep = PostLogin (JObj d) /\
           (truthy (dict_get "email" d) = false \/ truthy (dict_get "password" d) = false))
        \/
        (code = 401 /\ protected ep = true /\ client st = None)
        \/
        (code = 401 /\
         exists d e, ep = PostLogin (JObj d) /\ message = exn_str E e /\
           truthy (dict_get "email" d) = true /\ truthy (dict_get "password" d) = true /\
           let url := dict_get_default "base_url" (JStr (default_base_url E)) d in
           (Client.init url None = Raise e \/
            exists c, Client.init url None = Return c /\
              fst (Client.login E (dict_get "email" d) (dict_get "password" d)
                     {| self := c; sent := wire st |}) = Raise e))
        \/
        (code = 500 /\
         exists c e, client st = Some c /\ protected ep = true /\ message = exn_str E e /\
           ((exists data, request_body ep = Some data /\ is_object data = false /\
               e = AttributeError "get" data) \/
            (exists o, delegate ep = Some o /\
               fst (Client.run E o {| self := c; sent := wire st |}) = Raise e))))).
Proof.
  split; [|split; [|split; [|split]]].
  - intros d -> H. now rewrite login_missing_credentials.
  - intros Hp Hc. now rewrite handle_no_client.
  - intros d e -> Hemail Hpw url H. rewrite (login_with_credentials E d st Hemail Hpw).
    fold url. destruct H as [->|[c [-> Hlogin]]]; [reflexivity|].
    destruct (Client.login E _ _ _) as [[e'|j] s']; cbn [fst] in Hlogin;
      [now injection Hlogin as ->|discriminate].
  - intros c e Hp Hc [[data [Hb [Hd ->]]]|[o [Ho Hrun]]].
    + now rewrite (handle_bad_body E ep data c st Hp Hb Hd Hc).
    + rewrite (handle_with_client E ep o c st Ho Hc).
      destruct (Client.run E o _) as [[e'|j] s']; cbn [fst] in Hrun;
        [now injection Hrun as ->|discriminate].
  - intros code content Hreply Hfail.
    destruct (protected ep) eqn:Hprot.
    + destruct (client st) as [c|] eqn:Hc.
      * destruct (delegate_protected ep Hprot) as [[o Ho]|[data [Hb Hd]]].
        -- rewrite (handle_with_client E ep o c st Ho Hc) in Hreply.
           destruct (Client.run E o _) as [[e|j] s'] eqn:Hrun; cbn [fst jsonify] in Hreply;
             injection Hreply as <- <-.
           ++ exists (exn_str E e). split; [reflexivity|]. right. right. right.
              split; [reflexivity|]. exists c, e. repeat (split; [reflexivity|]).
              right. exists o. rewrite Hrun. auto.
           ++ pose proof (success_status_below_400 ep). lia.
        -- rewrite (handle_bad_body E ep data c st Hprot Hb Hd Hc) in Hreply.
           cbn [fst jsonify] in Hreply. injection Hreply as <- <-.
           eexists. split; [reflexivity|]. right. right. right.
           split; [reflexivity|]. exists c, (AttributeError "get" data).
           repeat (split; [reflexivity|]). left. exists data. auto.
      * rewrite (handle_no_client E ep st Hprot Hc) in Hreply.
        cbn [fst] in Hreply. injection Hreply as <- <-.
        eexists. split; [reflexivity|]. right. left. auto.
    + destruct ep; try discriminate Hprot.
      * cbn in Hreply. injection Hreply as <- <-. lia.
      * destruct (is_object data) eqn:Hobj.
        2:{ rewrite (login_bad_body E data st Hobj) in Hreply. discriminate Hreply. }
        destruct data as [| | | | | |d]; try discriminate Hobj.
        destruct (truthy (dict_get "email" d)) eqn:Hemail;
          [destruct (truthy (dict_get "password" d)) eqn:Hpw|].
        -- rewrite (login_with_credentials E d st Hemail Hpw) in Hreply.
           destruct (Client.init _ None) as [e|c] eqn:Hinit.
           ++ cbn [fst jsonify] in Hreply. injection Hreply as <- <-.
              exists (exn_str E e). split; [reflexivity|]. right. right. left.
              split; [reflexivity|]. exists d, e. cbv zeta. rewrite Hinit.
              repeat (split; [first [reflexivity|assumption]|]). left. reflexivity.
           ++ destruct (Client.login E _ _ _) as [[e|j] s'] eqn:Hlogin;
                cbn [fst jsonify] in Hreply; injection Hreply as <- <-; [|lia].
              exists (exn_str E e). split; [reflexivity|]. right. right. left.
              split; [reflexivity|]. exists d, e. cbv zeta. rewrite Hinit.
              repeat (split; [first [reflexivity|assumption]|]). right. exists c.
              rewrite Hlogin. split; reflexivity.
        -- rewrite (login_missing_credentials E d st (or_intror Hpw)) in Hreply.
           cbn [fst jsonify] in Hreply. injection Hreply as <- <-.
           eexists. split; [reflexivity|]. left. split; [reflexivity|]. exists d. auto.
        -- rewrite (login_missing_credentials E d st (or_introl Hemail)) in Hreply.
           cbn [fst jsonify] in Hreply. injection Hreply as <- <-.
           eexists. split; [reflexivity|]. left. split; [reflexivity|]. exists d. auto.
Qed.

(** C8 (amended).  When the client call of a protected route returns, the
    reply body is the value it returned, unchanged (status 200; 201 for the two
    create routes), and that value is the decoded JSON body of the remote's
    answer to the last request the call sent.  /login is different by
    design: when its client login returns, the reply is the fixed object
    [{"success": true, "message": "Logged in successfully"}], whatever the
    remote's body was. *)
Theorem successful_reply_bodies ep st :
  (forall c o j s',
      client st = Some c -> delegate ep = Some o ->
      Client.run E o {| self := c; sent := wire st |} = (Return j, s') ->
      handle E ep st =
        (jsonify j (success_status ep), {| client := Some (self s'); wire := sent s' |}) /\
      exists pre r resp,
        sent s' = wire st ++ pre ++ [r] /\
        remote E (wire st ++ pre) r = Answer resp /\
        json_body resp = Some j) /\
  (forall d c j s',
      ep = PostLogin (JObj d) ->
      truthy (dict_get "email" d) = true -> truthy (dict_get "password" d) = true ->
      Client.init (dict_get_default "base_url" (JStr (default_base_url E)) d) None
        = Return c ->
      Client.login E (dict_get "email" d) (dict_get "password" d)
        {| self := c; sent := wire st |} = (Return j, s') ->
      handle E ep st =
        (jsonify login_success 200, {| client := Some (self s'); wire := sent s' |})).
Proof.
  split.
  - intros c o j s' Hc Ho Hrun. rewrite (handle_with_client E ep o c st Ho Hc), Hrun.
    split; [reflexivity|].
    pose proof (returns_answer_run E o (delegate_sends ep o Ho)
                  {| self := c; sent := wire st |} j) as Hbody.
    rewrite Hrun in Hbody. exact (Hbody eq_refl).
  - intros d c j s' -> Hemail Hpw Hinit Hlogin.
    rewrite (login_with_credentials E d st Hemail Hpw), Hinit, Hlogin. reflexivity.
Qed.

End ServerClaims.

(** ** The claims on concrete runs *)

Section Runs.
Import Client Server.

(** C1.  The code at the failing input: /login with well-formed credentials
    that the remote rejects with 401, then GET /apps.  The global client was
    bound before the login call raised, so the decorator lets the second
    request through: it reaches the transport (without an [Authorization]
    header) and the remote's answer is relayed with status 200. *)
Theorem protected_route_after_failed_login :
  let E := scenario [answer 401 (JObj ∅); answer 200 (JObj ∅)] in
  let attempt := handle E (PostLogin (JObj credentials)) no_client in
  status (fst attempt) = Some 401 /\
  handle E GetApps (snd attempt) =
    (jsonify (JObj ∅) 200,
     {| client := Some fresh_client;
        wire := [login_req fresh_client demo_email demo_password;
                 session_req fresh_client GET "http://dify/console/api/apps" NoPayload] |}).
Proof. vm_compute. split; reflexivity. Qed.


(** Counterexample to C3 as stated: an upstream 500 during /login is
    answered 401, and an upstream 401 on a protected route is answered 500. *)
Lemma status_follows_route_not_failure :
  status (fst (handle (scenario [answer 500 (JObj ∅)]) (PostLogin (JObj credentials))
                 no_client)) = Some 401 /\
  status (fst (handle (scenario [answer 401 (JObj ∅)]) GetApps
                 {| client := Some fresh_client; wire := [] |})) = Some 500.
Proof. split; vm_compute; reflexivity. Qed.

(** Counterexample to C5 as stated: [update_prompt] whose write is answered
    500 has sent two requests. *)
Lemma update_prompt_sends_two_requests :
  let E := scenario [answer 200 (JObj ∅); answer 500 (JObj ∅)] in
  let out := run E (UpdatePrompt "app" (JStr "Be brief.") (JStr "chat")) (idle fresh_client) in
  exists r1 r2 resp,
    sent (snd out) = [r1; r2] /\
    remote E [r1] r2 = Answer resp /\
    is_2xx (status_code resp) = false /\
    fst out = Raise (HTTPError resp).
Proof.
  cbv zeta. do 3 eexists. split; [vm_compute; reflexivity|].
  split; [vm_compute; reflexivity|]. split; vm_compute; reflexivity.
Qed.

(** Counterexample to C8 as stated: the client login returned the remote's
    body, and the /login reply is another object. *)
Lemma login_reply_is_not_remote_body :
  let E := scenario [answer 200 (token_body "T")] in
  fst (Client.login E demo_email demo_password (idle fresh_client)) = Return (token_body "T") /\
  fst (handle E (PostLogin (JObj credentials)) no_client) = jsonify login_success 200 /\
  login_success <> token_body "T".
Proof.
  cbv zeta. split; [vm_compute; reflexivity|]. split; [vm_compute; reflexivity|].
  intros H.
  apply (f_equal (fun j => match j with JObj d => d !! "data" | _ => None end)) in H.
  vm_compute in H. discriminate H.
Qed.




(** C5 on a run: [get_apps] answered 503. *)
Lemma non_2xx_ends_operation_witness :
  let E := scenario [answer 503 (JObj ∅)] in
  let s := idle fresh_client in
  let r := session_req fresh_client GET "http://dify/console/api/apps" NoPayload in
  sent (snd (run E Client.GetApps s)) = sent s ++ [] ++ r :: [] /\
  remote E (sent s ++ []) r = answer 503 (JObj ∅) /\
  is_2xx 503 = false /\
  fst (run E Client.GetApps s) =
    Raise (HTTPError {| status_code := 503; json_body := Some (JObj ∅) |}).
Proof.
  cbv zeta. split; [vm_compute; reflexivity|]. split; [vm_compute; reflexivity|].
  split; [reflexivity|].
  apply (non_2xx_ends_operation (scenario [answer 503 (JObj ∅)]) Client.GetApps
           (idle fresh_client) []
           (session_req fresh_client GET "http://dify/console/api/apps" NoPayload) []
           {| status_code := 503; json_body := Some (JObj ∅) |});
    vm_compute; reflexivity.
Defined.

(** C6 on a run: a chat prompt written over a fetched configuration. *)
Lemma update_prompt_changes_one_key_witness :
  let E := scenario [answer 200 (JObj some_config); answer 200 (JObj ∅)] in
  let s := idle fresh_client in
  let url := "http://dify/console/api/apps/app/model-config" in
  remote E (sent s) (session_req fresh_client GET url NoPayload)
    = answer 200 (JObj some_config) /\
  exists written : gmap string json,
    sent (snd (Client.update_prompt E "app" (JStr "new") (JStr "chat") s)) =
      [session_req fresh_client GET url NoPayload;
       session_req fresh_client POST url (JsonPayload (JObj written))] /\
    written !! "prompt_template" = Some (JStr "new") /\
    written !! "model" = Some (JStr "gpt-4").
Proof.
  cbv zeta. split; [vm_compute; reflexivity|].
  destruct (update_prompt_changes_one_key
              (scenario [answer 200 (JObj some_config); answer 200 (JObj ∅)])
              "app" (JStr "new") (JStr "chat") (idle fresh_client)
              {| status_code := 200; json_body := Some (JObj some_config) |}
              some_config ∅ eq_refl eq_refl eq_refl)
    as [written [Hsent [Hnew Hframe]]].
  { intros H. vm_compute in H. discriminate H. }
  exists written. split; [exact Hsent|]. split; [exact Hnew|].
  rewrite Hframe by discriminate. vm_compute. reflexivity.
Defined.

(** C10 on a run: completion mode on a configuration without
    [completion_params]. *)
Lemma update_prompt_needs_completion_params_witness :
  let E := scenario [answer 200 (JObj some_config)] in
  let s := idle fresh_client in
  let url := "http://dify/console/api/apps/app/model-config" in
  eq_str (JStr "completion") "chat" = false /\
  some_config !! "completion_params" = None /\
  Client.update_prompt E "app" (JStr "new") (JStr "completion") s =
    (Raise (KeyError "completion_params"),
     {| self := fresh_client; sent := [session_req fresh_client GET url NoPayload] |}).
Proof.
  cbv zeta. split; [reflexivity|]. split; [vm_compute; reflexivity|].
  apply (update_prompt_needs_completion_params
           (scenario [answer 200 (JObj some_config)])
           "app" (JStr "new") (JStr "completion") (idle fresh_client)
           {| status_code := 200; json_body := Some (JObj some_config) |}
           some_config eq_refl eq_refl eq_refl eq_refl).
  intros cp H. vm_compute in H. discriminate H.
Defined.

(** C7 on a run: a variable added to a form that has one entry. *)
Lemma add_variable_appends_witness :
  let E := scenario [answer 200 (JObj some_parameters); answer 200 (JObj ∅)] in
  let s := idle fresh_client in
  let url := "http://dify/console/api/apps/app/parameters" in
  let v := JObj (<["variable" := JStr "city"]>
                (<["type" := JStr "text-input"]>
                (<["label" := JStr "city"]>
                (<["required" := JBool false]>
                (<["max_length" := JInt 48]> ∅))))) in
  some_parameters !! "user_input_form" = Some (JList [JStr "first"]) /\
  exists written : gmap string json,
    sent (snd (Client.add_variable E "app" (JStr "city") (JStr "text-input") (JStr "")
                 (JBool false) (JInt 48) s)) =
      [session_req fresh_client GET url NoPayload;
       session_req fresh_client POST url (JsonPayload (JObj written))] /\
    written !! "user_input_form" = Some (JList [JStr "first"; v]) /\
    written !! "opening_statement" = Some (JStr "Hello").
Proof.
  cbv zeta. split; [vm_compute; reflexivity|].
  destruct (add_variable_appends
              (scenario [answer 200 (JObj some_parameters); answer 200 (JObj ∅)])
              "app" (JStr "city") (JStr "text-input") (JStr "") (JBool false) (JInt 48)
              (idle fresh_client)
              {| status_code := 200; json_body := Some (JObj some_parameters) |}
              some_parameters [JStr "first"] eq_refl eq_refl eq_refl
              (or_intror eq_refl))
    as [written [Hsent [Hform Hframe]]].
  exists written. split; [exact Hsent|]. split; [exact Hform|].
  rewrite Hframe by discriminate. vm_compute. reflexivity.
Defined.

(** C4 on two runs: a /login body without [email], and a /login body that
    is an empty list. *)
Lemma login_requires_email_and_password_witness :
  let data : gmap string json := <["password" := JStr "secret"]> ∅ in
  truthy (dict_get "email" data) = false /\
  handle (scenario []) (PostLogin (JObj data)) no_client =
    (jsonify (error_object "Email and password required") 400, no_client) /\
  handle (scenario []) (PostLogin (JList [])) no_client =
    (Escaped (AttributeError "get" (JList [])), no_client).
Proof.
  cbv zeta. split; [vm_compute; reflexivity|]. split.
  - apply (proj1 (login_requires_email_and_password (scenario [])
                    (JObj (<["password" := JStr "secret"]> ∅)) no_client)
             (<["password" := JStr "secret"]> ∅) eq_refl).
    left. vm_compute. reflexivity.
  - apply (proj2 (login_requires_email_and_password (scenario []) (JList []) no_client)).
    reflexivity.
Defined.

(** C3 on a run: GET /datasets answered 500 by the remote. *)
Lemma failing_reply_statuses_witness :
  let E := scenario [answer 500 (JObj ∅)] in
  let st := {| client := Some fresh_client; wire := [] |} in
  let resp := {| status_code := 500; json_body := Some (JObj ∅) |} in
  fst (Client.run E Client.GetDatasets (idle fresh_client)) = Raise (HTTPError resp) /\
  fst (handle E GetDatasets st) = jsonify (error_object "HTTPError") 500.
Proof.
  cbv zeta. split; [vm_compute; reflexivity|].
  apply (proj1 (proj2 (proj2 (proj2
           (failing_reply_statuses (scenario [answer 500 (JObj ∅)]) GetDatasets
              {| client := Some fresh_client; wire := [] |}))))
           fresh_client
           (HTTPError {| status_code := 500; json_body := Some (JObj ∅) |})
           eq_refl eq_refl).
  right. exists Client.GetDatasets. split; [reflexivity|]. vm_compute. reflexivity.
Defined.

(** C8 on a run: GET /apps relays the list the remote answered, and a
    /login whose client login returned answers with the fixed object. *)
Lemma successful_reply_bodies_witness :
  let E := scenario [answer 200 (JList [JStr "an app"])] in
  let st := {| client := Some fresh_client; wire := [] |} in
  let E' := scenario [answer 200 (token_body "T")] in
  fst (Client.run E Client.GetApps (idle fresh_client)) = Return (JList [JStr "an app"]) /\
  fst (handle E GetApps st) = jsonify (JList [JStr "an app"]) 200 /\
  fst (Client.login E' demo_email demo_password (idle fresh_client))
    = Return (token_body "T") /\
  fst (handle E' (PostLogin (JObj credentials)) no_client) = jsonify login_success 200.
Proof.
  cbv zeta. split; [vm_compute; reflexivity|]. split; [|split; [vm_compute; reflexivity|]].
  - destruct (proj1 (successful_reply_bodies (scenario [answer 200 (JList [JStr "an app"])])
                       GetApps {| client := Some fresh_client; wire := [] |})
                fresh_client Client.GetApps (JList [JStr "an app"])
                (snd (Client.run (scenario [answer 200 (JList [JStr "an app"])])
                        Client.GetApps (idle fresh_client)))
                eq_refl eq_refl) as [Hreply _].
    + vm_compute. reflexivity.
    + rewrite Hreply. reflexivity.
  - rewrite (proj2 (successful_reply_bodies (scenario [answer 200 (token_body "T")])
                      (PostLogin (JObj credentials)) no_client)
               credentials fresh_client (token_body "T")
               (snd (Client.login (scenario [answer 200 (token_body "T")])
                       demo_email demo_password (idle fresh_client)))
               eq_refl).
    + reflexivity.
    + vm_compute. reflexivity.
    + vm_compute. reflexivity.
    + vm_compute. reflexivity.
    + vm_compute. reflexivity.
Defined.

End Runs.

(** * Beyond the claims *)

(** ** Strings *)

Lemma string_app_cons c (a b : string) : String c a +:+ b = String c (a +:+ b).
Proof. reflexivity. Qed.

Lemma prefix_append (a b : string) : String.prefix a (a +:+ b) = true.
Proof.
  induction a as [|c a IH]; [now destruct b|]. rewrite string_app_cons. simpl.
  destruct (ascii_dec c c); [assumption|congruence].
Qed.

Lemma prefix_append_same (a b c : string) :
  String.prefix (a +:+ b) (a +:+ c) = String.prefix b c.
Proof.
  induction a as [|x a IH]; [reflexivity|]. rewrite !string_app_cons. simpl.
  destruct (ascii_dec x x); [assumption|congruence].
Qed.

Lemma prefix_trans (a b c : string) :
  String.prefix a b = true -> String.prefix b c = true -> String.prefix a c = true.
Proof.
  revert b c. induction a as [|x a IH]; intros b c Hab Hbc; [now destruct c|].
  destruct b as [|y b]; [discriminate|]. destruct c as [|z c]; [discriminate|].
  simpl in *. destruct (ascii_dec x y) as [->|]; [|discriminate].
  destruct (ascii_dec y z); [|discriminate]. eauto.
Qed.

Ltac each_request := repeat first [apply List.Forall_nil | apply List.Forall_cons]; cbv beta.

(** ** One exchange, and the operations that consist of one *)

Section Exchanges.
Context (E : env).
Import Client.

Lemma exchange_run m url p s :
  bind (session_request E m url p)
    (fun response => bind (raise_for_status response) (fun _ => response_json response)) s
  = (exchange_result (remote E (sent s) (session_req (self s) m url p)),
     {| self := self s; sent := sent s ++ [session_req (self s) m url p] |}).
Proof.
  unfold bind, session_request, send, exchange_result.
  fold (session_req (self s) m url p).
  destruct (remote E _ _) as [why|resp]; [reflexivity|].
  unfold raise_for_status. destruct (is_2xx _); [|reflexivity].
  unfold ret, response_json. destruct (json_body resp); reflexivity.
Qed.

Lemma exchange_run_requests m url h p s :
  let r := {| req_method := m; req_url := url; req_headers := h; req_body := p |} in
  bind (requests_request E m url h p)
    (fun response => bind (raise_for_status response) (fun _ => response_json response)) s
  = (exchange_result (remote E (sent s) r), {| self := self s; sent := sent s ++ [r] |}).
Proof.
  intros r. unfold bind, requests_request, send, exchange_result. fold r.
  destruct (remote E _ _) as [why|resp]; [reflexivity|].
  unfold raise_for_status. destruct (is_2xx _); [|reflexivity].
  unfold ret, response_json. destruct (json_body resp); reflexivity.
Qed.

(** An operation that is one exchange through the session or through the
    module-level functions: what it returns and the state it leaves. *)
Lemma one_exchange_shape o s :
  is_set_api_key o = false -> is_login o = false -> read_modify_write o = false ->
  (forall f, file_needed o = Some f -> is_Some (open_rb E f)) ->
  exists r,
    run E o s = (exchange_result (remote E (sent s) r),
                 {| self := self s; sent := sent s ++ [r] |}) /\
    if uses_session o
    then req_headers r = headers (session (self s)) /\
         String.prefix (console_api (self s)) (req_url r) = true
    else String.prefix (public_api (self s)) (req_url r) = true.
Proof.
  intros Hk Hl Hr Hf.
  destruct o; try discriminate Hk; try discriminate Hl; try discriminate Hr;
    cbn [run uses_session];
    unfold get_apps, get_app_detail, create_app, update_model_settings, update_app_config,
      get_app_parameters, update_app_parameters, get_prompt_config, get_workflow,
      update_workflow, publish_workflow, link_knowledge_base, delete_app, rename_app,
      get_datasets, create_dataset, upload_document, chat_completion, get_conversations;
    unfold bind at 1, get_self; cbv beta iota zeta;
    try (destruct (Hf file_path eq_refl) as [content ->]);
    first [ rewrite exchange_run | rewrite exchange_run_requests ];
    eexists; (split; [reflexivity|]); cbn [req_headers req_url session_req];
    first [ split; [reflexivity|apply prefix_append] | apply prefix_append ].
Qed.

End Exchanges.

(** ** The read-modify-write operations *)

Section ReadModifyWrite.
Context (E : env).
Import Client.

Lemma get_prompt_config_run a s :
  let r := session_req (self s) GET
             (console_api (self s) +:+ "/apps/" +:+ a +:+ "/model-config") NoPayload in
  get_prompt_config E a s =
    (exchange_result (remote E (sent s) r), {| self := self s; sent := sent s ++ [r] |}).
Proof. unfold get_prompt_config, bind at 1, get_self. cbv beta iota zeta. apply exchange_run. Qed.

Lemma get_app_parameters_run a s :
  let r := session_req (self s) GET
             (console_api (self s) +:+ "/apps/" +:+ a +:+ "/parameters") NoPayload in
  get_app_parameters E a s =
    (exchange_result (remote E (sent s) r), {| self := self s; sent := sent s ++ [r] |}).
Proof. unfold get_app_parameters, bind at 1, get_self. cbv beta iota zeta. apply exchange_run. Qed.

Lemma update_app_config_run a doc s :
  let r := session_req (self s) POST
             (console_api (self s) +:+ "/apps/" +:+ a +:+ "/model-config") (JsonPayload doc) in
  update_app_config E a doc s =
    (exchange_result (remote E (sent s) r), {| self := self s; sent := sent s ++ [r] |}).
Proof. unfold update_app_config, bind at 1, get_self. cbv beta iota zeta. apply exchange_run. Qed.

Lemma update_app_parameters_run a doc s :
  let r := session_req (self s) POST
             (console_api (self s) +:+ "/apps/" +:+ a +:+ "/parameters") (JsonPayload doc) in
  update_app_parameters E a doc s =
    (exchange_result (remote E (sent s) r), {| self := self s; sent := sent s ++ [r] |}).
Proof.
  unfold update_app_parameters, bind at 1, get_self. cbv beta iota zeta. apply exchange_run.
Qed.

Ltac patch_failed :=
  subst; right; left; do 2 eexists; split; [reflexivity|]; split; [|reflexivity]; reflexivity.
Ltac written lemma H :=
  cbv beta iota zeta in H; rewrite lemma in H; cbn [self sent] in H;
  rewrite <- app_assoc in H; subst;
  right; right; do 2 eexists; split; reflexivity.

Lemma update_prompt_outcome a prompt mode s :
  rmw_outcome E (UpdatePrompt a prompt mode) s (update_prompt E a prompt mode s).
Proof.
  remember (update_prompt E a prompt mode s) as out eqn:Hout.
  unfold rmw_outcome. cbn [rmw_url]. cbv zeta.
  unfold update_prompt, bind at 1 in Hout. rewrite get_prompt_config_run in Hout.
  cbv zeta in Hout.
  destruct (exchange_result _) as [e|j] eqn:Hread.
  - left. exists e. split; [reflexivity|assumption].
  - cbv beta iota in Hout. unfold bind, lift in Hout. destruct (eq_str mode "chat").
    + destruct j; cbn [setitem] in Hout; try patch_failed.
      written update_app_config_run Hout.
    + destruct j; cbn [getitem] in Hout; try patch_failed.
      destruct (d !! "completion_params") as [inner|]; [|patch_failed].
      destruct inner; cbn [setitem] in Hout; try patch_failed.
      written update_app_config_run Hout.
Qed.

Lemma add_variable_outcome a n t l r ml s :
  rmw_outcome E (AddVariable a n t l r ml) s (add_variable E a n t l r ml s).
Proof.
  remember (add_variable E a n t l r ml s) as out eqn:Hout.
  unfold rmw_outcome. cbn [rmw_url]. cbv zeta.
  unfold add_variable, bind at 1 in Hout. rewrite get_app_parameters_run in Hout.
  cbv zeta in Hout.
  destruct (exchange_result _) as [e|j] eqn:Hread.
  - left. exists e. split; [reflexivity|assumption].
  - cbv beta iota in Hout. unfold bind, lift, ret in Hout.
    destruct j; cbn [contains] in Hout; try patch_failed.
    + destruct (String.index _ _ _); cbn [setitem getitem] in Hout; patch_failed.
    + destruct (existsb _ _); cbn [setitem getitem] in Hout; patch_failed.
    + destruct (bool_decide (is_Some (d !! "user_input_form"))) eqn:Hin;
        cbv beta iota in Hout.
      * cbn [getitem] in Hout.
        destruct (d !! "user_input_form") as [form|]; [|patch_failed].
        destruct form; cbn [append setitem] in Hout; try patch_failed.
        written update_app_parameters_run Hout.
      * cbn [setitem getitem] in Hout. rewrite lookup_insert_eq in Hout.
        cbn [append setitem] in Hout. written update_app_parameters_run Hout.
Qed.

Lemma update_opening_statement_outcome a o q s :
  rmw_outcome E (UpdateOpeningStatement a o q) s (update_opening_statement E a o q s).
Proof.
  remember (update_opening_statement E a o q s) as out eqn:Hout.
  unfold rmw_outcome. cbn [rmw_url]. cbv zeta.
  unfold update_opening_statement, bind at 1 in Hout.
  rewrite get_app_parameters_run in Hout. cbv zeta in Hout.
  destruct (exchange_result _) as [e|j] eqn:Hread.
  - left. exists e. split; [reflexivity|assumption].
  - cbv beta iota in Hout. unfold bind, lift, ret in Hout.
    destruct j; cbn [setitem] in Hout; try patch_failed.
    destruct (truthy q); cbn [setitem] in Hout; written update_app_parameters_run Hout.
Qed.

Lemma add_tool_to_app_outcome a n c s :
  rmw_outcome E (AddToolToApp a n c) s (add_tool_to_app E a n c s).
Proof.
  remember (add_tool_to_app E a n c s) as out eqn:Hout.
  unfold rmw_outcome. cbn [rmw_url]. cbv zeta.
  unfold add_tool_to_app, bind at 1 in Hout. rewrite get_prompt_config_run in Hout.
  cbv zeta in Hout.
  destruct (exchange_result _) as [e|j] eqn:Hread.
  - left. exists e. split; [reflexivity|assumption].
  - cbv beta iota in Hout. unfold bind, lift, ret in Hout.
    destruct j; cbn [contains] in Hout; try patch_failed.
    + destruct (String.index _ _ _); cbn [setitem getitem] in Hout; patch_failed.
    + destruct (existsb _ _); cbn [setitem getitem] in Hout; patch_failed.
    + destruct (bool_decide (is_Some (d !! "agent_mode"))) eqn:Hin; cbv beta iota in Hout.
      * cbn [getitem] in Hout. destruct (d !! "agent_mode") as [agent|]; [|patch_failed].
        destruct agent; cbn [getitem] in Hout; try patch_failed.
        destruct (d0 !! "tools") as [tools|]; [|patch_failed].
        destruct tools; cbn [append setitem] in Hout; try patch_failed.
        written update_app_config_run Hout.
      * cbn [setitem getitem] in Hout. rewrite lookup_insert_eq in Hout.
        cbn [getitem] in Hout.
        rewrite lookup_insert_ne in Hout by discriminate.
        rewrite lookup_insert_eq in Hout.
        cbn [append setitem] in Hout. written update_app_config_run Hout.
Qed.

Lemma run_rmw_outcome o s : read_modify_write o = true -> rmw_outcome E o s (run E o s).
Proof.
  destruct o; try discriminate; intros _; cbn [run].
  - apply update_prompt_outcome.
  - apply add_variable_outcome.
  - apply update_opening_statement_outcome.
  - apply add_tool_to_app_outcome.
Qed.

End ReadModifyWrite.

(** ** [login], case by case *)

Section LoginOutcome.
Context (E : env).
Import Client.

Lemma login_outcome email password s :
  let req := login_req (self s) email password in
  let s1 := {| self := self s; sent := sent s ++ [req] |} in
  match exchange_result (remote E (sent s) req) with
  | Raise e => login E email password s = (Raise e, s1)
  | Return data =>
      (exists e, local_exn e = true /\ login E email password s = (Raise e, s1)) \/
      login E email password s = (Return data, s1) \/
      (exists token,
         login E email password s =
           (Return data,
            {| self := with_authorization (self s) ("Bearer " +:+ fmt E token);
               sent := sent s ++ [req] |}))
  end.
Proof.
  intros req s1. unfold login, bind at 1, get_self. cbv beta iota zeta.
  unfold bind, session_request, send, exchange_result.
  fold (session_req (self s) POST (console_api (self s) +:+ "/login")
          (JsonPayload (JObj (<["email" := email]> (<["password" := password]> ∅))))).
  fold (login_req (self s) email password). fold req. fold s1.
  destruct (remote E (sent s) req) as [why|resp]; [reflexivity|].
  unfold raise_for_status. destruct (is_2xx (status_code resp)); [|reflexivity].
  unfold ret, response_json. destruct (json_body resp) as [data|]; [|reflexivity].
  unfold lift, ret. cbv beta iota.
  destruct (contains "data" data) as [e|[|]] eqn:Hdata.
  - left. exists e. split; [|reflexivity].
    destruct data; cbn in Hdata; try discriminate; now injection Hdata as <-.
  - destruct (getitem data "data") as [e|inner] eqn:Hget.
    { left. exists e. split; [|reflexivity].
      destruct data; cbn in Hget; try (now injection Hget as <-).
      destruct (d !! "data"); [discriminate|now injection Hget as <-]. }
    destruct (contains "access_token" inner) as [e|[|]] eqn:Htok.
    + left. exists e. split; [|reflexivity].
      destruct inner; cbn in Htok; try discriminate; now injection Htok as <-.
    + destruct (getitem inner "access_token") as [e|token] eqn:Hget2.
      { left. exists e. split; [|reflexivity].
        destruct inner; cbn in Hget2; try (now injection Hget2 as <-).
        destruct (d !! "access_token"); [discriminate|now injection Hget2 as <-]. }
      right. right. exists token. reflexivity.
    + right. left. reflexivity.
  - right. left. reflexivity.
Qed.

End LoginOutcome.

(** ** Stopping at the first failed exchange *)

Section FailureStops.
Context (E : env).
Import Client.

Lemma stops_silent {A} (m : M A) : silent m -> stops_at_failure E m.
Proof.
  intros Hm s. exists []. rewrite Hm, app_nil_r. split; [reflexivity|].
  intros [|] ? ? ? H; discriminate H.
Qed.

Lemma stops_silent_bind {A B} (m : M A) (k : A -> M B) :
  silent m -> (forall a, stops_at_failure E (k a)) -> stops_at_failure E (bind m k).
Proof.
  intros Hm Hk s. unfold bind. specialize (Hm s).
  destruct (m s) as [[e|a] s1]; simpl in *.
  - exists []. rewrite Hm, app_nil_r. split; [reflexivity|].
    intros [|] ? ? ? H; discriminate H.
  - destruct (Hk a s1) as [reqs H]. exists reqs. now rewrite <- Hm.
Qed.

Lemma stops_bind {A B} (m : M A) (k : A -> M B) :
  stops_at_failure E m -> (forall a, stops_at_failure E (k a)) ->
  stops_at_failure E (bind m k).
Proof.
  intros Hm Hk s. unfold bind.
  destruct (Hm s) as [reqs1 [Hs1 Hstop1]].
  destruct (m s) as [[e|a] s1]; simpl in *.
  - exists reqs1. split; [assumption|].
    intros pre r post e' Hsplit Hfail.
    destruct (Hstop1 _ _ _ _ Hsplit Hfail) as [-> Heq].
    injection Heq as ->. split; reflexivity.
  - destruct (Hk a s1) as [reqs2 [Hs2 Hstop2]].
    exists (reqs1 ++ reqs2). rewrite Hs2, Hs1, <- app_assoc. split; [reflexivity|].
    intros pre r post e' Hsplit Hfail.
    destruct (split_app _ _ _ _ _ Hsplit) as [[post1 [-> ->]]|[pre2 [-> ->]]].
    + destruct (Hstop1 _ _ _ _ eq_refl Hfail) as [_ Habs]; discriminate Habs.
    + rewrite app_assoc, <- Hs1 in Hfail. eapply Hstop2; eauto.
Qed.

Lemma decodes_first_response_json resp : decodes_first resp (response_json resp).
Proof.
  split; [apply silent_response_json|]. intros H s. unfold response_json. now rewrite H.
Qed.

Lemma decodes_first_bind {B} resp (k : json -> M B) :
  (forall j, silent (k j)) -> decodes_first resp (bind (response_json resp) k).
Proof.
  intros Hk. split.
  - apply silent_bind; [apply silent_response_json|exact Hk].
  - intros H s. unfold bind, response_json. now rewrite H.
Qed.

Lemma stops_send {B} (r : cstate -> request) (k : response -> M B) :
  (forall resp, decodes_first resp (k resp)) ->
  stops_at_failure E (bind (fun s => send E (r s) s)
                        (fun response => bind (raise_for_status response)
                                           (fun _ => k response))).
Proof.
  intros Hk s. exists [r s].
  assert (Hsent : sent (snd (bind (fun s => send E (r s) s)
                               (fun response => bind (raise_for_status response)
                                                  (fun _ => k response)) s))
                  = sent s ++ [r s]).
  { unfold bind, send. destruct (remote E (sent s) (r s)) as [why|resp]; [reflexivity|].
    unfold raise_for_status. destruct (is_2xx _); [|reflexivity].
    unfold ret. destruct (Hk resp) as [Hsilent _]. now rewrite Hsilent. }
  split; [exact Hsent|].
  intros pre r0 post e Hsplit Hfail.
  destruct pre as [|? pre]; simpl in Hsplit.
  2:{ destruct pre; discriminate Hsplit. }
  injection Hsplit as <- <-. rewrite app_nil_r in Hfail. split; [reflexivity|].
  unfold bind, send. unfold exchange_result in Hfail.
  destruct (remote E (sent s) (r s)) as [why|resp]; [now injection Hfail as <-|].
  unfold raise_for_status. destruct (is_2xx _); [|now injection Hfail as <-].
  unfold ret. destruct (json_body resp) eqn:Hbody; [discriminate|].
  injection Hfail as <-. destruct (Hk resp) as [_ Hdec]. apply Hdec, Hbody.
Qed.

Lemma stops_session {B} m url p (k : response -> M B) :
  (forall resp, decodes_first resp (k resp)) ->
  stops_at_failure E (bind (session_request E m url p)
                        (fun response => bind (raise_for_status response)
                                           (fun _ => k response))).
Proof. intros Hk. unfold session_request. apply (stops_send (fun s => _)), Hk. Qed.

Lemma stops_requests {B} m url h p (k : response -> M B) :
  (forall resp, decodes_first resp (k resp)) ->
  stops_at_failure E (bind (requests_request E m url h p)
                        (fun response => bind (raise_for_status response)
                                           (fun _ => k response))).
Proof. intros Hk. unfold requests_request. apply (stops_send (fun _ => _)), Hk. Qed.

Ltac stops_after_one :=
  apply stops_silent_bind; [apply silent_get_self|intros ?]; cbv zeta;
  first [ apply stops_session | apply stops_requests ];
  intros ?; apply decodes_first_response_json.

Ltac stops_after_two first_lemma second_lemma :=
  apply stops_bind; [apply first_lemma|intros ?];
  repeat (lazymatch goal with
          | |- stops_at_failure _ (bind _ _) =>
              apply stops_silent_bind; [solve [silence]|intros ?]
          end);
  apply second_lemma.

Lemma stops_get_prompt_config a : stops_at_failure E (get_prompt_config E a).
Proof. unfold get_prompt_config. stops_after_one. Qed.

Lemma stops_get_app_parameters a : stops_at_failure E (get_app_parameters E a).
Proof. unfold get_app_parameters. stops_after_one. Qed.

Lemma stops_update_app_config a c : stops_at_failure E (update_app_config E a c).
Proof. unfold update_app_config. stops_after_one. Qed.

Lemma stops_update_app_parameters a p : stops_at_failure E (update_app_parameters E a p).
Proof. unfold update_app_parameters. stops_after_one. Qed.

Lemma stops_run o : stops_at_failure E (run E o).
Proof.
  destruct o; cbn [run].
  - apply stops_silent. apply (silent_run_set_api_key E).
  - unfold login.
    apply stops_silent_bind; [apply silent_get_self|intros ?]; cbv zeta.
    apply stops_session. intros resp. apply decodes_first_bind. intros j. silence.
  - unfold get_apps. stops_after_one.
  - unfold get_app_detail. stops_after_one.
  - unfold create_app. stops_after_one.
  - apply stops_update_app_config.
  - apply stops_get_app_parameters.
  - apply stops_update_app_parameters.
  - apply stops_get_prompt_config.
  - unfold update_prompt.
    stops_after_two stops_get_prompt_config stops_update_app_config.
  - unfold update_model_settings. apply stops_update_app_config.
  - unfold add_variable.
    stops_after_two stops_get_app_parameters stops_update_app_parameters.
  - unfold update_opening_statement.
    stops_after_two stops_get_app_parameters stops_update_app_parameters.
  - unfold get_workflow. stops_after_one.
  - unfold update_workflow. stops_after_one.
  - unfold publish_workflow. stops_after_one.
  - unfold add_tool_to_app.
    stops_after_two stops_get_prompt_config stops_update_app_config.
  - unfold link_knowledge_base. stops_after_one.
  - unfold delete_app. stops_after_one.
  - unfold rename_app. stops_after_one.
  - unfold get_datasets. stops_after_one.
  - unfold create_dataset. stops_after_one.
  - unfold upload_document.
    apply stops_silent_bind; [apply silent_get_self|intros c]; cbv zeta.
    destruct (open_rb E file_path).
    + apply stops_session. intros ?. apply decodes_first_response_json.
    + apply stops_silent. silence.
  - unfold chat_completion. stops_after_one.
  - unfold get_conversations. stops_after_one.
Qed.

End FailureStops.

(** ** The constructor *)

Lemma rstrip_slash_spec (u : string) :
  exists n, u = rstrip_slash u +:+ slashes n /\ ends_with_slash (rstrip_slash u) = false.
Proof.
  induction u as [|c u [n [Hu Hend]]]; [exists O; split; reflexivity|].
  cbn [rstrip_slash]. destruct (rstrip_slash u) as [|c' rest] eqn:Hstrip.
  - destruct (Ascii.eqb c "/") eqn:Hc.
    + apply Ascii.eqb_eq in Hc. subst c. exists (S n). split; [|reflexivity].
      cbn. now rewrite Hu at 1.
    + exists n. split; [now rewrite string_app_cons, <- Hu|]. cbn. exact Hc.
  - exists n. split; [now rewrite string_app_cons, <- Hu|]. exact Hend.
Qed.

(** X1.  The constructor accepts every string: the base URL it keeps is the
    argument without its trailing slashes (and only those are removed), the two
    API roots are built from it, no header is set and the key is stored. *)
Theorem init_strips_trailing_slashes (u : string) (key : option string) :
  exists c n,
    Client.init (JStr u) key = Return c /\
    u = base_url c +:+ slashes n /\
    ends_with_slash (base_url c) = false /\
    console_api c = base_url c +:+ "/console/api" /\
    public_api c = base_url c +:+ "/api" /\
    headers (session c) = ∅ /\
    api_key c = key.
Proof.
  destruct (rstrip_slash_spec u) as [n [Hu Hend]].
  eexists; exists n. split; [reflexivity|]. cbn. auto 10.
Qed.

(** ** What every operation does *)

Section EveryOperation.
Context (E : env).
Import Client.

Lemma exchange_result_not_local o e :
  exchange_result o = Raise e -> local_exn e = false.
Proof.
  unfold exchange_result. destruct o as [why|resp]; [now intros [= <-]|].
  destruct (is_2xx _); [|now intros [= <-]].
  destruct (json_body resp); [discriminate|now intros [= <-]].
Qed.

(** X2.  Whatever the operation, a request the remote cannot be reached
    for is the last one the operation sends, and the operation raises the
    connection error: nothing is retried and, in a read-modify-write
    operation, nothing is written after a read that did not get through. *)
Theorem unreachable_remote_ends_operation o s pre r post why :
  sent (snd (run E o s)) = sent s ++ pre ++ r :: post ->
  remote E (sent s ++ pre) r = Unreachable why ->
  fst (run E o s) = Raise (ConnectionError why) /\ post = [].
Proof.
  intros Hsent Hans.
  destruct (stops_run E o s) as [reqs [Hreqs Hstop]].
  rewrite Hreqs in Hsent. apply app_inv_head in Hsent. subst reqs.
  destruct (Hstop pre r post (ConnectionError why) eq_refl) as [-> Hres].
  - now rewrite Hans.
  - split; [exact Hres|reflexivity].
Qed.

(** X3.  Whatever the operation, a 2xx answer whose body is not JSON ends
    it: the operation raises the decoding error and sends nothing more, so a
    read-modify-write operation never writes after a read it could not
    decode. *)
Theorem undecodable_answer_ends_operation o s pre r post resp :
  sent (snd (run E o s)) = sent s ++ pre ++ r :: post ->
  remote E (sent s ++ pre) r = Answer resp ->
  is_2xx (status_code resp) = true ->
  json_body resp = None ->
  fst (run E o s) = Raise JSONDecodeError /\ post = [].
Proof.
  intros Hsent Hans Hok Hbody.
  destruct (stops_run E o s) as [reqs [Hreqs Hstop]].
  rewrite Hreqs in Hsent. apply app_inv_head in Hsent. subst reqs.
  destruct (Hstop pre r post JSONDecodeError eq_refl) as [-> Hres].
  - rewrite Hans. cbn. now rewrite Hok, Hbody.
  - split; [exact Hres|reflexivity].
Qed.

Lemma login_sent email password s :
  sent (snd (login E email password s)) = sent s ++ [login_req (self s) email password].
Proof.
  pose proof (login_outcome E email password s) as H. cbv zeta in H.
  destruct (exchange_result _) as [e|data]; [now rewrite H|].
  destruct H as [[e [_ ->]]|[->|[token ->]]]; reflexivity.
Qed.

Lemma run_set_api_key k s :
  run E (SetApiKey k) s =
    (Return JNull, {| self := with_api_key (self s) (Some k); sent := sent s |}).
Proof. reflexivity. Qed.


Lemma run_keeps_client o s :
  is_set_api_key o = false -> is_login o = false -> self (snd (run E o s)) = self s.
Proof.
  intros Hset Hlogin. destruct (read_modify_write o) eqn:Hrmw.
  - pose proof (run_rmw_outcome E o s Hrmw) as H. unfold rmw_outcome in H. cbv zeta in H.
    destruct H as [[e [_ ->]]|[[j [e [_ [_ ->]]]]|[j [doc [_ ->]]]]]; reflexivity.
  - destruct (file_needed o) as [f|] eqn:Hfile.
    + destruct (open_rb E f) as [content|] eqn:Hopen.
      * destruct (one_exchange_shape E o s Hset Hlogin Hrmw) as [r [-> _]]; [|reflexivity].
        intros f' Hf'. rewrite Hfile in Hf'. injection Hf' as <-. rewrite Hopen. eauto.
      * destruct o; try discriminate Hfile. injection Hfile as ->.
        cbn [run]. unfold upload_document, bind at 1, get_self. cbv beta iota zeta.
        rewrite Hopen. reflexivity.
    + destruct (one_exchange_shape E o s Hset Hlogin Hrmw) as [r [-> _]]; [|reflexivity].
      intros f' Hf'. rewrite Hfile in Hf'. discriminate Hf'.
Qed.

Lemma with_api_key_same c : with_api_key c (api_key c) = c.
Proof. now destruct c. Qed.

Lemma with_api_key_twice c k k' : with_api_key (with_api_key c k) k' = with_api_key c k'.
Proof. reflexivity. Qed.

(** X5.  [login] and [set_api_key] are the only methods that change the
    client object, and [set_api_key] changes the key only: after any sequence
    of calls without a [login], whatever each of them returned or raised, the
    client is the one it was with the key given to the last [set_api_key]; with
    no [set_api_key] either it is exactly what it was. *)
Theorem only_login_and_set_api_key_change_client ops s :
  Forall (fun o => is_login o = false) ops ->
  self (run_all E ops s) = with_api_key (self s) (key_after ops (api_key (self s))) /\
  (Forall (fun o => is_set_api_key o = false) ops -> self (run_all E ops s) = self s).
Proof.
  intros Hops. revert s. induction Hops as [|o ops Ho _ IH]; intros s.
  { cbn [run_all key_after]. split; [now rewrite with_api_key_same|reflexivity]. }
  cbn [run_all]. destruct (IH (snd (run E o s))) as [IH1 IH2].
  destruct (is_set_api_key o) eqn:Hset.
  - destruct o; try discriminate Hset. split.
    + rewrite IH1, run_set_api_key. cbn [snd self key_after api_key with_api_key].
      reflexivity.
    + intros Hall. apply Forall_cons_1 in Hall. destruct Hall as [Hall _].
      discriminate Hall.
  - pose proof (run_keeps_client o s Hset Ho) as Hkeep. split.
    + rewrite IH1, Hkeep. destruct o; try discriminate Hset; reflexivity.
    + intros Hall. apply Forall_cons_1 in Hall. destruct Hall as [_ Hall].
      now rewrite (IH2 Hall).
Qed.

Lemma login_client email password s :
  self (snd (login E email password s)) = self s \/
  exists token,
    fst (login E email password s) <> Raise JSONDecodeError /\
    self (snd (login E email password s)) =
      with_authorization (self s) ("Bearer " +:+ fmt E token).
Proof.
  pose proof (login_outcome E email password s) as H. cbv zeta in H.
  destruct (exchange_result _) as [e|data]; [left; now rewrite H|].
  destruct H as [[e [_ ->]]|[->|[token ->]]]; [now left|now left|].
  right. exists token. split; [discriminate|reflexivity].
Qed.

(** X6.  [login] changes nothing of the client but the [Authorization]
    header: the URLs, the key and every other header stay, and when [login]
    raises, whatever the reason, the client is exactly what it was. *)
Theorem login_changes_authorization_only email password s :
  let c := self s in
  let c' := self (snd (login E email password s)) in
  base_url c' = base_url c /\
  console_api c' = console_api c /\
  public_api c' = public_api c /\
  api_key c' = api_key c /\
  (forall k, k <> "Authorization" ->
     headers (session c') !! k = headers (session c) !! k) /\
  (forall e, fst (login E email password s) = Raise e -> c' = c).
Proof.
  cbv zeta. pose proof (login_outcome E email password s) as H. cbv zeta in H.
  destruct (exchange_result _) as [e|data].
  { rewrite H. cbn. auto 10. }
  destruct H as [[e [_ ->]]|[->|[token ->]]]; cbn [fst snd self].
  - auto 10.
  - auto 10.
  - cbn. repeat (split; [reflexivity|]). split; [|discriminate].
    intros k Hk. now apply lookup_insert_ne.
Qed.

Lemma run_keeps_roots o s :
  console_api (self (snd (run E o s))) = console_api (self s) /\
  public_api (self (snd (run E o s))) = public_api (self s).
Proof.
  destruct (is_set_api_key o) eqn:Hset.
  { destruct o; try discriminate Hset. split; reflexivity. }
  destruct (is_login o) eqn:Hlogin; [|now rewrite run_keeps_client].
  destruct o; try discriminate Hlogin. cbn [run].
  destruct (login_client email password s) as [->|[token [_ ->]]]; split; reflexivity.
Qed.

(** Where the requests of an operation go: under one of the two API roots
    of the client. *)
Lemma run_urls o s :
  exists reqs,
    sent (snd (run E o s)) = sent s ++ reqs /\
    Forall (fun r => String.prefix (console_api (self s)) (req_url r) = true \/
                     String.prefix (public_api (self s)) (req_url r) = true) reqs.
Proof.
  destruct (is_set_api_key o) eqn:Hset.
  { destruct o; try discriminate Hset. exists []. split; [now rewrite app_nil_r|constructor]. }
  destruct (is_login o) eqn:Hlogin.
  { destruct o; try discriminate Hlogin. cbn [run]. eexists. split; [apply login_sent|].
    each_request. left. apply prefix_append. }
  destruct (read_modify_write o) eqn:Hrmw.
  - pose proof (run_rmw_outcome E o s Hrmw) as H. unfold rmw_outcome in H. cbv zeta in H.
    assert (Hurl : String.prefix (console_api (self s)) (rmw_url o (self s)) = true).
    { destruct o; try discriminate Hrmw; apply prefix_append. }
    destruct H as [[e [_ ->]]|[[j [e [_ [_ ->]]]]|[j [doc [_ ->]]]]];
      eexists; (split; [reflexivity|]); each_request; left; exact Hurl.
  - destruct (file_needed o) as [f|] eqn:Hfile.
    + destruct (open_rb E f) as [content|] eqn:Hopen.
      * destruct (one_exchange_shape E o s Hset Hlogin Hrmw) as [r [-> Hr]].
        { intros f' Hf'. rewrite Hfile in Hf'. injection Hf' as <-. rewrite Hopen. eauto. }
        eexists. split; [reflexivity|]. each_request.
        destruct (uses_session o); [left; apply Hr|right; exact Hr].
      * destruct o; try discriminate Hfile. injection Hfile as ->.
        cbn [run]. unfold upload_document, bind at 1, get_self. cbv beta iota zeta.
        rewrite Hopen. exists []. split; [now rewrite app_nil_r|constructor].
    + destruct (one_exchange_shape E o s Hset Hlogin Hrmw) as [r [-> Hr]].
      { intros f' Hf'. rewrite Hfile in Hf'. discriminate Hf'. }
      eexists. split; [reflexivity|]. each_request.
      destruct (uses_session o); [left; apply Hr|right; exact Hr].
Qed.

(** X7.  A client built by the constructor from [u] only ever talks to URLs
    under [u] without its trailing slashes: every request of every sequence of
    operations, [login] included, has a URL that starts with it. *)
Theorem requests_stay_under_base_url (u : string) key c ops past :
  Client.init (JStr u) key = Return c ->
  exists reqs,
    sent (run_all E ops {| self := c; sent := past |}) = past ++ reqs /\
    Forall (fun r => String.prefix (rstrip_slash u) (req_url r) = true) reqs.
Proof.
  intros Hinit. cbn in Hinit. injection Hinit as <-.
  set (b := rstrip_slash u).
  enough (H : forall s,
             console_api (self s) = b +:+ "/console/api" ->
             public_api (self s) = b +:+ "/api" ->
             exists reqs, sent (run_all E ops s) = sent s ++ reqs /\
               Forall (fun r => String.prefix b (req_url r) = true) reqs).
  { apply (H {| self := _; sent := past |}); reflexivity. }
  induction ops as [|o ops IH]; intros s Hc Hp.
  - exists []. split; [now rewrite app_nil_r|constructor].
  - cbn [run_all].
    destruct (run_urls o s) as [reqs1 [Hsent1 Hall1]].
    destruct (run_keeps_roots o s) as [Hc' Hp'].
    destruct (IH (snd (run E o s))) as [reqs2 [Hsent2 Hall2]]; [congruence|congruence|].
    exists (reqs1 ++ reqs2). rewrite Hsent2, Hsent1, <- app_assoc. split; [reflexivity|].
    apply Forall_app. split; [|exact Hall2].
    eapply Forall_impl; [exact Hall1|]. intros r [Hr|Hr].
    + eapply prefix_trans; [|exact Hr]. rewrite Hc. apply prefix_append.
    + eapply prefix_trans; [|exact Hr]. rewrite Hp. apply prefix_append.
Qed.

(** X8.  The two public-API operations send exactly one request, under the
    public root, whose headers are the ones they build themselves: the caller's
    app key as bearer credential and, at most, a content type.  Nothing of the
    session's headers goes out with it, so a token stored by [login] is never
    sent to the public API. *)
Theorem public_operations_ignore_session o key s :
  app_key_of o = Some key ->
  exists r,
    sent (snd (run E o s)) = sent s ++ [r] /\
    String.prefix (public_api (self s)) (req_url r) = true /\
    req_headers r !! "Authorization" = Some ("Bearer " +:+ key) /\
    forall k, k <> "Authorization" -> k <> "Content-Type" -> req_headers r !! k = None.
Proof.
  intros Hkey. destruct o; try discriminate Hkey; injection Hkey as ->; cbn [run].
  - unfold chat_completion, bind at 1, get_self. cbv beta iota zeta.
    rewrite exchange_run_requests. eexists. split; [reflexivity|]. cbn [req_url req_headers].
    split; [apply prefix_append|]. split; [apply lookup_insert_eq|].
    intros k H1 H2. now rewrite !lookup_insert_ne, lookup_empty.
  - unfold get_conversations, bind at 1, get_self. cbv beta iota zeta.
    rewrite exchange_run_requests. eexists. split; [reflexivity|]. cbn [req_url req_headers].
    split; [apply prefix_append|]. split; [apply lookup_insert_eq|].
    intros k H1 H2. now rewrite lookup_insert_ne, lookup_empty.
Qed.

(** X11.  When a read-modify-write operation raises an exception of the
    interpreter ([TypeError], [KeyError], [AttributeError]: the fetched document
    does not have the expected shape), the read is the only request it has
    sent: nothing was written. *)
Theorem local_failure_writes_nothing o s e :
  read_modify_write o = true ->
  fst (run E o s) = Raise e ->
  local_exn e = true ->
  sent (snd (run E o s)) = sent s ++ [session_req (self s) GET (rmw_url o (self s)) NoPayload].
Proof.
  intros Hrmw Hres Hlocal.
  pose proof (run_rmw_outcome E o s Hrmw) as H. unfold rmw_outcome in H. cbv zeta in H.
  destruct H as [[e' [_ Hrun]]|[[j [e' [_ [_ Hrun]]]]|[j [doc [_ Hrun]]]]];
    rewrite Hrun in *; cbn [fst snd sent] in *; try reflexivity.
  apply exchange_result_not_local in Hres. congruence.
Qed.

(** X12.  A read-modify-write operation sends a GET and then at most one
    POST, to the same URL and with the same headers; the POST goes out only
    after the GET was answered 2xx with a JSON body, and then the operation ends
    as that second exchange ends. *)
Theorem read_then_at_most_one_write o s :
  read_modify_write o = true ->
  let read := session_req (self s) GET (rmw_url o (self s)) NoPayload in
  sent (snd (run E o s)) = sent s ++ [read] \/
  exists j doc,
    let write := session_req (self s) POST (rmw_url o (self s)) (JsonPayload doc) in
    exchange_result (remote E (sent s) read) = Return j /\
    sent (snd (run E o s)) = sent s ++ [read; write] /\
    fst (run E o s) = exchange_result (remote E (sent s ++ [read]) write).
Proof.
  intros Hrmw read.
  pose proof (run_rmw_outcome E o s Hrmw) as H. unfold rmw_outcome in H. cbv zeta in H.
  destruct H as [[e [_ ->]]|[[j [e [_ [_ ->]]]]|[j [doc [Hread ->]]]]];
    [now left|now left|].
  right. exists j, doc. cbv zeta. auto.
Qed.

End EveryOperation.

(** ** The documents written back *)

Section WrittenDocuments.
Context (E : env).
Import Client.

(** X9.  Once the parameters have been fetched as a JSON object,
    [update_opening_statement] writes them back with [opening_statement]
    replaced; [suggested_questions] is replaced only by a non-empty value, so
    that an empty list or [None] leaves the fetched questions in place; every
    other field is the fetched one. *)
Theorem update_opening_statement_frame app_id opening questions s resp params :
  let url := console_api (self s) +:+ "/apps/" +:+ app_id +:+ "/parameters" in
  let fetch := session_req (self s) GET url NoPayload in
  remote E (sent s) fetch = Answer resp ->
  is_2xx (status_code resp) = true ->
  json_body resp = Some (JObj params) ->
  exists written : gmap string json,
    sent (snd (update_opening_statement E app_id opening questions s)) =
      sent s ++ [fetch; session_req (self s) POST url (JsonPayload (JObj written))] /\
    written !! "opening_statement" = Some opening /\
    written !! "suggested_questions" =
      (if truthy questions then Some questions else params !! "suggested_questions") /\
    forall k, k <> "opening_statement" -> k <> "suggested_questions" ->
      written !! k = params !! k.
Proof.
  intros url fetch Hans Hok Hbody.
  unfold update_opening_statement, bind at 1.
  rewrite (get_app_parameters_ok E app_id s resp _ Hans Hok Hbody).
  unfold bind, lift, ret. cbv beta iota. cbn [setitem].
  destruct (truthy questions); cbn [setitem]; cbv beta iota;
    rewrite update_app_parameters_sent; cbn [self sent]; rewrite <- app_assoc;
    eexists; (split; [reflexivity|]).
  - split; [(rewrite lookup_insert_ne by discriminate); apply lookup_insert_eq|].
    split; [apply lookup_insert_eq|].
    intros k H1 H2. rewrite !lookup_insert_ne by congruence. reflexivity.
  - split; [apply lookup_insert_eq|].
    split; [(rewrite lookup_insert_ne by discriminate); reflexivity|].
    intros k H1 H2. rewrite lookup_insert_ne by congruence. reflexivity.
Qed.

(** X10.  Once the model configuration has been fetched as a JSON object,
    [add_tool_to_app] writes it back with the new tool appended at the end of
    [agent_mode.tools]; when [agent_mode] was absent it starts from
    [{"enabled": true, "tools": []}].  The other fields of [agent_mode] and of
    the configuration are the fetched ones. *)
Theorem add_tool_to_app_appends app_id tool_name tool_config s resp cfg agent old :
  let url := console_api (self s) +:+ "/apps/" +:+ app_id +:+ "/model-config" in
  let fetch := session_req (self s) GET url NoPayload in
  let tool := JObj (<["tool_name" := tool_name]> (<["tool_config" := tool_config]> ∅)) in
  remote E (sent s) fetch = Answer resp ->
  is_2xx (status_code resp) = true ->
  json_body resp = Some (JObj cfg) ->
  (cfg !! "agent_mode" = None /\
   agent = <["enabled" := JBool true]> (<["tools" := JList []]> ∅) /\ old = [] \/
   cfg !! "agent_mode" = Some (JObj agent) /\ agent !! "tools" = Some (JList old)) ->
  exists written agent' : gmap string json,
    sent (snd (add_tool_to_app E app_id tool_name tool_config s)) =
      sent s ++ [fetch; session_req (self s) POST url (JsonPayload (JObj written))] /\
    written !! "agent_mode" = Some (JObj agent') /\
    agent' !! "tools" = Some (JList (old ++ [tool])) /\
    (forall k, k <> "tools" -> agent' !! k = agent !! k) /\
    (forall k, k <> "agent_mode" -> written !! k = cfg !! k).
Proof.
  intros url fetch tool Hans Hok Hbody Hagent.
  unfold add_tool_to_app, bind at 1.
  rewrite (get_prompt_config_ok E app_id s resp _ Hans Hok Hbody).
  unfold bind, lift, ret. cbv beta iota. fold tool.
  destruct Hagent as [[Hnone [-> ->]]|[Hsome Htools]].
  - rewrite (contains_absent _ _ Hnone). cbv beta iota. cbn [setitem getitem].
    rewrite lookup_insert_eq. cbn [getitem].
    rewrite lookup_insert_ne by discriminate. rewrite lookup_insert_eq.
    cbn [append setitem]. cbv beta iota.
    rewrite update_app_config_sent. cbn [self sent]. rewrite <- app_assoc.
    do 2 eexists. split; [reflexivity|]. split; [apply lookup_insert_eq|].
    split; [apply lookup_insert_eq|].
    split; intros k Hk; (rewrite !lookup_insert_ne by congruence); reflexivity.
  - rewrite (contains_present _ _ _ Hsome). cbv beta iota.
    rewrite (getitem_present _ _ _ Hsome). cbv beta iota.
    rewrite (getitem_present _ _ _ Htools). cbn [append setitem]. cbv beta iota.
    rewrite update_app_config_sent. cbn [self sent]. rewrite <- app_assoc.
    do 2 eexists. split; [reflexivity|]. split; [apply lookup_insert_eq|].
    split; [apply lookup_insert_eq|].
    split; intros k Hk; (rewrite lookup_insert_ne by congruence); reflexivity.
Qed.

End WrittenDocuments.

(** ** The front end *)

Section FrontEnd.
Context (E : env).
Import Server.

Lemma delegate_kind ep o :
  delegate ep = Some o ->
  Client.uses_session o = true /\ Client.is_login o = false /\
  Client.is_set_api_key o = false /\ file_needed o = None.
Proof. destruct ep; try destruct data; cbn; intros [= <-]; auto. Qed.

Lemma delegate_readable ep :
  protected ep = true -> body_readable ep = true -> exists o, delegate ep = Some o.
Proof.
  intros Hprot Hread. destruct (delegate_protected ep Hprot) as [H|[data [Hb Hd]]];
    [exact H|].
  unfold body_readable in Hread. rewrite Hb in Hread. congruence.
Qed.

(** What a protected route does once a client is bound and the view gets
    as far as its client call. *)
Lemma protected_step ep c st :
  protected ep = true -> client st = Some c -> body_readable ep = true ->
  client (snd (handle E ep st)) = Some c /\
  exists reqs,
    wire (snd (handle E ep st)) = wire st ++ reqs /\
    (1 <= length reqs <= 2)%nat /\
    Forall (fun r => req_headers r = headers (session c)) reqs /\
    (status (fst (handle E ep st)) = Some (success_status ep) \/
     status (fst (handle E ep st)) = Some 500).
Proof.
  intros Hprot Hc Hread. destruct (delegate_readable ep Hprot Hread) as [o Ho].
  destruct (delegate_kind ep o Ho) as [Hsess [Hlogin [Hset Hfile]]].
  rewrite (handle_with_client E ep o c st Ho Hc).
  set (s := {| self := c; sent := wire st |}).
  destruct (keeps_session_run E o Hsess Hlogin s) as [Hself [reqs [Hsent Hall]]].
  assert (Hlen : (1 <= length reqs <= 2)%nat).
  { destruct (Client.read_modify_write o) eqn:Hrmw.
    - pose proof (run_rmw_outcome E o s Hrmw) as H. unfold rmw_outcome in H.
      cbv zeta in H.
      destruct H as [[e [_ Hrun]]|[[j [e [_ [_ Hrun]]]]|[j [doc [_ Hrun]]]]];
        rewrite Hrun in Hsent; cbn [snd sent] in Hsent;
        apply app_inv_head in Hsent; subst reqs; cbn; lia.
    - destruct (one_exchange_shape E o s Hset Hlogin Hrmw) as [r [Hrun _]].
      { intros f Hf. rewrite Hfile in Hf. discriminate Hf. }
      rewrite Hrun in Hsent. cbn [snd sent] in Hsent.
      apply app_inv_head in Hsent. subst reqs. cbn. lia. }
  destruct (Client.run E o s) as [[e|j] s'] eqn:Hrun; cbn [fst snd] in *;
    (split; [cbn; now rewrite Hself|]); exists reqs; cbn [wire status jsonify];
    repeat (split; [assumption|]); auto.
Qed.

(** The same without the count, for any body. *)
Lemma protected_step_any ep c st :
  protected ep = true -> client st = Some c ->
  client (snd (handle E ep st)) = Some c /\
  exists reqs,
    wire (snd (handle E ep st)) = wire st ++ reqs /\
    Forall (fun r => req_headers r = headers (session c)) reqs.
Proof.
  intros Hprot Hc. destruct (body_readable ep) eqn:Hread.
  - destruct (protected_step ep c st Hprot Hc Hread) as [H1 [reqs [H2 [_ [H3 _]]]]].
    split; [exact H1|]. exists reqs. split; assumption.
  - unfold body_readable in Hread.
    destruct (request_body ep) as [data|] eqn:Hb; [|discriminate Hread].
    rewrite (handle_bad_body E ep data c st Hprot Hb Hread Hc). cbn [snd].
    split; [exact Hc|]. exists []. split; [now rewrite app_nil_r|constructor].
Qed.

(** X13.  A protected route never changes which client is bound nor the
    client itself: the session, with the token it may hold, is after the call
    exactly what it was before, whatever the remote answered. *)
Theorem protected_routes_keep_session ep st :
  protected ep = true -> client (snd (handle E ep st)) = client st.
Proof.
  intros Hprot. destruct (client st) as [c|] eqn:Hc.
  - now destruct (protected_step_any ep c st Hprot Hc) as [-> _].
  - now rewrite (handle_no_client E ep st Hprot Hc).
Qed.

(** X16.  With a client bound, a protected route never answers 400 or 401.
    When the view reads no body, or the body is a JSON object, whatever the
    object holds or lacks, one or two requests go out to the remote, with the
    session's headers, and the reply has the route's success status or 500.
    When the body is not an object, nothing is sent and nothing changes, and
    the reply is 500 with the text of the [AttributeError] that [data.get]
    raised. *)
Theorem protected_routes_answer_success_or_500 ep c st :
  protected ep = true -> client st = Some c ->
  (body_readable ep = true ->
   exists reqs,
     wire (snd (handle E ep st)) = wire st ++ reqs /\
     (1 <= length reqs <= 2)%nat /\
     Forall (fun r => req_headers r = headers (session c)) reqs /\
     (status (fst (handle E ep st)) = Some (success_status ep) \/
      status (fst (handle E ep st)) = Some 500)) /\
  (forall data, request_body ep = Some data -> is_object data = false ->
     handle E ep st =
       (jsonify (error_object (exn_str E (AttributeError "get" data))) 500, st)).
Proof.
  intros Hprot Hc. split.
  - intros Hread. now destruct (protected_step ep c st Hprot Hc Hread) as [_ H].
  - intros data Hb Hd. now apply (handle_bad_body E ep data c st).
Qed.

(** X14.  /login owes nothing to the client that was bound before: the
    reply and the requests sent are the same whatever it was, and afterwards
    either the old binding is untouched and nothing was sent (the request was
    rejected before a client was built), or the new binding is the same
    whatever the old one was. *)
Theorem login_ignores_previous_client d w c1 c2 :
  let out1 := handle E (PostLogin d) {| client := c1; wire := w |} in
  let out2 := handle E (PostLogin d) {| client := c2; wire := w |} in
  fst out1 = fst out2 /\
  wire (snd out1) = wire (snd out2) /\
  (client (snd out1) = c1 /\ client (snd out2) = c2 /\ wire (snd out1) = w \/
   client (snd out1) = client (snd out2)).
Proof.
  cbv zeta. destruct (is_object d) eqn:Hobj.
  2:{ rewrite !(login_bad_body E d _ Hobj). cbn.
      split; [reflexivity|]. split; [reflexivity|]. left. auto. }
  destruct d as [| | | | | |d]; try discriminate Hobj.
  cbn [handle]. unfold login. cbn [data_get data_get_default].
  destruct (negb (truthy (dict_get "email" d)) || negb (truthy (dict_get "password" d))).
  { cbn. split; [reflexivity|]. split; [reflexivity|]. left. auto. }
  destruct (Client.init (dict_get_default "base_url" (JStr (default_base_url E)) d) None)
    as [e|c].
  { cbn. split; [reflexivity|]. split; [reflexivity|]. left. auto. }
  unfold call. cbn [client wire].
  destruct (Client.login E (dict_get "email" d) (dict_get "password" d)
              {| self := c; sent := w |}) as [[e|j] s']; cbn;
    (split; [reflexivity|]); (split; [reflexivity|]); right; reflexivity.
Qed.

(** X15.  A /login whose body gives [base_url] a value that is not a
    string, [null] included, is answered 401 with the constructor's error; the
    default URL is not used in its place, no request is sent and the client
    bound before stays bound. *)
Theorem login_rejects_non_string_base_url d v st :
  truthy (dict_get "email" d) = true ->
  truthy (dict_get "password" d) = true ->
  d !! "base_url" = Some v ->
  (forall u, v <> JStr u) ->
  handle E (PostLogin (JObj d)) st =
    (jsonify (error_object (exn_str E (AttributeError "rstrip" v))) 401, st).
Proof.
  intros Hemail Hpw Hurl Hv. rewrite (login_with_credentials E d st Hemail Hpw).
  unfold dict_get_default. rewrite Hurl.
  cbn [default]. destruct v; try reflexivity. now destruct (Hv s).
Qed.

(** X17.  A /login that passes the check on email and password sends
    exactly one request: a POST to the login path under the given base URL
    without its trailing slashes (the environment's [DIFY_API_URL], or the
    built-in address, when the body names none), carrying the two credentials
    as they came and no header: nothing of an earlier session goes out with a
    new login. *)
Theorem login_sends_one_unauthenticated_request d st :
  truthy (dict_get "email" d) = true ->
  truthy (dict_get "password" d) = true ->
  (forall v, d !! "base_url" = Some v -> exists u, v = JStr u) ->
  exists u r,
    dict_get_default "base_url" (JStr (default_base_url E)) d = JStr u /\
    wire (snd (handle E (PostLogin (JObj d)) st)) = wire st ++ [r] /\
    req_method r = POST /\
    req_url r = (rstrip_slash u +:+ "/console/api") +:+ "/login" /\
    req_headers r = ∅ /\
    req_body r = JsonPayload (JObj (<["email" := dict_get "email" d]>
                                     (<["password" := dict_get "password" d]> ∅))).
Proof.
  intros Hemail Hpw Hurl.
  assert (Hu : exists u, dict_get_default "base_url" (JStr (default_base_url E)) d = JStr u).
  { unfold dict_get_default. destruct (d !! "base_url") as [v|] eqn:Hv; cbn; eauto. }
  destruct Hu as [u Hu]. exists u. rewrite (login_with_credentials E d st Hemail Hpw), Hu.
  cbn [Client.init].
  set (c := {| base_url := rstrip_slash u |}).
  pose proof (login_sent E (dict_get "email" d) (dict_get "password" d)
                {| self := c; sent := wire st |}) as Hsent.
  destruct (Client.login E _ _ _) as [[e|j] s']; cbn [snd wire sent self] in *;
    eexists; (split; [reflexivity|]); (split; [exact Hsent|]); cbn; auto.
Qed.

Lemma serve_protected eps c st :
  Forall (fun ep => protected ep = true) eps -> client st = Some c ->
  client (serve E eps st) = Some c /\
  exists reqs,
    wire (serve E eps st) = wire st ++ reqs /\
    Forall (fun r => req_headers r = headers (session c)) reqs.
Proof.
  intros Heps. revert st. induction Heps as [|ep eps Hep _ IH]; intros st Hc.
  - split; [exact Hc|]. exists []. split; [now rewrite app_nil_r|constructor].
  - cbn [serve].
    destruct (protected_step_any ep c st Hep Hc) as [Hc' [reqs1 [Hw1 Hall1]]].
    destruct (IH _ Hc') as [Hc'' [reqs2 [Hw2 Hall2]]].
    split; [exact Hc''|]. exists (reqs1 ++ reqs2).
    rewrite Hw2, Hw1, <- app_assoc. split; [reflexivity|].
    apply Forall_app. split; assumption.
Qed.

(** X18.  From login to use: when /login passes its check and the remote
    answers the login request 2xx with a body holding [data.access_token], the
    reply is the success object, and every request that any sequence of
    protected routes sends afterwards carries exactly one header,
    [Authorization: Bearer <token>]. *)
Theorem logged_in_routes_send_token d st u c resp body inner token eps :
  truthy (dict_get "email" d) = true ->
  truthy (dict_get "password" d) = true ->
  dict_get_default "base_url" (JStr (default_base_url E)) d = JStr u ->
  Client.init (JStr u) None = Return c ->
  remote E (wire st)
    (Client.login_req c (dict_get "email" d) (dict_get "password" d)) = Answer resp ->
  is_2xx (status_code resp) = true ->
  json_body resp = Some (JObj body) ->
  body !! "data" = Some (JObj inner) ->
  inner !! "access_token" = Some token ->
  Forall (fun ep => protected ep = true) eps ->
  let st1 := snd (handle E (PostLogin (JObj d)) st) in
  fst (handle E (PostLogin (JObj d)) st) = jsonify login_success 200 /\
  exists reqs,
    wire (serve E eps st1) = wire st1 ++ reqs /\
    Forall (fun r => req_headers r =
                     <["Authorization" := "Bearer " +:+ Client.fmt E token]> ∅) reqs.
Proof.
  intros Hemail Hpw Hu Hinit Hans Hok Hbody Hdata Htok Heps.
  rewrite (login_with_credentials E d st Hemail Hpw), Hu, Hinit.
  rewrite (login_stores_token E _ _ {| self := c; sent := wire st |} resp body inner token
             Hans Hok Hbody Hdata Htok).
  cbn [fst snd self sent]. split; [reflexivity|].
  match goal with
  | |- context [serve E eps ?st1] =>
      destruct (serve_protected eps _ st1 Heps eq_refl) as [_ [reqs [Hw Hall]]]
  end.
  exists reqs. split; [exact Hw|].
  eapply Forall_impl; [exact Hall|]. intros r ->. cbn [session headers].
  cbn in Hinit. injection Hinit as <-. reflexivity.
Qed.

End FrontEnd.

(** ** The example scripts *)

Section Scripts.
Context (E : env).
Import Examples.

Lemma script_print P c text : script_sends P (fun _ : unit => True) (print text) c.
Proof.
  intros p Hc. cbn. split; [exact Hc|]. split; [trivial|].
  exists []. split; [now rewrite app_nil_r|constructor].
Qed.

Lemma script_ret {A} P (Q : A -> Prop) c a : Q a -> script_sends P Q (sret a) c.
Proof.
  intros Ha p Hc. cbn. split; [exact Hc|]. split; [now intros ? [= <-]|].
  exists []. split; [now rewrite app_nil_r|constructor].
Qed.

Lemma script_bind {A B} P (Q : B -> Prop) c (m : Script A) (k : A -> Script B) :
  script_sends P (fun _ => True) m c ->
  (forall a, script_sends P Q (k a) c) ->
  script_sends P Q (sbind m k) c.
Proof.
  intros Hm Hk p Hc. unfold sbind.
  destruct (Hm p Hc) as [Hc1 [_ [reqs1 [Hs1 Hall1]]]].
  destruct (m p) as [[e|a] p1]; cbn [fst snd] in *.
  - split; [exact Hc1|]. split; [discriminate|]. exists reqs1. split; assumption.
  - destruct (Hk a p1 Hc1) as [Hc2 [Hq [reqs2 [Hs2 Hall2]]]].
    split; [exact Hc2|]. split; [exact Hq|]. exists (reqs1 ++ reqs2).
    rewrite Hs2, Hs1, <- app_assoc. split; [reflexivity|].
    apply Forall_app. split; assumption.
Qed.

Lemma script_on_client a o c :
  configures a o ->
  script_sends (about_app c a) (fun _ => True) (on_client (Client.run E o)) c.
Proof.
  intros Ho p Hc. unfold on_client.
  assert (H : self (snd (Client.run E o (proc p))) = c /\
              exists reqs, sent (snd (Client.run E o (proc p))) = sent (proc p) ++ reqs /\
                Forall (about_app c a) reqs).
  { destruct o; cbn in Ho; try contradiction; subst app_id.
    - pose proof (run_rmw_outcome E (Client.UpdatePrompt a prompt mode) (proc p) eq_refl)
        as H.
      unfold rmw_outcome in H. cbn [rmw_url] in H. cbv zeta in H. rewrite Hc in H.
      destruct H as [[e [_ ->]]|[[j [e [_ [_ ->]]]]|[j [doc [_ ->]]]]];
        (split; [reflexivity|]); eexists; (split; [reflexivity|]); each_request;
        unfold about_app; cbn [req_url Client.session_req];
        now rewrite !prefix_append_same.
    - cbn [Client.run]. unfold Client.update_model_settings.
      rewrite update_app_config_run. cbv zeta. rewrite Hc.
      split; [reflexivity|]. eexists. split; [reflexivity|]. each_request.
      unfold about_app. cbn [req_url Client.session_req].
      now rewrite !prefix_append_same.
    - pose proof (run_rmw_outcome E
                    (Client.AddVariable a variable_name variable_type label required
                       max_length) (proc p) eq_refl) as H.
      unfold rmw_outcome in H. cbn [rmw_url] in H. cbv zeta in H. rewrite Hc in H.
      destruct H as [[e [_ ->]]|[[j [e [_ [_ ->]]]]|[j [doc [_ ->]]]]];
        (split; [reflexivity|]); eexists; (split; [reflexivity|]); each_request;
        unfold about_app; cbn [req_url Client.session_req];
        now rewrite !prefix_append_same.
    - pose proof (run_rmw_outcome E
                    (Client.UpdateOpeningStatement a opening_statement
                       suggested_questions) (proc p) eq_refl) as H.
      unfold rmw_outcome in H. cbn [rmw_url] in H. cbv zeta in H. rewrite Hc in H.
      destruct H as [[e [_ ->]]|[[j [e [_ [_ ->]]]]|[j [doc [_ ->]]]]];
        (split; [reflexivity|]); eexists; (split; [reflexivity|]); each_request;
        unfold about_app; cbn [req_url Client.session_req];
        now rewrite !prefix_append_same. }
  destruct H as [Hself [reqs [Hsent Hall]]].
  destruct (Client.run E o (proc p)) as [r s]; cbn [fst snd proc] in *.
  split; [exact Hself|]. split; [trivial|]. exists reqs. split; assumption.
Qed.

Lemma sbind_print {B} text (k : unit -> Script B) p :
  sbind (print text) k p = k tt {| proc := proc p; stdout := stdout p ++ [text] |}.
Proof. reflexivity. Qed.

(** What [add_variable] does once the parameters have been fetched. *)
Lemma add_variable_after_fetch a n t l r ml s resp params old :
  let url := console_api (self s) +:+ "/apps/" +:+ a +:+ "/parameters" in
  let fetch := Client.session_req (self s) GET url NoPayload in
  remote E (sent s) fetch = Answer resp ->
  is_2xx (status_code resp) = true ->
  json_body resp = Some (JObj params) ->
  (params !! "user_input_form" = None /\ old = [] \/
   params !! "user_input_form" = Some (JList old)) ->
  Client.add_variable E a n t l r ml s =
    Client.update_app_parameters E a
      (JObj (<["user_input_form" := JList (old ++ [Client.new_variable n t l r ml])]> params))
      {| self := self s; sent := sent s ++ [fetch] |}.
Proof.
  intros url fetch Hans Hok Hbody Hform.
  unfold Client.add_variable, bind at 1.
  rewrite (get_app_parameters_ok E a s resp _ Hans Hok Hbody). cbv zeta.
  unfold bind, lift, ret. cbv beta iota.
  destruct Hform as [[Hnone ->]|Hsome].
  - rewrite (contains_absent _ _ Hnone). cbv beta iota. cbn [setitem getitem].
    rewrite lookup_insert_eq. cbn [append setitem]. rewrite insert_insert_eq.
    reflexivity.
  - rewrite (contains_present _ _ _ Hsome). cbv beta iota.
    rewrite (getitem_present _ _ _ Hsome). cbn [append setitem]. reflexivity.
Qed.

Lemma create_app_run name mode icon description s :
  let r := Client.session_req (self s) POST (console_api (self s) +:+ "/apps")
             (JsonPayload (JObj (<["name" := name]> (<["mode" := mode]>
                (<["icon" := icon]> (<["description" := description]> ∅)))))) in
  Client.create_app E name mode icon description s =
    (exchange_result (remote E (sent s) r), {| self := self s; sent := sent s ++ [r] |}).
Proof.
  unfold Client.create_app, bind at 1, get_self. cbv beta iota zeta.
  apply exchange_run.
Qed.

(** X19.  [setup_client] never fails before it has talked to the remote: the
    constructor accepts the configured URL, and exactly one request goes
    out, the login, without any header, carrying [DIFY_EMAIL] and
    [DIFY_PASSWORD] as the environment has them ([null] when unset: nothing
    is checked locally).  A client is returned only when that exchange
    succeeded, and it is the constructed one, with at most an
    [Authorization] header added. *)
Theorem setup_client_sends_unchecked_login past :
  exists c,
    Client.init (JStr (default "https://api-production-50f6.up.railway.app"
                         (getenv E "DIFY_API_URL"))) None = Return c /\
    let r := Client.login_req c (os_getenv E "DIFY_EMAIL") (os_getenv E "DIFY_PASSWORD") in
    snd (setup_client E past) = past ++ [r] /\
    req_headers r = ∅ /\
    forall c', fst (setup_client E past) = Return c' ->
      (exists data, exchange_result (remote E past r) = Return data) /\
      (c' = c \/ exists v, c' = with_authorization c v).
Proof.
  unfold setup_client. cbn [Client.init].
  eexists. split; [reflexivity|]. cbv zeta.
  set (c := {| base_url := _ |}).
  pose proof (login_outcome E (os_getenv E "DIFY_EMAIL") (os_getenv E "DIFY_PASSWORD")
                {| self := c; sent := past |}) as H.
  cbv zeta in H. cbn [self sent] in H.
  split; [|split; [reflexivity|]].
  - destruct (exchange_result _) as [e|data]; [now rewrite H|].
    destruct H as [[e [_ ->]]|[->|[token ->]]]; reflexivity.
  - intros c'. destruct (exchange_result _) as [e|data].
    + rewrite H. discriminate.
    + destruct H as [[e [_ ->]]|[->|[token ->]]]; cbn [fst self].
      * discriminate.
      * intros [= <-]. split; [eauto|]. now left.
      * intros [= <-]. split; [eauto|]. right. eauto.
Qed.

(** The two calls of [add_variables_example], in terms of [new_variable]. *)
Lemma add_variables_example_run app_id p resp1 params old ack resp2 :
  let c := self (proc p) in
  let url := console_api c +:+ "/apps/" +:+ app_id +:+ "/parameters" in
  let fetch := Client.session_req c GET url NoPayload in
  let write := fun doc => Client.session_req c POST url (JsonPayload (JObj doc)) in
  let v1 := Client.new_variable (JStr "user_name") (JStr "text-input") (JStr "Your Name")
              (JBool true) (JInt 50) in
  let v2 := Client.new_variable (JStr "question_details") (JStr "paragraph")
              (JStr "Describe your question in detail") (JBool false) (JInt 500) in
  let doc1 := <["user_input_form" := JList (old ++ [v1])]> params in
  remote E (sent (proc p)) fetch = Answer resp1 ->
  is_2xx (status_code resp1) = true ->
  json_body resp1 = Some (JObj params) ->
  (params !! "user_input_form" = None /\ old = [] \/
   params !! "user_input_form" = Some (JList old)) ->
  exchange_result (remote E (sent (proc p) ++ [fetch]) (write doc1)) = Return ack ->
  remote E (sent (proc p) ++ [fetch; write doc1]) fetch = Answer resp2 ->
  is_2xx (status_code resp2) = true ->
  json_body resp2 = Some (JObj doc1) ->
  exists doc2 : gmap string json,
    sent (proc (snd (add_variables_example E app_id p))) =
      sent (proc p) ++ [fetch; write doc1; fetch; write doc2] /\
    doc2 !! "user_input_form" = Some (JList (old ++ [v1; v2])) /\
    forall k, k <> "user_input_form" -> doc2 !! k = params !! k.
Proof.
  intros c url fetch write v1 v2 doc1 Hans1 Hok1 Hbody1 Hform Hack Hans2 Hok2 Hbody2.
  exists (<["user_input_form" := JList ((old ++ [v1]) ++ [v2])]> doc1).
  split; [|split].
  - unfold add_variables_example. rewrite sbind_print.
    unfold sbind at 1, on_client at 1. cbn [proc].
    rewrite (add_variable_after_fetch _ _ _ _ _ _ _ resp1 params old Hans1 Hok1 Hbody1 Hform).
    rewrite update_app_parameters_run. cbv zeta. cbn [self sent].
    fold c. fold url. fold fetch. fold v1. fold doc1. fold (write doc1).
    rewrite Hack.
    unfold sbind at 1, on_client at 1. cbn [proc].
    assert (Hans2' : remote E (sent {| self := c;
                        sent := (sent (proc p) ++ [fetch]) ++ [write doc1] |})
                       (Client.session_req (self {| self := c;
                        sent := (sent (proc p) ++ [fetch]) ++ [write doc1] |})
                          GET (console_api (self {| self := c;
                        sent := (sent (proc p) ++ [fetch]) ++ [write doc1] |})
                               +:+ "/apps/" +:+ app_id +:+ "/parameters") NoPayload)
                     = Answer resp2).
    { cbn [self sent]. rewrite <- app_assoc. exact Hans2. }
    rewrite (add_variable_after_fetch _ _ _ _ _ _ _ resp2 doc1 (old ++ [v1])
               Hans2' Hok2 Hbody2 (or_intror (lookup_insert_eq _ _ _))).
    rewrite update_app_parameters_run. cbv zeta. cbn [self sent].
    fold url. fold fetch. fold v2.
    fold (write (<["user_input_form" := JList ((old ++ [v1]) ++ [v2])]> doc1)).
    clear Hack.
    destruct (exchange_result _) as [e|j]; unfold print; cbn [snd proc sent];
      now rewrite <- !app_assoc.
  - rewrite lookup_insert_eq, <- app_assoc. reflexivity.
  - intros k Hk. unfold doc1. now rewrite !lookup_insert_ne by congruence.
Qed.

(** X20.  The two calls of [add_variables_example] build on each other
    through the remote: when the parameters are fetched as a JSON object,
    the first write is accepted and the second fetch gives back the written
    document, the script sends read, write, read, write, and the last
    document written holds the fetched form followed by the entry for
    [user_name] (a required text input labelled "Your Name", at most 50 long)
    and then the one for [question_details] (an optional paragraph, at most
    500 long), every other field being the fetched one. *)
Theorem add_variables_example_accumulates app_id p resp1 params old ack resp2 :
  let c := self (proc p) in
  let url := console_api c +:+ "/apps/" +:+ app_id +:+ "/parameters" in
  let fetch := Client.session_req c GET url NoPayload in
  let write := fun doc => Client.session_req c POST url (JsonPayload (JObj doc)) in
  let v1 := JObj (<["variable" := JStr "user_name"]>
                 (<["type" := JStr "text-input"]>
                 (<["label" := JStr "Your Name"]>
                 (<["required" := JBool true]>
                 (<["max_length" := JInt 50]> ∅))))) in
  let v2 := JObj (<["variable" := JStr "question_details"]>
                 (<["type" := JStr "paragraph"]>
                 (<["label" := JStr "Describe your question in detail"]>
                 (<["required" := JBool false]>
                 (<["max_length" := JInt 500]> ∅))))) in
  let doc1 := <["user_input_form" := JList (old ++ [v1])]> params in
  remote E (sent (proc p)) fetch = Answer resp1 ->
  is_2xx (status_code resp1) = true ->
  json_body resp1 = Some (JObj params) ->
  (params !! "user_input_form" = None /\ old = [] \/
   params !! "user_input_form" = Some (JList old)) ->
  exchange_result (remote E (sent (proc p) ++ [fetch]) (write doc1)) = Return ack ->
  remote E (sent (proc p) ++ [fetch; write doc1]) fetch = Answer resp2 ->
  is_2xx (status_code resp2) = true ->
  json_body resp2 = Some (JObj doc1) ->
  exists doc2 : gmap string json,
    sent (proc (snd (add_variables_example E app_id p))) =
      sent (proc p) ++ [fetch; write doc1; fetch; write doc2] /\
    doc2 !! "user_input_form" = Some (JList (old ++ [v1; v2])) /\
    forall k, k <> "user_input_form" -> doc2 !! k = params !! k.
Proof. exact (add_variables_example_run app_id p resp1 params old ack resp2). Qed.

(** The request [create_and_configure_app_example] creates its app with. *)
Lemma sbind_create {B} (k : json -> Script B) p :
  let c := self (proc p) in
  let create := Client.session_req c POST (console_api c +:+ "/apps")
      (JsonPayload (JObj (<["name" := JStr "Product Recommendation Assistant"]>
         (<["mode" := JStr "chat"]> (<["icon" := JStr "🛍️"]>
         (<["description" := JStr "Helps users find the perfect product"]> ∅)))))) in
  let p1 := {| proc := {| self := c; sent := sent (proc p) ++ [create] |};
               stdout := stdout p |} in
  sbind (on_client (Client.create_app E (JStr "Product Recommendation Assistant")
                      (JStr "chat") (JStr "🛍️")
                      (JStr "Helps users find the perfect product"))) k p =
    match exchange_result (remote E (sent (proc p)) create) with
    | Return app => k app p1
    | Raise e => (Raise e, p1)
    end.
Proof.
  cbv zeta. unfold sbind, on_client. rewrite create_app_run. cbv zeta.
  destruct (exchange_result _); reflexivity.
Qed.

(** X21.  When the app cannot be created, or the answer to the creation is
    not an object with an [id], [create_and_configure_app_example] raises
    that very failure after the creation request: no configuration request
    follows, and only the four opening lines have been printed. *)
Theorem creation_failure_stops_script p e :
  let c := self (proc p) in
  let create := Client.session_req c POST (console_api c +:+ "/apps")
      (JsonPayload (JObj (<["name" := JStr "Product Recommendation Assistant"]>
         (<["mode" := JStr "chat"]> (<["icon" := JStr "🛍️"]>
         (<["description" := JStr "Helps users find the perfect product"]> ∅)))))) in
  (exchange_result (remote E (sent (proc p)) create) = Raise e \/
   exists app, exchange_result (remote E (sent (proc p)) create) = Return app /\
               getitem app "id" = Raise e) ->
  create_and_configure_app_example E p =
    (Raise e,
     {| proc := {| self := c; sent := sent (proc p) ++ [create] |};
        stdout := stdout p ++ [nl +:+ times "=" 60;
                               "Creating and configuring a complete app...";
                               times "=" 60 +:+ nl;
                               "1. Creating app..."] |}).
Proof.
  intros c create H. unfold create_and_configure_app_example.
  rewrite !sbind_print. rewrite sbind_create. cbv zeta. cbn [proc stdout].
  fold c. fold create. rewrite <- !app_assoc. cbn [app].
  destruct H as [->|[app [-> Hid]]]; [reflexivity|].
  unfold sbind at 1, slift. rewrite Hid. reflexivity.
Qed.

(** X22.  Once the app has been created and its answer has an [id],
    everything [create_and_configure_app_example] goes on to send is about
    that app: each later request goes to a URL under
    [<console>/apps/<id>/], the client is left as it was, and the value
    returned, when the script runs to its end, is the [id] read from the
    answer. *)
Theorem configuration_targets_created_app p app app_id :
  let c := self (proc p) in
  let create := Client.session_req c POST (console_api c +:+ "/apps")
      (JsonPayload (JObj (<["name" := JStr "Product Recommendation Assistant"]>
         (<["mode" := JStr "chat"]> (<["icon" := JStr "🛍️"]>
         (<["description" := JStr "Helps users find the perfect product"]> ∅)))))) in
  exchange_result (remote E (sent (proc p)) create) = Return app ->
  getitem app "id" = Return app_id ->
  let out := create_and_configure_app_example E p in
  (forall v, fst out = Return v -> v = app_id) /\
  self (proc (snd out)) = c /\
  exists reqs,
    sent (proc (snd out)) = sent (proc p) ++ create :: reqs /\
    Forall (about_app c (Client.fmt E app_id)) reqs.
Proof.
  intros c create Happ Hid out. unfold out, create_and_configure_app_example.
  rewrite !sbind_print. rewrite sbind_create. cbv zeta. cbn [proc stdout].
  fold c. fold create. rewrite Happ.
  unfold sbind at 1, slift. rewrite Hid.
  match goal with
  | |- context [fst (?m ?q)] =>
      assert (H : script_sends (about_app c (Client.fmt E app_id))
                    (fun v => v = app_id) m c)
  end.
  { repeat lazymatch goal with
      | |- script_sends _ _ (sret _) _ => apply script_ret; reflexivity
      | |- script_sends _ _ (sbind _ _) _ =>
        apply script_bind;
        [ first [ apply script_print
                | apply (script_on_client _ (Client.UpdatePrompt _ _ _)); reflexivity
                | apply (script_on_client _ (Client.UpdateModelSettings _ _ _ _ _));
                  reflexivity
                | apply (script_on_client _ (Client.AddVariable _ _ _ _ _ _));
                  reflexivity
                | apply (script_on_client _ (Client.UpdateOpeningStatement _ _ _));
                  reflexivity ]
        | intros _ ]
      end. }
  match goal with
  | |- context [fst (?m ?q)] => destruct (H q eq_refl) as [Hself [Hret [reqs [Hsent Hall]]]]
  end.
  split; [exact Hret|]. split; [exact Hself|].
  exists reqs. split; [|exact Hall].
  etransitivity; [exact Hsent|]. cbn [proc sent]. now rewrite <- app_assoc.
Qed.

End Scripts.

(** ** The further properties on concrete runs *)

Section FurtherRuns.
Import Examples.

(** X2 on a run: the read of [update_prompt] does not get through. *)
Lemma unreachable_remote_ends_operation_witness :
  let E := scenario [] in
  let o := Client.UpdatePrompt "app" (JStr "new") (JStr "chat") in
  let s := idle fresh_client in
  let r := Client.session_req fresh_client GET
             "http://dify/console/api/apps/app/model-config" NoPayload in
  sent (snd (Client.run E o s)) = sent s ++ [] ++ r :: [] /\
  remote E (sent s ++ []) r = Unreachable "no more answers" /\
  fst (Client.run E o s) = Raise (ConnectionError "no more answers") /\
  @nil request = [].
Proof.
  cbv zeta. split; [vm_compute; reflexivity|]. split; [vm_compute; reflexivity|].
  apply (unreachable_remote_ends_operation (scenario [])
           (Client.UpdatePrompt "app" (JStr "new") (JStr "chat")) (idle fresh_client) []
           (Client.session_req fresh_client GET
              "http://dify/console/api/apps/app/model-config" NoPayload) []
           "no more answers"); vm_compute; reflexivity.
Defined.

(** X3 on a run: the read of [update_prompt] is answered 200 without a
    JSON body. *)
Lemma undecodable_answer_ends_operation_witness :
  let resp := {| status_code := 200; json_body := None |} in
  let E := scenario [Answer resp] in
  let o := Client.UpdatePrompt "app" (JStr "new") (JStr "chat") in
  let s := idle fresh_client in
  let r := Client.session_req fresh_client GET
             "http://dify/console/api/apps/app/model-config" NoPayload in
  sent (snd (Client.run E o s)) = sent s ++ [] ++ r :: [] /\
  remote E (sent s ++ []) r = Answer resp /\
  fst (Client.run E o s) = Raise JSONDecodeError /\
  @nil request = [].
Proof.
  cbv zeta. split; [vm_compute; reflexivity|]. split; [vm_compute; reflexivity|].
  apply (undecodable_answer_ends_operation
           (scenario [Answer {| status_code := 200; json_body := None |}])
           (Client.UpdatePrompt "app" (JStr "new") (JStr "chat")) (idle fresh_client) []
           (Client.session_req fresh_client GET
              "http://dify/console/api/apps/app/model-config" NoPayload) []
           {| status_code := 200; json_body := None |}); vm_compute; reflexivity.
Defined.


(** X5 on a run: four operations, the third of which fails; the key is
    set twice. *)
Lemma only_login_and_set_api_key_change_client_witness :
  let E := scenario [answer 200 (JList []); answer 404 (JObj ∅)] in
  let ops := [Client.SetApiKey "first"; Client.GetApps;
              Client.UpdatePrompt "app" (JStr "new") (JStr "chat");
              Client.SetApiKey "second"] in
  Forall (fun o => Client.is_login o = false) ops /\
  self (Client.run_all E ops (idle fresh_client)) = with_api_key fresh_client (Some "second").
Proof.
  cbv zeta.
  assert (H : Forall (fun o => Client.is_login o = false)
                [Client.SetApiKey "first"; Client.GetApps;
                 Client.UpdatePrompt "app" (JStr "new") (JStr "chat");
                 Client.SetApiKey "second"]).
  { each_request; reflexivity. }
  split; [exact H|].
  exact (proj1 (only_login_and_set_api_key_change_client
                  (scenario [answer 200 (JList []); answer 404 (JObj ∅)]) _
                  (idle fresh_client) H)).
Defined.

(** X7 on a run: a base URL given with two trailing slashes. *)
Lemma requests_stay_under_base_url_witness :
  let E := scenario [answer 200 (token_body "T"); answer 200 (JList [])] in
  let ops := [Client.Login demo_email demo_password; Client.GetApps] in
  Client.init (JStr "http://dify//") None = Return fresh_client /\
  exists reqs,
    sent (Client.run_all E ops {| self := fresh_client; sent := [] |}) = [] ++ reqs /\
    Forall (fun r => String.prefix (rstrip_slash "http://dify//") (req_url r) = true) reqs.
Proof.
  cbv zeta. split; [vm_compute; reflexivity|].
  apply (requests_stay_under_base_url
           (scenario [answer 200 (token_body "T"); answer 200 (JList [])])
           "http://dify//" None fresh_client
           [Client.Login demo_email demo_password; Client.GetApps] []).
  vm_compute. reflexivity.
Defined.

(** X8 on a run: a chat message sent by a client that holds a token. *)
Lemma public_operations_ignore_session_witness :
  let E := scenario [answer 200 (JObj ∅)] in
  let o := Client.ChatCompletion "app-key" (JStr "Hello") (JStr "user-1") JNull in
  let s := idle (with_authorization fresh_client "Bearer T") in
  app_key_of o = Some "app-key" /\
  exists r,
    sent (snd (Client.run E o s)) = sent s ++ [r] /\
    String.prefix (public_api (self s)) (req_url r) = true /\
    req_headers r !! "Authorization" = Some ("Bearer " +:+ "app-key") /\
    forall k, k <> "Authorization" -> k <> "Content-Type" -> req_headers r !! k = None.
Proof.
  cbv zeta. split; [reflexivity|].
  apply (public_operations_ignore_session (scenario [answer 200 (JObj ∅)])
           (Client.ChatCompletion "app-key" (JStr "Hello") (JStr "user-1") JNull)
           "app-key" (idle (with_authorization fresh_client "Bearer T"))).
  reflexivity.
Defined.

(** X11 on a run: the parameters come back as a list. *)
Lemma local_failure_writes_nothing_witness :
  let E := scenario [answer 200 (JList [])] in
  let o := Client.AddVariable "app" (JStr "city") (JStr "text-input") (JStr "")
             (JBool false) (JInt 48) in
  let s := idle fresh_client in
  let e := TypeError "setitem" (JList []) in
  Client.read_modify_write o = true /\
  fst (Client.run E o s) = Raise e /\
  local_exn e = true /\
  sent (snd (Client.run E o s)) =
    sent s ++ [Client.session_req (self s) GET (rmw_url o (self s)) NoPayload].
Proof.
  cbv zeta. split; [reflexivity|]. split; [vm_compute; reflexivity|].
  split; [reflexivity|].
  apply (local_failure_writes_nothing (scenario [answer 200 (JList [])])
           (Client.AddVariable "app" (JStr "city") (JStr "text-input") (JStr "")
              (JBool false) (JInt 48))
           (idle fresh_client) (TypeError "setitem" (JList []))).
  - reflexivity.
  - vm_compute. reflexivity.
  - reflexivity.
Defined.

(** X12 on a run: [update_opening_statement] whose write is refused. *)
Lemma read_then_at_most_one_write_witness :
  let E := scenario [answer 200 (JObj some_parameters); answer 403 (JObj ∅)] in
  let o := Client.UpdateOpeningStatement "app" (JStr "Hi") (JList []) in
  let s := idle fresh_client in
  let read := Client.session_req (self s) GET (rmw_url o (self s)) NoPayload in
  Client.read_modify_write o = true /\
  (sent (snd (Client.run E o s)) = sent s ++ [read] \/
   exists j doc,
     let write := Client.session_req (self s) POST (rmw_url o (self s)) (JsonPayload doc) in
     exchange_result (remote E (sent s) read) = Return j /\
     sent (snd (Client.run E o s)) = sent s ++ [read; write] /\
     fst (Client.run E o s) = exchange_result (remote E (sent s ++ [read]) write)).
Proof.
  cbv zeta. split; [reflexivity|].
  apply (read_then_at_most_one_write
           (scenario [answer 200 (JObj some_parameters); answer 403 (JObj ∅)])
           (Client.UpdateOpeningStatement "app" (JStr "Hi") (JList []))
           (idle fresh_client)).
  reflexivity.
Defined.

(** X9 on a run: an opening statement set with no suggested questions. *)
Lemma update_opening_statement_frame_witness :
  let E := scenario [answer 200 (JObj some_parameters); answer 200 (JObj ∅)] in
  let s := idle fresh_client in
  let url := "http://dify/console/api/apps/app/parameters" in
  exists written : gmap string json,
    sent (snd (Client.update_opening_statement E "app" (JStr "Hi") (JList []) s)) =
      [Client.session_req fresh_client GET url NoPayload;
       Client.session_req fresh_client POST url (JsonPayload (JObj written))] /\
    written !! "opening_statement" = Some (JStr "Hi") /\
    written !! "suggested_questions" = None /\
    written !! "user_input_form" = Some (JList [JStr "first"]).
Proof.
  cbv zeta.
  destruct (update_opening_statement_frame
              (scenario [answer 200 (JObj some_parameters); answer 200 (JObj ∅)])
              "app" (JStr "Hi") (JList []) (idle fresh_client)
              {| status_code := 200; json_body := Some (JObj some_parameters) |}
              some_parameters eq_refl eq_refl eq_refl)
    as [written [Hsent [Hopening [Hquestions Hframe]]]].
  exists written. split; [exact Hsent|]. split; [exact Hopening|].
  split; [exact Hquestions|].
  rewrite Hframe by discriminate. vm_compute. reflexivity.
Defined.

(** X10 on a run: a first tool added to a configuration without
    [agent_mode]. *)
Lemma add_tool_to_app_appends_witness :
  let E := scenario [answer 200 (JObj some_config); answer 200 (JObj ∅)] in
  let s := idle fresh_client in
  let url := "http://dify/console/api/apps/app/model-config" in
  let tool := JObj (<["tool_name" := JStr "search"]> (<["tool_config" := JObj ∅]> ∅)) in
  some_config !! "agent_mode" = None /\
  exists written agent' : gmap string json,
    sent (snd (Client.add_tool_to_app E "app" (JStr "search") (JObj ∅) s)) =
      [Client.session_req fresh_client GET url NoPayload;
       Client.session_req fresh_client POST url (JsonPayload (JObj written))] /\
    written !! "agent_mode" = Some (JObj agent') /\
    agent' !! "tools" = Some (JList [tool]) /\
    agent' !! "enabled" = Some (JBool true) /\
    written !! "model" = Some (JStr "gpt-4").
Proof.
  cbv zeta. split; [vm_compute; reflexivity|].
  destruct (add_tool_to_app_appends
              (scenario [answer 200 (JObj some_config); answer 200 (JObj ∅)])
              "app" (JStr "search") (JObj ∅) (idle fresh_client)
              {| status_code := 200; json_body := Some (JObj some_config) |}
              some_config (<["enabled" := JBool true]> (<["tools" := JList []]> ∅)) []
              eq_refl eq_refl eq_refl (or_introl (conj eq_refl (conj eq_refl eq_refl))))
    as [written [agent' [Hsent [Hagent [Htools [Hkeep Hframe]]]]]].
  exists written, agent'. split; [exact Hsent|]. split; [exact Hagent|].
  split; [exact Htools|]. split.
  - rewrite Hkeep by discriminate. vm_compute. reflexivity.
  - rewrite Hframe by discriminate. vm_compute. reflexivity.
Defined.

(** X13 on a run: an app deleted through the front end. *)
Lemma protected_routes_keep_session_witness :
  let E := scenario [answer 200 (JObj ∅)] in
  let st := {| Server.client := Some fresh_client; Server.wire := [] |} in
  Server.protected (Server.DeleteApp "app") = true /\
  Server.client (snd (Server.handle E (Server.DeleteApp "app") st)) = Some fresh_client.
Proof.
  cbv zeta. split; [reflexivity|].
  apply (protected_routes_keep_session (scenario [answer 200 (JObj ∅)])
           (Server.DeleteApp "app")
           {| Server.client := Some fresh_client; Server.wire := [] |}).
  reflexivity.
Defined.

(** X16 on two runs: a prompt update whose body is the empty object, and
    one whose body is a list. *)
Lemma protected_routes_answer_success_or_500_witness :
  let E := scenario [answer 200 (JObj some_config); answer 200 (JObj ∅)] in
  let st := {| Server.client := Some fresh_client; Server.wire := [] |} in
  Server.protected (Server.PutPrompt "app" (JObj ∅)) = true /\
  (exists reqs,
     Server.wire (snd (Server.handle E (Server.PutPrompt "app" (JObj ∅)) st)) =
       Server.wire st ++ reqs /\
     (1 <= length reqs <= 2)%nat /\
     Forall (fun r => req_headers r = headers (session fresh_client)) reqs /\
     (Server.status (fst (Server.handle E (Server.PutPrompt "app" (JObj ∅)) st)) =
        Some (Server.success_status (Server.PutPrompt "app" (JObj ∅))) \/
      Server.status (fst (Server.handle E (Server.PutPrompt "app" (JObj ∅)) st)) =
        Some 500)) /\
  Server.handle E (Server.PutPrompt "app" (JList [])) st =
    (Server.jsonify (Server.error_object "AttributeError") 500, st).
Proof.
  cbv zeta. split; [reflexivity|]. split.
  - apply (proj1 (protected_routes_answer_success_or_500
                    (scenario [answer 200 (JObj some_config); answer 200 (JObj ∅)])
                    (Server.PutPrompt "app" (JObj ∅)) fresh_client
                    {| Server.client := Some fresh_client; Server.wire := [] |}
                    eq_refl eq_refl)).
    reflexivity.
  - apply (proj2 (protected_routes_answer_success_or_500
                    (scenario [answer 200 (JObj some_config); answer 200 (JObj ∅)])
                    (Server.PutPrompt "app" (JList [])) fresh_client
                    {| Server.client := Some fresh_client; Server.wire := [] |}
                    eq_refl eq_refl) (JList []) eq_refl eq_refl).
Defined.

(** X15 on a run: a /login body whose [base_url] is [null]. *)
Lemma login_rejects_non_string_base_url_witness :
  let E := scenario [] in
  let d : gmap string json := <["base_url" := JNull]> credentials in
  d !! "base_url" = Some JNull /\
  Server.handle E (Server.PostLogin (JObj d)) no_client =
    (Server.jsonify (Server.error_object (exn_str E (AttributeError "rstrip" JNull))) 401,
     no_client).
Proof.
  cbv zeta. split; [vm_compute; reflexivity|].
  apply (login_rejects_non_string_base_url (scenario [])
           (<["base_url" := JNull]> credentials) JNull no_client).
  - vm_compute. reflexivity.
  - vm_compute. reflexivity.
  - vm_compute. reflexivity.
  - intros u H. discriminate H.
Defined.

(** X17 on a run: a /login while another client is bound. *)
Lemma login_sends_one_unauthenticated_request_witness :
  let E := scenario [answer 401 (JObj ∅)] in
  let st := {| Server.client := Some (with_authorization fresh_client "Bearer old");
               Server.wire := [] |} in
  exists u r,
    dict_get_default "base_url" (JStr (Server.default_base_url E)) credentials
      = JStr u /\
    Server.wire (snd (Server.handle E (Server.PostLogin (JObj credentials)) st)) =
      Server.wire st ++ [r] /\
    req_method r = POST /\
    req_url r = (rstrip_slash u +:+ "/console/api") +:+ "/login" /\
    req_headers r = ∅ /\
    req_body r = JsonPayload (JObj (<["email" := dict_get "email" credentials]>
                   (<["password" := dict_get "password" credentials]> ∅))).
Proof.
  cbv zeta.
  apply (login_sends_one_unauthenticated_request (scenario [answer 401 (JObj ∅)])
           credentials
           {| Server.client := Some (with_authorization fresh_client "Bearer old");
              Server.wire := [] |}).
  - vm_compute. reflexivity.
  - vm_compute. reflexivity.
  - intros v H. vm_compute in H. injection H as <-. eexists. reflexivity.
Defined.

(** X18 on a run: a login followed by two protected routes. *)
Lemma logged_in_routes_send_token_witness :
  let E := scenario [answer 200 (token_body "T"); answer 200 (JList []);
                     answer 200 (JObj ∅)] in
  let eps := [Server.GetApps; Server.DeleteApp "app"] in
  let st1 := snd (Server.handle E (Server.PostLogin (JObj credentials)) no_client) in
  Forall (fun ep => Server.protected ep = true) eps /\
  fst (Server.handle E (Server.PostLogin (JObj credentials)) no_client) =
    Server.jsonify Server.login_success 200 /\
  exists reqs,
    Server.wire (serve E eps st1) = Server.wire st1 ++ reqs /\
    Forall (fun r => req_headers r =
                     <["Authorization" := "Bearer " +:+ Client.fmt E (JStr "T")]> ∅) reqs.
Proof.
  cbv zeta.
  assert (H : Forall (fun ep => Server.protected ep = true)
                [Server.GetApps; Server.DeleteApp "app"]).
  { each_request; reflexivity. }
  split; [exact H|].
  apply (logged_in_routes_send_token
           (scenario [answer 200 (token_body "T"); answer 200 (JList []);
                      answer 200 (JObj ∅)])
           credentials no_client "http://dify/" fresh_client
           {| status_code := 200; json_body := Some (token_body "T") |}
           (<["data" := JObj (<["access_token" := JStr "T"]> ∅)]> ∅)
           (<["access_token" := JStr "T"]> ∅) (JStr "T")
           [Server.GetApps; Server.DeleteApp "app"]);
    first [exact H | vm_compute; reflexivity].
Defined.

(** X20 on a run: a remote that gives back what was written. *)
Lemma add_variables_example_accumulates_witness :
  let v1 := JObj (<["variable" := JStr "user_name"]>
                 (<["type" := JStr "text-input"]>
                 (<["label" := JStr "Your Name"]>
                 (<["required" := JBool true]>
                 (<["max_length" := JInt 50]> ∅))))) in
  let v2 := JObj (<["variable" := JStr "question_details"]>
                 (<["type" := JStr "paragraph"]>
                 (<["label" := JStr "Describe your question in detail"]>
                 (<["required" := JBool false]>
                 (<["max_length" := JInt 500]> ∅))))) in
  let doc1 : gmap string json :=
    <["user_input_form" := JList ([JStr "first"] ++ [v1])]> some_parameters in
  let E := scenario [answer 200 (JObj some_parameters); answer 200 (JObj ∅);
                     answer 200 (JObj doc1); answer 200 (JObj ∅)] in
  let p := {| proc := idle fresh_client; stdout := [] |} in
  let url := "http://dify/console/api/apps/app/parameters" in
  let fetch := Client.session_req fresh_client GET url NoPayload in
  let write := fun doc => Client.session_req fresh_client POST url (JsonPayload (JObj doc)) in
  some_parameters !! "user_input_form" = Some (JList [JStr "first"]) /\
  exists doc2 : gmap string json,
    sent (proc (snd (add_variables_example E "app" p))) =
      [fetch; write doc1; fetch; write doc2] /\
    doc2 !! "user_input_form" = Some (JList [JStr "first"; v1; v2]) /\
    doc2 !! "opening_statement" = Some (JStr "Hello").
Proof.
  cbv zeta. split; [vm_compute; reflexivity|].
  destruct (add_variables_example_accumulates
              (scenario
                 [answer 200 (JObj some_parameters); answer 200 (JObj ∅);
                  answer 200
                    (JObj (<["user_input_form" :=
                              JList ([JStr "first"] ++
                                     [JObj (<["variable" := JStr "user_name"]>
                                           (<["type" := JStr "text-input"]>
                                           (<["label" := JStr "Your Name"]>
                                           (<["required" := JBool true]>
                                           (<["max_length" := JInt 50]> ∅)))))])]>
                             some_parameters));
                  answer 200 (JObj ∅)])
              "app" {| proc := idle fresh_client; stdout := [] |}
              {| status_code := 200; json_body := Some (JObj some_parameters) |}
              some_parameters [JStr "first"] (JObj ∅)
              {| status_code := 200;
                 json_body :=
                   Some (JObj (<["user_input_form" :=
                                  JList ([JStr "first"] ++
                                         [JObj (<["variable" := JStr "user_name"]>
                                               (<["type" := JStr "text-input"]>
                                               (<["label" := JStr "Your Name"]>
                                               (<["required" := JBool true]>
                                               (<["max_length" := JInt 50]> ∅)))))])]>
                                some_parameters)) |}
              eq_refl eq_refl eq_refl (or_intror eq_refl) eq_refl eq_refl eq_refl eq_refl)
    as [doc2 [Hsent [Hform Hframe]]].
  exists doc2. split; [exact Hsent|]. split; [exact Hform|].
  rewrite Hframe by discriminate. vm_compute. reflexivity.
Defined.

(** X21 on a run: the creation is answered with an object without [id]. *)
Lemma creation_failure_stops_script_witness :
  let E := scenario [answer 200 (JObj ∅)] in
  let p := {| proc := idle fresh_client; stdout := [] |} in
  let create := Client.session_req fresh_client POST "http://dify/console/api/apps"
      (JsonPayload (JObj (<["name" := JStr "Product Recommendation Assistant"]>
         (<["mode" := JStr "chat"]> (<["icon" := JStr "🛍️"]>
         (<["description" := JStr "Helps users find the perfect product"]> ∅)))))) in
  getitem (JObj ∅) "id" = Raise (KeyError "id") /\
  create_and_configure_app_example E p =
    (Raise (KeyError "id"),
     {| proc := {| self := fresh_client; sent := [create] |};
        stdout := [nl +:+ times "=" 60;
                   "Creating and configuring a complete app...";
                   times "=" 60 +:+ nl;
                   "1. Creating app..."] |}).
Proof.
  cbv zeta. split; [reflexivity|].
  apply (creation_failure_stops_script (scenario [answer 200 (JObj ∅)])
           {| proc := idle fresh_client; stdout := [] |} (KeyError "id")).
  right. exists (JObj ∅). split; [vm_compute; reflexivity|reflexivity].
Defined.

(** X22 on a run: the creation is answered with the identifier [a1]; the
    first configuration request then finds the remote gone. *)
Lemma configuration_targets_created_app_witness :
  let app := JObj (<["id" := JStr "a1"]> ∅) in
  let E := scenario [answer 200 app] in
  let p := {| proc := idle fresh_client; stdout := [] |} in
  let create := Client.session_req fresh_client POST "http://dify/console/api/apps"
      (JsonPayload (JObj (<["name" := JStr "Product Recommendation Assistant"]>
         (<["mode" := JStr "chat"]> (<["icon" := JStr "🛍️"]>
         (<["description" := JStr "Helps users find the perfect product"]> ∅)))))) in
  let out := create_and_configure_app_example E p in
  getitem app "id" = Return (JStr "a1") /\
  (forall v, fst out = Return v -> v = JStr "a1") /\
  self (proc (snd out)) = fresh_client /\
  exists reqs,
    sent (proc (snd out)) = create :: reqs /\
    Forall (about_app fresh_client "a1") reqs.
Proof.
  cbv zeta. split; [vm_compute; reflexivity|].
  apply (configuration_targets_created_app
           (scenario [answer 200 (JObj (<["id" := JStr "a1"]> ∅))])
           {| proc := idle fresh_client; stdout := [] |}
           (JObj (<["id" := JStr "a1"]> ∅)) (JStr "a1")).
  - vm_compute. reflexivity.
  - vm_compute. reflexivity.
Defined.

End FurtherRuns.
